(** * phl_courts_scraper_batch.aws: a shallow embedding and its properties

    The module [aws.py] fans a scraping job out over an ECS cluster
    ([AWS.submit_jobs]), merges the partition files the tasks leave on S3
    ([AWS.combine_parallel_results]) and mirrors files between S3 and the
    local disk ([AWS.sync]).  The Python code is dynamically typed and
    effectful; it is embedded here as functions over a small universe of
    Python values, in a state-and-exception monad over an explicit world
    (request log of the cluster, the two file stores, the clock). *)

From Stdlib Require Import ZArith SpecFloat Ascii.
From stdpp Require Import base option list strings gmap pretty sorting.

Set Warnings "-register-all".

Local Open Scope string_scope.
Local Open Scope list_scope.
Local Open Scope Z_scope.

(** ** Python strings

    A [str] is modelled by its UTF-8 bytes.  The only separator the module
    splits on is ["/"], an ASCII byte that never occurs inside a multi-byte
    sequence, so splitting and joining bytes agrees with splitting and joining
    code points. *)

Module PyStr.

(** [s.split(sep)] for a one-character separator: empty fields are kept and
    the result is never empty. *)
Fixpoint split (sep : ascii) (s : string) : list string :=
  match s with
  | EmptyString => [EmptyString]
  | String c s' =>
      if Ascii.eqb c sep then EmptyString :: split sep s'
      else match split sep s' with
           | [] => [String c EmptyString]
           | w :: ws => String c w :: ws
           end
  end.

(** [sep.join(l)]. *)
Fixpoint join (sep : string) (l : list string) : string :=
  match l with
  | [] => EmptyString
  | [x] => x
  | x :: xs => x +:+ sep +:+ join sep xs
  end.

(** [c in s] for a single character. *)
Fixpoint contains (c : ascii) (s : string) : bool :=
  match s with
  | EmptyString => false
  | String d s' => Ascii.eqb d c || contains c s'
  end.

(** [s.startswith(p)]. *)
Definition startswith (p s : string) : bool := String.prefix p s.

(** [s.endswith(p)]. *)
Definition endswith (p s : string) : bool :=
  String.prefix (String.rev p) (String.rev s).

(** [s[n:]]. *)
Fixpoint drop (n : nat) (s : string) : string :=
  match n, s with
  | O, _ => s
  | S n', String _ s' => drop n' s'
  | S _, EmptyString => EmptyString
  end.

End PyStr.

(** ** Python values and exceptions *)

(** The values that cross the module's interfaces: JSON documents decoded by
    [simplejson] and the response dictionaries of [boto3].  Dictionaries keep
    their insertion order, as Python's do. *)
Inductive pyval : Type :=
| PNone
| PBool (b : bool)
| PInt (n : Z)
| PFloat (f : spec_float)
| PStr (s : string)
| PList (items : list pyval)
| PDict (entries : list (string * pyval)).

(** The exceptions the module raises itself or lets through. *)
Inductive exn : Type :=
| TypeError (msg : string)
| KeyError (key : string)
| IndexError (msg : string)
| ValueError (msg : string)
| AttributeError (msg : string)
| FileNotFoundError (msg : string)
| LibraryError (name : string).

Inductive result (A : Type) : Type :=
| Ok (a : A)
| Raise (e : exn).
Arguments Ok {A} a.
Arguments Raise {A} e.

Definition rbind {A B} (r : result A) (k : A → result B) : result B :=
  match r with
  | Ok a => k a
  | Raise e => Raise e
  end.

(** A subscript is a string or an integer literal everywhere in the module. *)
Inductive pykey : Type :=
| KStr (s : string)
| KInt (i : Z).

Module Py.

(** Truth value of an object, as [if v] and [not v] test it. *)
Definition truthy (v : pyval) : bool :=
  match v with
  | PNone => false
  | PBool b => b
  | PInt n => negb (n =? 0)
  | PFloat (S754_zero _) => false
  | PFloat _ => true
  | PStr s => negb (String.eqb s "")
  | PList l => negb (bool_decide (l = []))
  | PDict kvs => negb (bool_decide (kvs = []))
  end.

(** [l[i]] on a list: negative indices count from the end. *)
Definition index {A} (l : list A) (i : Z) : result A :=
  let j := if i <? 0 then i + Z.of_nat (length l) else i in
  if j <? 0 then Raise (IndexError "list index out of range")
  else match l !! Z.to_nat j with
       | Some x => Ok x
       | None => Raise (IndexError "list index out of range")
       end.

Fixpoint dict_get (kvs : list (string * pyval)) (k : string) : option pyval :=
  match kvs with
  | [] => None
  | (k', v) :: rest => if String.eqb k' k then Some v else dict_get rest k
  end.

(** [v[k]]. *)
Definition getitem (v : pyval) (k : pykey) : result pyval :=
  match v, k with
  | PDict kvs, KStr s =>
      match dict_get kvs s with
      | Some x => Ok x
      | None => Raise (KeyError s)
      end
  | PDict _, KInt i => Raise (KeyError (pretty i))
  | PList l, KInt i => index l i
  | PList _, KStr _ =>
      Raise (TypeError "list indices must be integers or slices, not str")
  | PStr s, KInt i =>
      match index (String.list_ascii_of_string s) i with
      | Ok c => Ok (PStr (String c EmptyString))
      | Raise _ => Raise (IndexError "string index out of range")
      end
  | PStr _, KStr _ => Raise (TypeError "string indices must be integers")
  | _, _ => Raise (TypeError "object is not subscriptable")
  end.

(** [len(v)]. *)
Definition len (v : pyval) : result Z :=
  match v with
  | PList l => Ok (Z.of_nat (length l))
  | PDict kvs => Ok (Z.of_nat (length kvs))
  | PStr s => Ok (Z.of_nat (String.length s))
  | _ => Raise (TypeError "object has no len()")
  end.

End Py.

(** ** [parse_aws_path] *)

(** [bucket = path.split("/")[2]; key = "/".join(path.split("/")[3:])]. *)
Definition parse_aws_path (path : string) : result (string * string) :=
  rbind (Py.index (PyStr.split "/" path) 2) (λ bucket,
    let key := PyStr.join "/" (drop 3 (PyStr.split "/" path)) in
    Ok (bucket, key)).


(** ** More of Python's strings and sequences *)

Module PyExtra.

(** [s.rstrip(c)] for a single character. *)
Fixpoint rstrip (c : ascii) (s : string) : string :=
  match s with
  | EmptyString => EmptyString
  | String d s' =>
      match rstrip c s' with
      | EmptyString => if Ascii.eqb d c then EmptyString else String d EmptyString
      | r => String d r
      end
  end.

(** [s.lstrip(c)] for a single character. *)
Fixpoint lstrip (c : ascii) (s : string) : string :=
  match s with
  | EmptyString => EmptyString
  | String d s' => if Ascii.eqb d c then lstrip c s' else s
  end.

(** The order of [sorted] on strings: byte-wise lexicographic, which on
    UTF-8 is the order of the code points. *)
Definition str_le (a b : string) : Prop := String.leb a b = true.

#[global] Instance str_le_dec a b : Decision (str_le a b).
Proof. unfold str_le. apply _. Defined.

(** [sorted(l)] on a list of strings. *)
Definition sorted (l : list string) : list string := merge_sort str_le l.

(** [range(0, n)]. *)
Definition range (n : Z) : list Z := Z.of_nat <$> seq 0 (Z.to_nat n).

(** [for x in v]: the items of a list, the keys of a dictionary, the
    characters of a string. *)
Definition iter (v : pyval) : result (list pyval) :=
  match v with
  | PList l => Ok l
  | PDict kvs => Ok ((λ kv, PStr kv.1) <$> kvs)
  | PStr s => Ok ((λ c, PStr (String c EmptyString)) <$> String.list_ascii_of_string s)
  | _ => Raise (TypeError "object is not iterable")
  end.

(** [c.split("/")] on an object: only strings have the method. *)
Definition split_method (v : pyval) : result (list string) :=
  match v with
  | PStr s => Ok (PyStr.split "/" s)
  | _ => Raise (AttributeError "object has no attribute 'split'")
  end.

(** [[f(x) for x in l]] where [f] may raise. *)
Fixpoint mapR {A B} (f : A → result B) (l : list A) : result (list B) :=
  match l with
  | [] => Ok []
  | x :: xs => rbind (f x) (λ y, rbind (mapR f xs) (λ ys, Ok (y :: ys)))
  end.

(** [[x for x in l if p(x)]] where [p] may raise. *)
Fixpoint filterR {A} (p : A → result bool) (l : list A) : result (list A) :=
  match l with
  | [] => Ok []
  | x :: xs =>
      rbind (p x) (λ b, rbind (filterR p xs) (λ ys, Ok (if b then x :: ys else ys)))
  end.

End PyExtra.

(** ** Paths: [pathlib], [os.path] and the paths of [fsspec]

    A local file is named by its absolute path, ["/"] followed by the
    components joined with ["/"].  Symbolic links are not modelled, so
    [".."] is resolved on the text of the path. *)

Module Paths.

(** The components that count: empty ones and ["."] are skipped. *)
Definition parts (p : string) : list string :=
  filter (λ c, c ≠ "" ∧ c ≠ ".") (PyStr.split "/" p).

Definition is_abs (p : string) : bool := PyStr.startswith "/" p.

Definition step (acc : list string) (c : string) : list string :=
  if String.eqb c ".." then removelast acc else acc ++ [c].

(** The components of [p] once made absolute from the directory [base]. *)
Definition resolve (base p : string) : list string :=
  fold_left step (parts p) (if is_abs p then [] else fold_left step (parts base) []).

(** The name under which the operating system finds [p] when the process
    works in [base]. *)
Definition os_path (base p : string) : string :=
  "/" +:+ PyStr.join "/" (resolve base p).

(** [a / b] of [pathlib], as a string. *)
Definition joinpath (a b : string) : string :=
  if is_abs b then b else a +:+ "/" +:+ b.

Fixpoint strip_prefix (pre l : list string) : option (list string) :=
  match pre, l with
  | [], _ => Some l
  | x :: pre', y :: l' => if String.eqb x y then strip_prefix pre' l' else None
  | _ :: _, [] => None
  end.

(** [str(Path(p).resolve().relative_to(home))]: [ValueError] when [p] does
    not lie below [home]. *)
Definition resolve_relative_to (home base p : string) : result string :=
  match (if is_abs home then strip_prefix (parts home) (resolve base p) else None) with
  | Some [] => Ok "."
  | Some rel => Ok (PyStr.join "/" rel)
  | None => Raise (ValueError "path is not in the subpath of HOME_DIR")
  end.

(** [os.path.normpath] of [posixpath]. *)
Definition normpath_step (slashes : nat) (acc : list string) (c : string) : list string :=
  if bool_decide (c = "" ∨ c = ".") then acc
  else if negb (String.eqb c "..")
          || (bool_decide (slashes = 0%nat) && bool_decide (acc = []))
          || (match last acc with Some c' => String.eqb c' ".." | None => false end)
       then acc ++ [c]
       else removelast acc.

Definition normpath (path : string) : string :=
  if String.eqb path "" then "."
  else
    let slashes : nat :=
      if PyStr.startswith "/" path then
        if PyStr.startswith "//" path && negb (PyStr.startswith "///" path)
        then 2%nat else 1%nat
      else 0%nat in
    let comps := fold_left (normpath_step slashes) (PyStr.split "/" path) [] in
    let body := PyStr.join "/" comps in
    let res := match slashes with
               | O => body
               | S O => "/" +:+ body
               | _ => "//" +:+ body
               end in
    if String.eqb res "" then "." else res.

(** [S3FileSystem._strip_protocol]: the name of an object is
    ["bucket/key"], without the scheme and without trailing slashes. *)
Definition s3_key (path : string) : string :=
  let p := if PyStr.startswith "s3://" path then PyStr.drop 5 path
           else if PyStr.startswith "s3a://" path then PyStr.drop 6 path
           else path in
  PyExtra.rstrip "/" p.

(** [S3FileSystem.split_path]: what is left once leading slashes are
    dropped too names the object, bucket first, then the key. *)
Definition s3_name (path : string) : string := PyExtra.lstrip "/" (s3_key path).

(** The key is what follows the first slash of the name: a path that names
    a bucket only has none. *)
Definition has_key (path : string) : bool := PyStr.contains "/" (s3_name path).

(** The last component of a path, the name of the file itself. *)
Definition basename (p : string) : string := default "" (last (PyStr.split "/" p)).

End Paths.

(** ** The world outside the process *)

(** A stored file: its bytes and its modification time. *)
Record file : Type := File { data : string; mtime : Z }.

(** The requests the module sends to the cluster services through [boto3]
    (ECS, and EC2 for the subnets), with the arguments it passes. *)
Inductive request : Type :=
| ListClusters
| DescribeSubnets
| ListTaskDefinitions (familyPrefix sort : string)
| RunTask (taskDefinition : pyval) (cluster : string)
          (networkConfiguration : pyval) (launchType : string)
          (container : string) (command : list string)
| StopTask (cluster : string) (task : pyval)
| WaitTasksStopped (cluster : string) (tasks : list pyval) (delay max_attempts : Z)
| DescribeTasks (cluster : string) (tasks : list pyval).

(** What the process can observe and change.  [subnets] and
    [task_definition] are the two attributes of the [AWS] object that
    [_init_cluster] sets; an attribute that was never set is [None] here.
    [requests] and [transfers] record, oldest first, the calls sent to the
    cluster and the files moved by [remote.get] and [remote.put].  [remote]
    holds the objects of S3 under their names ["bucket/key"], [local] the
    files of the disk under their absolute paths; [cwd] is the working
    directory of the process and [clock] the time. *)
Record state : Type := State {
  subnets : option pyval;
  task_definition : option pyval;
  requests : list request;
  remote : gmap string file;
  local : gmap string file;
  cwd : string;
  clock : Z;
  transfers : list (string * string)
}.

Definition set_subnets (v : pyval) (st : state) : state :=
  State (Some v) (task_definition st) (requests st) (remote st) (local st)
        (cwd st) (clock st) (transfers st).
Definition set_task_definition (v : pyval) (st : state) : state :=
  State (subnets st) (Some v) (requests st) (remote st) (local st)
        (cwd st) (clock st) (transfers st).
Definition log_request (rq : request) (st : state) : state :=
  State (subnets st) (task_definition st) (requests st ++ [rq]) (remote st)
        (local st) (cwd st) (clock st) (transfers st).
Definition set_remote (m : gmap string file) (st : state) : state :=
  State (subnets st) (task_definition st) (requests st) m (local st)
        (cwd st) (clock st) (transfers st).
(** Storing a file stamps it with the clock, which then moves on. *)
Definition write_remote (key bytes : string) (st : state) : state :=
  State (subnets st) (task_definition st) (requests st)
        (<[key := File bytes (clock st)]> (remote st)) (local st)
        (cwd st) (clock st + 1) (transfers st).
Definition write_local (key bytes : string) (st : state) : state :=
  State (subnets st) (task_definition st) (requests st) (remote st)
        (<[key := File bytes (clock st)]> (local st))
        (cwd st) (clock st + 1) (transfers st).
Definition log_transfer (src dst : string) (st : state) : state :=
  State (subnets st) (task_definition st) (requests st) (remote st) (local st)
        (cwd st) (clock st) (transfers st ++ [(src, dst)]).

(** What [json.loads] yields from a partition file: the scrape tasks write
    a JSON array or a JSON object of records, and the reducer is modelled on
    these two shapes of the top-level value. *)
Inductive json_doc : Type :=
| JArray (items : list pyval)
| JObject (entries : list (string * pyval)).

(** The collaborators the module is written against.  They are parameters
    of the development: the package constants [APP_NAME] and [HOME_DIR] and
    the helper [io.get_output_paths] (of which the first component, as the
    f-string prints it, is what is used) live in files of the package other
    than [aws.py]; the cluster answers requests as it sees fit, possibly by
    raising, and its answer may depend on what it has been asked before;
    the listing calls of the two file systems and the JSON and CSV codecs
    are library code. *)
Class Env : Type := {
  APP_NAME : string;
  HOME_DIR : string;
  get_output_paths : string → string → option string → string;
  aws_reply : list request → request → result pyval;
  (** the objects on S3 once the waited-for tasks have stopped *)
  task_output : list request → gmap string file → gmap string file;
  s3_exists : gmap string file → string → bool;
  s3_isdir : gmap string file → string → bool;
  s3_glob : gmap string file → string → list string;
  s3_find : gmap string file → string → list string;
  local_find : gmap string file → string → list string;
  json_loads : string → result json_doc;
  json_dumps : list pyval → string;
  frame : Type;
  read_csv : string → result frame;
  pd_concat : frame → frame → frame;
  to_csv : frame → string
}.

(** ** Computations: state and exceptions

    A statement of the module is a function from the state to an outcome and
    the state it leaves; what was done before an exception stays done. *)
Definition M (A : Type) : Type := state → result A * state.

#[global] Instance result_ret : MRet result := λ A a, Ok a.
#[global] Instance result_bind : MBind result := λ A B k r, rbind r k.

#[global] Instance M_ret : MRet M := λ A a st, (Ok a, st).
#[global] Instance M_bind : MBind M := λ A B k m st,
  match m st with
  | (Ok a, st') => k a st'
  | (Raise e, st') => (Raise e, st')
  end.

Definition raise {A} (e : exn) : M A := λ st, (Raise e, st).
Definition lift {A} (r : result A) : M A := λ st, (r, st).
Definition get_state : M state := λ st, (Ok st, st).
Definition modify (f : state → state) : M unit := λ st, (Ok tt, f st).

(** [for x in l: body]. *)
Fixpoint for_each {A} (l : list A) (body : A → M unit) : M unit :=
  match l with
  | [] => mret tt
  | x :: xs => body x ;; for_each xs body
  end.

(** A loop that carries the variables it assigns. *)
Fixpoint for_fold {A S} (l : list A) (s : S) (body : S → A → M S) : M S :=
  match l with
  | [] => mret s
  | x :: xs => s' ← body s x; for_fold xs s' body
  end.

(** ** The module

    The calls to [logger] are left out: a log line changes nothing of the
    state above.  Where the text of a log line is computed by an expression
    that can raise, the expression is kept. *)

Section program.
Context `{Env}.

(** [self.cluster_name = f"{APP_NAME}-cluster"]. *)
Definition cluster_name : string := APP_NAME +:+ "-cluster".

(** A call to the cluster: the request is recorded and answered. *)
Definition call (rq : request) : M pyval :=
  λ st, (aws_reply (requests st) rq, log_request rq st).

(** *** File system calls *)

(** [self.remote.open(path, "rb").read()]. *)
Definition remote_read (path : string) : M string := λ st,
  match remote st !! Paths.s3_key path with
  | Some f => (Ok (data f), st)
  | None => (Raise (FileNotFoundError path), st)
  end.

(** [self.remote.open(path, "w")] with one [write].  A path without a key
    cannot be opened: [s3fs] raises [ValueError] and nothing is stored. *)
Definition remote_write (path bytes : string) : M unit :=
  if Paths.has_key path then modify (write_remote (Paths.s3_name path) bytes)
  else raise (ValueError ("Attempt to open non key-like path: " +:+ Paths.s3_key path)).

(** [self.remote.modified(path)]. *)
Definition remote_modified (path : string) : M Z := λ st,
  match remote st !! Paths.s3_key path with
  | Some f => (Ok (mtime f), st)
  | None => (Raise (FileNotFoundError path), st)
  end.

(** A relative path handed to the local file system or to [pathlib] is
    resolved by the operating system against the working directory. *)
Definition local_read (path : string) : M string := λ st,
  match local st !! Paths.os_path (cwd st) path with
  | Some f => (Ok (data f), st)
  | None => (Raise (FileNotFoundError path), st)
  end.

(** [self.local.modified(path)]; only files carry a time in the model. *)
Definition local_modified (path : string) : M Z := λ st,
  match local st !! Paths.os_path (cwd st) path with
  | Some f => (Ok (mtime f), st)
  | None => (Raise (FileNotFoundError path), st)
  end.

(** Whether the operating system finds something at [path]: a file, or a
    directory, which is there when a file lies below it. *)
Definition os_exists (st : state) (path : string) : bool :=
  let key := Paths.os_path (cwd st) path in
  bool_decide (is_Some (local st !! key))
  || bool_decide (Exists (λ k, String.prefix (key +:+ "/") k = true)
                         (elements (dom (local st)))).

(** [Path(path).exists()]. *)
Definition path_exists (path : string) : M bool := λ st, (Ok (os_exists st path), st).

(** *** [AWS.exists] *)
Definition aws_exists (path : string) : M bool :=
  if PyStr.startswith "s3://" path then
    st ← get_state; mret (s3_exists (remote st) path)
  else
    st ← get_state;
    path ← lift (Paths.resolve_relative_to HOME_DIR (cwd st) path);
    mret (os_exists st path).

(** *** [AWS.combine_parallel_results] *)

(** [r = [v for _, v in r.items() if v]] when the document is a mapping. *)
Definition doc_values (r : json_doc) : list pyval :=
  match r with
  | JArray items => items
  | JObject entries => filter (λ v, Py.truthy v = true) (snd <$> entries)
  end.

(** The variable [results]: [None], a list of records or a data frame. *)
Inductive merged : Type :=
| NoResult
| Records (l : list pyval)
| Table (t : frame).

(** The body of [for f in files].  [extension] is the same for all the
    files of one pair, so the two branches that meet a [results] of the
    other kind are never taken. *)
Definition load_file (extension : string) (results : merged) (f : string) : M merged :=
  bytes ← remote_read f;
  if String.eqb extension ".json" then
    r ← lift (json_loads bytes);
    let r := doc_values r in
    match results with
    | NoResult => mret (Records r)
    | Records l => mret (Records (l ++ r))
    | Table _ => raise (TypeError "unsupported operand")
    end
  else
    r ← lift (read_csv bytes);
    match results with
    | NoResult => mret (Table r)
    | Table t => mret (Table (pd_concat t r))
    | Records _ => raise (TypeError "cannot concatenate object of type list")
    end.

(** The name of the combined artifact of one pair. *)
Definition combined_filename (output_folder tag extension : string) : string :=
  let filename := output_folder +:+ "/../" +:+ tag +:+ extension in
  let filename := if PyStr.startswith "s3://" filename then PyStr.drop 5 filename
                  else filename in
  "s3://" +:+ Paths.normpath filename.

Definition no_files_error (flavor dataset output_folder : string) : exn :=
  ValueError ("No files found for dataset '" +:+ dataset +:+ "' and kind '"
              +:+ flavor +:+ "' in output folder '" +:+ output_folder +:+ "'").

(** The body of [for i, (tag, extension) in enumerate(zip(tags, extensions))];
    it carries [data_file]. *)
Definition combine_pair (flavor dataset output_folder : string)
    (data_file : pyval) (ite : nat * (string * string)) : M pyval :=
  let '(i, (tag, extension)) := ite in
  let pattern := output_folder +:+ "/" +:+ tag +:+ "*" +:+ extension in
  st ← get_state;
  let files := PyExtra.sorted (s3_glob (remote st) pattern) in
  if bool_decide (length files = 0%nat) then
    raise (no_files_error flavor dataset output_folder)
  else
    results ← for_fold files NoResult (load_file extension);
    let filename := combined_filename output_folder tag extension in
    let data_file := if bool_decide (i = 0%nat) then PStr filename else data_file in
    (* [len(results)], evaluated for the log line of the first pair *)
    (if bool_decide (i = 0%nat) then
       match results with
       | NoResult => raise (TypeError "object of type 'NoneType' has no len()")
       | _ => mret tt
       end
     else mret tt) ;;
    (if String.eqb extension ".json" then
       match results with
       | Records l => remote_write filename (json_dumps l)
       | _ => raise (TypeError "Object is not JSON serializable")
       end
     else
       match results with
       | Table t => remote_write filename (to_csv t)
       | _ => raise (AttributeError "object has no attribute 'to_csv'")
       end) ;;
    mret data_file.

Definition pairs (flavor : string) : list (nat * (string * string)) :=
  [(0%nat, (flavor +:+ "_results", ".json")); (1%nat, (flavor +:+ "_input", ".csv"))].

Definition combine_parallel_results (flavor dataset output_folder : string) : M pyval :=
  (* [self.remote.invalidate_cache()]: the model keeps no listing cache *)
  found ← aws_exists output_folder;
  if negb found then
    raise (FileNotFoundError ("Output folder does not exist for parallel results: '"
                              +:+ output_folder +:+ "'"))
  else
    for_fold (pairs flavor) PNone (combine_pair flavor dataset output_folder).

(** *** [AWS._init_cluster] *)
Definition _init_cluster : M unit :=
  clusters ← call ListClusters;
  arns ← lift (arns ← Py.getitem clusters (KStr "clusterArns"); PyExtra.iter arns);
  cluster_names ← lift (PyExtra.mapR
    (λ c, fields ← PyExtra.split_method c; Py.index (fields : list string) (-1)) arns);
  if negb (bool_decide (cluster_name ∈ cluster_names)) then
    raise (ValueError ("Missing ECS cluster: " +:+ cluster_name))
  else
    described ← call DescribeSubnets;
    ids ← lift (found ← Py.getitem described (KStr "Subnets");
                found ← PyExtra.iter found;
                PyExtra.mapR (λ d, Py.getitem d (KStr "SubnetId")) found);
    modify (set_subnets (PList ids)) ;;
    tasks ← call (ListTaskDefinitions APP_NAME "ASC");
    latest ← lift (arns ← Py.getitem tasks (KStr "taskDefinitionArns");
                   Py.getitem arns (KInt (-1)));
    modify (set_task_definition latest).

(** Reading an attribute of [self] that was never set. *)
Definition attribute (name : string) (get : state → option pyval) : M pyval := λ st,
  match get st with
  | Some v => (Ok v, st)
  | None => (Raise (AttributeError ("'AWS' object has no attribute '" +:+ name +:+ "'")), st)
  end.

(** *** [AWS.submit_jobs] *)

(** The keyword arguments, with the types of their defaults. *)
Record job : Type := Job {
  flavor : string;
  dataset : string;
  search_by : option string;
  tag : option string;
  dry_run : bool;
  sample : option Z;
  log_freq : Z;
  seed : Z;
  errors : string;
  sleep : Z;
  interval : Z;
  time_limit : Z;
  output_folder : option string;
  debug : bool;
  ntasks : Z;
  wait : bool
}.

Definition optional {A} (o : option A) (f : A → string) : list string :=
  match o with
  | Some x => [f x]
  | None => []
  end.

(** The command shared by all partitions, output folder included. *)
Definition base_command (j : job) : list string :=
  [ "run"; APP_NAME; "scrape"; flavor j; dataset j;
    "--nprocs=" +:+ pretty (ntasks j);
    "--sleep=" +:+ pretty (sleep j);
    "--errors=" +:+ errors j;
    "--log-freq=" +:+ pretty (log_freq j);
    "--seed=" +:+ pretty (seed j);
    "--interval=" +:+ pretty (interval j);
    "--time-limit=" +:+ pretty (time_limit j) ]
  ++ optional (search_by j) (λ v, "--search-by=" +:+ v)
  ++ optional (sample j) (λ v, "--sample=" +:+ pretty v)
  ++ optional (tag j) (λ v, "--tag=" +:+ v)
  ++ (if dry_run j then ["--dry-run"] else [])
  ++ (if debug j then ["--debug"] else [])
  ++ ["--output-folder=" +:+ get_output_paths (flavor j) (dataset j) (output_folder j)].

Definition network_config (subnet_ids : pyval) : pyval :=
  PDict [("awsvpcConfiguration",
          PDict [("assignPublicIp", PStr "ENABLED"); ("subnets", subnet_ids)])].

(** The body of [for pid in range(0, ntasks)]; it carries [tasks]. *)
Definition launch (base : list string) (config : pyval)
    (tasks : list pyval) (pid : Z) : M (list pyval) :=
  let command := base ++ ["--pid=" +:+ pretty pid] in
  definition ← attribute "task_definition" task_definition;
  task ← call (RunTask definition cluster_name config "FARGATE" APP_NAME command);
  mret (tasks ++ [task]).

(** The body of the provisioning check; it carries [failed]. *)
Definition check_provisioned (failed : bool) (task : pyval) : M bool :=
  lift (handles ← Py.getitem task (KStr "tasks");
        n ← Py.len handles;
        if negb (n =? 0) then mret failed
        else
          failures ← Py.getitem handles (KStr "failures");
          m ← Py.len failures;
          if m =? 0 then mret failed
          else
            first ← Py.getitem failures (KInt 0);
            reason ← Py.getitem first (KStr "reason");
            mret true).

(** [task["tasks"][0]["taskArn"]]. *)
Definition task_arn (task : pyval) : result pyval :=
  handles ← Py.getitem task (KStr "tasks");
  first ← Py.getitem handles (KInt 0);
  Py.getitem first (KStr "taskArn").

Definition provisioning_error : exn :=
  ValueError "Error provisioning some tasks; all tasks stopped.".

(** [if not hasattr(self, "subnets"): self._init_cluster()]. *)
Definition ensure_cluster : M unit :=
  st ← get_state;
  if bool_decide (subnets st = None) then _init_cluster else mret tt.

(** The loop [for pid in range(0, ntasks)]; its value is [tasks]. *)
Definition launch_all (j : job) : M (list pyval) :=
  subnet_ids ← attribute "subnets" subnets;
  let NETWORK_CONFIG := network_config subnet_ids in
  for_fold (PyExtra.range (ntasks j)) [] (launch (base_command j) NETWORK_CONFIG).

(** What follows [if not wait: return]. *)
Definition await (j : job) (tasks : list pyval) : M pyval :=
  failed ← for_fold tasks false check_provisioned;
  tasks ← lift (PyExtra.filterR
    (λ task, handles ← Py.getitem task (KStr "tasks");
             n ← Py.len handles; mret (negb (n =? 0))) tasks);
  if failed : bool then
    for_each tasks (λ task,
      arn ← lift (task_arn task);
      call (StopTask cluster_name arn) ;; mret tt) ;;
    raise provisioning_error
  else
    task_ids ← lift (PyExtra.mapR task_arn tasks);
    call (WaitTasksStopped cluster_name task_ids 60 500) ;;
    (* the tasks have stopped: what they wrote is on S3 *)
    modify (λ st, set_remote (task_output (requests st) (remote st)) st) ;;
    task_results ← call (DescribeTasks cluster_name task_ids);
    exit_codes ← lift (described ← Py.getitem task_results (KStr "tasks");
      described ← PyExtra.iter described;
      PyExtra.mapR (λ task,
           containers ← Py.getitem task (KStr "containers");
           first ← Py.getitem containers (KInt 0);
           Py.getitem first (KStr "exitCode")) described);
    (* a non-zero exit code only produces a warning *)
    combine_parallel_results (flavor j) (dataset j)
      ("s3://" +:+ APP_NAME +:+ "/"
       +:+ get_output_paths (flavor j) (dataset j) (output_folder j) +:+ "/chunks").

Definition submit_jobs (j : job) : M pyval :=
  ensure_cluster ;;
  tasks ← launch_all j;
  if negb (wait j) then mret PNone   (* a bare [return] *)
  else await j tasks.

(** *** [AWS.sync] *)

(** The variable [SOURCE]: ["aws"] or ["local"]. *)
Inductive side : Type := Aws | Local.

(** [source_file_key] and [dest_file]: the first component of the source
    file is dropped and the rest is put below [dest]. *)
Definition source_file_key (source_file : string) : string :=
  PyStr.join "/" (drop 1 (PyStr.split "/" source_file)).

Definition dest_file_of (dest source_file : string) : string :=
  dest +:+ "/" +:+ source_file_key source_file.

(** [source_fs.modified] and [dest_fs.modified]. *)
Definition source_modified (SOURCE : side) (path : string) : M Z :=
  match SOURCE with
  | Aws => remote_modified path
  | Local => local_modified path
  end.
Definition dest_modified (SOURCE : side) (path : string) : M Z :=
  match SOURCE with
  | Aws => local_modified path
  | Local => remote_modified path
  end.

(** [self.remote.get(source_file, str(HOME_DIR / dest_file))]. *)
Definition remote_get (rpath lpath : string) : M unit :=
  bytes ← remote_read rpath;
  st ← get_state;
  let target := Paths.os_path (cwd st) lpath in
  modify (write_local target bytes) ;;
  modify (log_transfer (Paths.s3_key rpath) target).

(** Where [put] stores the file [source] sent to [rpath].  A destination
    that ends in a slash, or that S3 lists as a folder, is taken for a folder:
    the file goes inside it under its own name.  Otherwise [rpath] names the
    object. *)
Definition put_name (st : state) (source rpath : string) : string :=
  let dest_is_dir := PyStr.endswith "/" rpath || s3_isdir (remote st) rpath in
  let stripped := Paths.s3_key rpath in
  Paths.s3_name (if dest_is_dir then stripped +:+ "/" +:+ Paths.basename source
                 else stripped).

(** [self.remote.put(str(HOME_DIR / source_file), dest_file)], for a local
    path without glob characters.  The file is read, the destination is
    worked out, and the object is stored; S3 refuses an object without a
    key. *)
Definition remote_put (lpath rpath : string) : M unit :=
  bytes ← local_read lpath;
  st ← get_state;
  let source := Paths.os_path (cwd st) lpath in
  let name := put_name st source rpath in
  if PyStr.contains "/" name then
    modify (write_remote name bytes) ;;
    modify (log_transfer source name)
  else raise (LibraryError "ParamValidationError").

(** The test of the [if]: [or] does not look at the times when the
    destination is not found. *)
Definition out_of_date (SOURCE : side) (source_file dest_file : string) : M bool :=
  found ← path_exists dest_file;
  if negb found then mret true
  else
    s ← source_modified SOURCE source_file;
    d ← dest_modified SOURCE dest_file;
    mret (d <? s).

(** The body of [for source_file in source_files]. *)
Definition sync_file (SOURCE : side) (dest : string) (dry_run : bool)
    (source_file : string) : M unit :=
  st ← get_state;
  source_file ← match SOURCE with
                 | Local => lift (Paths.resolve_relative_to HOME_DIR (cwd st) source_file)
                 | Aws => mret source_file
                 end;
  let dest_file := dest_file_of dest source_file in
  update ← out_of_date SOURCE source_file dest_file;
  if update : bool then
    if dry_run then mret tt
    else
      match SOURCE with
      | Aws => remote_get source_file (Paths.joinpath HOME_DIR dest_file)
      | Local => remote_put (Paths.joinpath HOME_DIR source_file) dest_file
      end
  else mret tt.

(** [source_fs.find(source)]; the local file system lists a relative
    folder from the working directory and answers with absolute paths. *)
Definition find (SOURCE : side) (source : string) : M (list string) :=
  st ← get_state;
  match SOURCE with
  | Aws => mret (s3_find (remote st) source)
  | Local => mret (local_find (local st) (Paths.os_path (cwd st) source))
  end.

Definition sync (source dest : string) (dry_run : bool) : M unit :=
  SOURCE ← (if PyStr.startswith "s3://" source then mret Aws
            else if PyStr.startswith "s3://" dest then mret Local
            else raise (ValueError "One of source or dest should start with s3://"));
  st ← get_state;
  '(source, dest) ←
    match SOURCE with
    | Aws => dest ← lift (Paths.resolve_relative_to HOME_DIR (cwd st) dest);
             mret (source, dest)
    | Local => source ← lift (Paths.resolve_relative_to HOME_DIR (cwd st) source);
               mret (source, dest)
    end;
  source_files ← find SOURCE source;
  for_each source_files (sync_file SOURCE dest dry_run).

End program.

(** ** A small cluster and file system

    An instance of the collaborators on which the module can be run: the
    cluster provisions every partition but partition 1, the file systems list
    the stored names below a root, and the codecs read and print arrays of
    decimal numbers and lines of text. *)

Module Demo.

(** The names stored at [root] or below it, sorted. *)
Definition listing (fs : gmap string file) (root : string) : list string :=
  PyExtra.sorted
    (filter (λ k, k = root ∨ String.prefix (root +:+ "/") k = true)
            (elements (dom fs))).

Definition is_suffix (x s : string) : bool :=
  String.prefix (String.rev x) (String.rev s).

(** A pattern with one [*], which stands for a run of characters
    without ["/"]. *)
Definition glob (fs : gmap string file) (pattern : string) : list string :=
  match PyStr.split "*" (Paths.s3_key pattern) with
  | [pre; post] =>
      filter (λ k, String.prefix pre k = true ∧ is_suffix post k = true
                   ∧ (String.length pre + String.length post ≤ String.length k)%nat
                   ∧ PyStr.contains "/"
                       (String.substring (String.length pre)
                          (String.length k - String.length pre - String.length post) k)
                     = false)
             (elements (dom fs))
  | _ => []
  end.

Definition present (fs : gmap string file) (path : string) : bool :=
  bool_decide (listing fs (Paths.s3_key path) ≠ []).

(** A folder on S3 is a name with objects below it. *)
Definition is_folder (fs : gmap string file) (path : string) : bool :=
  bool_decide (Exists (λ k, String.prefix (Paths.s3_name path +:+ "/") k = true)
                      (elements (dom fs))).

Definition provisioned (arn : string) : pyval :=
  PDict [("tasks", PList [PDict [("taskArn", PStr arn)]]); ("failures", PList [])].

Definition rejected (reason : string) : pyval :=
  PDict [("tasks", PList []); ("failures", PList [PDict [("reason", PStr reason)]])].

Definition reply (history : list request) (rq : request) : result pyval :=
  match rq with
  | ListClusters =>
      Ok (PDict [("clusterArns",
                  PList [PStr "arn:aws:ecs:us-east-1:1:cluster/phl-courts-scraper-cluster"])])
  | DescribeSubnets =>
      Ok (PDict [("Subnets", PList [PDict [("SubnetId", PStr "subnet-1")]])])
  | ListTaskDefinitions _ _ =>
      Ok (PDict [("taskDefinitionArns",
                  PList [PStr "arn:aws:ecs:us-east-1:1:task-definition/phl-courts-scraper:7"])])
  | RunTask _ _ _ _ _ command =>
      let flag := default "" (last command) in
      if String.eqb flag "--pid=1" then Ok (rejected "RESOURCE:MEMORY")
      else Ok (provisioned ("arn:aws:ecs:us-east-1:1:task/" +:+ flag))
  | StopTask _ _ => Ok (PDict [])
  | WaitTasksStopped _ _ _ _ => Ok PNone
  | DescribeTasks _ ids =>
      Ok (PDict [("tasks",
                  PList ((λ _, PDict [("containers",
                                       PList [PDict [("exitCode", PInt 0)]])]) <$> ids))])
  end.

Definition loads (bytes : string) : result json_doc :=
  if String.eqb bytes "[1, 2]" then Ok (JArray [PInt 1; PInt 2])
  else if String.eqb bytes "[3]" then Ok (JArray [PInt 3])
  else if String.eqb bytes "[]" then Ok (JArray [])
  else Raise (LibraryError "JSONDecodeError").

Definition dumps (l : list pyval) : string :=
  "[" +:+ PyStr.join ", " ((λ v, match v with
                                  | PInt n => pretty n
                                  | _ => "null"
                                  end) <$> l) +:+ "]".

Definition read_lines (bytes : string) : result (list string) :=
  if String.eqb bytes "" then Raise (LibraryError "EmptyDataError")
  else Ok (PyStr.split "010" bytes).

#[export] Instance env : Env := {|
  APP_NAME := "phl-courts-scraper";
  HOME_DIR := "/home/u";
  get_output_paths := λ flavor dataset folder,
    match folder with
    | Some f => f
    | None => "data/" +:+ flavor +:+ "/" +:+ dataset
    end;
  aws_reply := reply;
  task_output := λ _ fs, fs;
  s3_exists := present;
  s3_isdir := is_folder;
  s3_glob := glob;
  s3_find := λ fs source, listing fs (Paths.s3_key source);
  local_find := listing;
  json_loads := loads;
  json_dumps := dumps;
  frame := list string;
  read_csv := read_lines;
  pd_concat := app;
  to_csv := PyStr.join "010"
|}.

(** A fresh [AWS] object created on the cluster itself ([on_aws], so
    [_init_cluster] has not run yet), in a process that works in
    [HOME_DIR]. *)
Definition start (remote local : gmap string file) : state :=
  State None None [] remote local "/home/u" 100 [].

Definition scrape (n : Z) (wait : bool) : job :=
  Job "court" "2020" None None false None 50 42 "ignore" 2 1 20 None false n wait.

End Demo.

Import Demo.

(** ** Vocabulary of the statements *)

(** The commands of the task launches among a sequence of requests. *)
Definition commands (rqs : list request) : list (list string) :=
  rqs ≫= λ rq, match rq with
               | RunTask _ _ _ _ _ command => [command]
               | _ => []
               end.

(** Two states whose logs hold the same launches. *)
Definition same_launches (st st' : state) : Prop :=
  commands (requests st) = commands (requests st').

(** The state after some more requests. *)
Definition add_requests (rqs : list request) (st : state) : state :=
  State (subnets st) (task_definition st) (requests st ++ rqs) (remote st)
        (local st) (cwd st) (clock st) (transfers st).

(** Two states with the same object, or none, under a name on S3. *)
Definition same_at (key : string) (st st' : state) : Prop :=
  remote st' !! key = remote st !! key.

(** A run that removes no stored file. *)
Definition only_adds (st st' : state) : Prop :=
  (∀ key, is_Some (remote st !! key) → is_Some (remote st' !! key))
  ∧ (∀ key, is_Some (local st !! key) → is_Some (local st' !! key)).

(** A run that changes stored files only where it records a transfer. *)
Definition framed (st st' : state) : Prop :=
  ∃ moved, transfers st' = transfers st ++ moved
    ∧ ∀ key, key ∉ moved.*2 →
        remote st' !! key = remote st !! key ∧ local st' !! key = local st !! key.

(** The last character of a string. *)
Fixpoint last_char (s : string) : option ascii :=
  match s with
  | EmptyString => None
  | String c EmptyString => Some c
  | String _ s' => last_char s'
  end.

Section vocabulary.
Context `{Env}.

(** The stored file [f] decodes to the document [d]. *)
Definition holds_doc (st : state) (f : string) (d : json_doc) : Prop :=
  ∃ stored, remote st !! Paths.s3_key f = Some stored ∧ json_loads (data stored) = Ok d.

(** The glob pattern and the artifact key of a pair. *)
Definition pattern_of (output_folder tag extension : string) : string :=
  output_folder +:+ "/" +:+ tag +:+ "*" +:+ extension.

Definition artifact_key (output_folder tag extension : string) : string :=
  Paths.s3_name (combined_filename output_folder tag extension).

(** The source file [f] has a destination below [dest] that is not older
    than it. *)
Definition settled (dest : string) (st : state) (f : string) : Prop :=
  ∃ src dst,
    remote st !! Paths.s3_key f = Some src
    ∧ local st !! Paths.os_path (cwd st) (dest_file_of dest f) = Some dst
    ∧ mtime src ≤ mtime dst.

(** No object on S3 is dated after the present. *)
Definition not_from_the_future (st : state) : Prop :=
  ∀ key src, remote st !! key = Some src → mtime src ≤ clock st.

(** The cluster answers every launch, be it with a failure entry. *)
Definition launches_answered : Prop :=
  ∀ history definition cluster config launch_type container command,
    ∃ task, aws_reply history
              (RunTask definition cluster config launch_type container command)
            = Ok task.

(** The launch request of partition [pid]. *)
Definition launch_request (definition subnet_ids : pyval) (j : job) (pid : Z) : request :=
  RunTask definition cluster_name (network_config subnet_ids) "FARGATE" APP_NAME
          (base_command j ++ ["--pid=" +:+ pretty pid]).

(** A launch result as [boto3] shapes it: under ["tasks"], a list. *)
Definition well_formed_launch (task : pyval) : Prop :=
  ∃ handles, Py.getitem task (KStr "tasks") = Ok (PList handles).

End vocabulary.

(** ** The constructor and the Fargate test *)

Section construction.
Context `{Env}.

(** [self.s3.create_bucket(Bucket=...)], a call of the S3 client: what it
    does to the world is left open. *)
Variable create_bucket : string → M unit.

(** [os.getenv("AWS_EXECUTION_ENV") == "AWS_ECS_FARGATE"], on the
    environment of the process as [load_dotenv] has left it. *)
Definition is_ec2_instance (environ : gmap string string) : bool :=
  bool_decide (environ !! "AWS_EXECUTION_ENV" = Some "AWS_ECS_FARGATE").

(** A new object has neither of the two attributes. *)
Definition new_object (st : state) : state :=
  State None None (requests st) (remote st) (local st) (cwd st) (clock st)
        (transfers st).

(** [AWS.__init__], of which the value here is [self.on_aws]: the bucket is
    created when S3 does not know it, and the cluster is looked up unless the
    process runs on Fargate. *)
Definition __init__ (environ : gmap string string) : M bool :=
  modify new_object ;;
  st ← get_state;
  (if negb (s3_exists (remote st) APP_NAME) then create_bucket APP_NAME
   else mret tt) ;;
  let on_aws := is_ec2_instance environ in
  (if negb on_aws then _init_cluster else mret tt) ;;
  mret on_aws.

End construction.

(** ** More vocabulary *)

(** How often a character occurs in a string. *)
Fixpoint count_char (c : ascii) (s : string) : nat :=
  match s with
  | EmptyString => 0%nat
  | String d s' => ((if Ascii.eqb d c then 1 else 0) + count_char c s')%nat
  end.

(** A path component that stands for itself: not empty, not a dot or two,
    without a slash. *)
Definition plain (c : string) : Prop :=
  c ≠ "" ∧ c ≠ "." ∧ c ≠ ".." ∧ PyStr.contains "/" c = false.

(** The name of a cluster in its ARN: what follows the last slash. *)
Definition arn_name (arn : string) : string :=
  default "" (last (PyStr.split "/" arn)).

(** The stop requests among a sequence of requests. *)
Definition stops (rqs : list request) : list request :=
  rqs ≫= λ rq, match rq with
               | StopTask _ _ => [rq]
               | _ => []
               end.

(** Two states whose logs hold the same stop requests. *)
Definition same_stops (st st' : state) : Prop :=
  stops (requests st') = stops (requests st).

(** A run after which [subnets] is still set if it was. *)
Definition subnets_stay (st st' : state) : Prop :=
  is_Some (subnets st) → is_Some (subnets st').

(** Two states with the same objects on S3, and with the same files on
    the disk. *)
Definition same_remote (st st' : state) : Prop := remote st' = remote st.
Definition same_local (st st' : state) : Prop := local st' = local st.

(** A run that only adds to the log of requests. *)
Definition requests_grow (st st' : state) : Prop :=
  ∃ more, requests st' = requests st ++ more.

(** A launch result with at least one task handle, the first of which
    carries the ARN [arn]. *)
Definition provisioned_as (task arn : pyval) : Prop :=
  ∃ handle others,
    Py.getitem task (KStr "tasks") = Ok (PList (handle :: others))
    ∧ Py.getitem handle (KStr "taskArn") = Ok arn.

(** The entry of [describe_tasks] for one task, with its exit code. *)
Definition exited_with (described code : pyval) : Prop :=
  ∃ container others,
    Py.getitem described (KStr "containers") = Ok (PList (container :: others))
    ∧ Py.getitem container (KStr "exitCode") = Ok code.

(** What [str(path.relative_to(HOME_DIR))] answers for the components [rel]. *)
Definition relative_name (rel : list string) : string :=
  match rel with
  | [] => "."
  | _ => PyStr.join "/" rel
  end.

Section more_vocabulary.
Context `{Env}.

(** Whatever the cluster answers to a launch has a list under ["tasks"]. *)
Definition launches_well_formed : Prop :=
  ∀ history definition cluster config launch_type container command task,
    aws_reply history
      (RunTask definition cluster config launch_type container command) = Ok task →
    well_formed_launch task.

(** The stored file [f] parses to the data frame [t]. *)
Definition holds_frame (st : state) (f : string) (t : frame) : Prop :=
  ∃ stored, remote st !! Paths.s3_key f = Some stored ∧ read_csv (data stored) = Ok t.

(** The stored file [f] cannot be read as JSON: it is gone, or it does not
    decode. *)
Definition unreadable (st : state) (f : string) (e : exn) : Prop :=
  (remote st !! Paths.s3_key f = None ∧ e = FileNotFoundError f)
  ∨ ∃ stored, remote st !! Paths.s3_key f = Some stored
              ∧ json_loads (data stored) = Raise e.

(** [HOME_DIR] is written without [.], [..] or doubled slashes. *)
Definition home_normal : Prop :=
  Paths.is_abs HOME_DIR = true
  ∧ fold_left Paths.step (Paths.parts HOME_DIR) [] = Paths.parts HOME_DIR.

(** The path [p], made absolute from the directory [base], lies in
    [HOME_DIR] or below it. *)
Definition below_home (base p : string) : Prop :=
  ∃ rel, Paths.resolve base p = Paths.parts HOME_DIR ++ rel.

End more_vocabulary.

(** ** More clusters for the examples *)

Module Scenes.

(** The small file system of [Demo] with another cluster. *)
Definition env_of (reply : list request → request → result pyval) : Env := {|
  APP_NAME := "phl-courts-scraper";
  HOME_DIR := "/home/u";
  get_output_paths := λ flavor dataset folder,
    match folder with
    | Some f => f
    | None => "data/" +:+ flavor +:+ "/" +:+ dataset
    end;
  aws_reply := reply;
  task_output := λ _ fs, fs;
  s3_exists := Demo.present;
  s3_isdir := Demo.is_folder;
  s3_glob := Demo.glob;
  s3_find := λ fs source, Demo.listing fs (Paths.s3_key source);
  local_find := Demo.listing;
  json_loads := Demo.loads;
  json_dumps := Demo.dumps;
  frame := list string;
  read_csv := Demo.read_lines;
  pd_concat := app;
  to_csv := PyStr.join "010"
|}.

(** An account whose only cluster has another name. *)
Definition elsewhere (history : list request) (rq : request) : result pyval :=
  match rq with
  | ListClusters =>
      Ok (PDict [("clusterArns",
                  PList [PStr "arn:aws:ecs:us-east-1:1:cluster/another-cluster"])])
  | _ => Demo.reply history rq
  end.

(** An account in which no task definition has been registered. *)
Definition unregistered (history : list request) (rq : request) : result pyval :=
  match rq with
  | ListTaskDefinitions _ _ => Ok (PDict [("taskDefinitionArns", PList [])])
  | _ => Demo.reply history rq
  end.

(** A cluster that provisions every partition, on which the waiter gives up
    and whose tasks end with exit code 1. *)
Definition slow (history : list request) (rq : request) : result pyval :=
  match rq with
  | RunTask _ _ _ _ _ command =>
      Ok (Demo.provisioned ("arn:aws:ecs:us-east-1:1:task/"
                            +:+ default "" (last command)))
  | WaitTasksStopped _ _ _ _ => Raise (LibraryError "WaiterError")
  | _ => Demo.reply history rq
  end.

Definition failing (history : list request) (rq : request) : result pyval :=
  match rq with
  | RunTask _ _ _ _ _ command =>
      Ok (Demo.provisioned ("arn:aws:ecs:us-east-1:1:task/"
                            +:+ default "" (last command)))
  | DescribeTasks _ ids =>
      Ok (PDict [("tasks",
                  PList ((λ _, PDict [("containers",
                                       PList [PDict [("exitCode", PInt 1)]])]) <$> ids))])
  | _ => Demo.reply history rq
  end.

(** A bucket that S3 creates empty: nothing is stored by it. *)
Definition create_bucket (name : string) : M unit := mret tt.

End Scenes.

(** ** Strings: splitting and joining *)

Section split_join.

Lemma split_nonempty sep s : PyStr.split sep s ≠ [].
Proof. destruct s as [|c s]; simpl; [done|]. repeat case_match; done. Qed.

(** Joining the fields of a split gives the string back. *)
Lemma join_split (sep : ascii) (s : string) :
  PyStr.join (String sep EmptyString) (PyStr.split sep s) = s.
Proof.
  induction s as [|c s IH]; simpl; [done|].
  destruct (Ascii.eqb_spec c sep) as [->|Hne].
  - pose proof (split_nonempty sep s).
    destruct (PyStr.split sep s) as [|w ws] eqn:E; [done|].
    simpl in *. by rewrite IH.
  - destruct (PyStr.split sep s) as [|w ws] eqn:E.
    + by destruct (split_nonempty sep s).
    + simpl in *. destruct ws; simpl in *; by rewrite <- IH.
Qed.

(** A prefix without the separator is the first field. *)
Lemma split_app (sep : ascii) (a s : string) :
  PyStr.contains sep a = false →
  PyStr.split sep (a +:+ String sep s) = a :: PyStr.split sep s.
Proof.
  induction a as [|c a IH]; simpl; intros H.
  - by rewrite Ascii.eqb_refl.
  - apply orb_false_iff in H as [Hc Ha].
    rewrite Hc, (IH Ha). done.
Qed.

End split_join.

(** C10: for a path ["s3://<bucket>/<key>"] whose bucket holds no slash
    (the key may), [parse_aws_path] returns the pair [(bucket, key)], and
    putting ["s3://"], the bucket, ["/"] and the key back together gives the
    path again. *)
Theorem parse_aws_path_roundtrip (bucket key : string) :
  PyStr.contains "/" bucket = false →
  ∃ b k,
    parse_aws_path ("s3://" +:+ bucket +:+ "/" +:+ key) = Ok (b, k)
    ∧ b = bucket ∧ k = key
    ∧ "s3://" +:+ b +:+ "/" +:+ k = "s3://" +:+ bucket +:+ "/" +:+ key.
Proof.
  intros Hb. exists bucket, key. split; [|done].
  unfold parse_aws_path.
  change ("s3://" +:+ bucket +:+ "/" +:+ key)
    with ("s3:" +:+ String "/" ("" +:+ String "/" (bucket +:+ String "/" key))).
  rewrite !split_app by done.
  change (drop 3 (_ :: _ :: ?b :: ?l)) with l.
  rewrite (join_split "/" key). reflexivity.
Qed.

Lemma parse_aws_path_roundtrip_witness :
  ∃ b k, parse_aws_path "s3://phl-courts/data/chunks/x.json" = Ok (b, k)
         ∧ b = "phl-courts" ∧ k = "data/chunks/x.json"
         ∧ "s3://" +:+ b +:+ "/" +:+ k = "s3://phl-courts/data/chunks/x.json".
Proof. apply (parse_aws_path_roundtrip "phl-courts" "data/chunks/x.json"). reflexivity. Defined.

(** ** Reasoning about computations *)

Section monad_facts.
Context {A B : Type}.

Lemma run_bind (m : M A) (k : A → M B) st :
  (m ≫= k) st = match m st with
                | (Ok a, st') => k a st'
                | (Raise e, st') => (Raise e, st')
                end.
Proof. reflexivity. Qed.

Lemma run_bind_ok (m : M A) (k : A → M B) st a st' :
  m st = (Ok a, st') → (m ≫= k) st = k a st'.
Proof. intros E. by rewrite run_bind, E. Qed.

Lemma run_bind_raise (m : M A) (k : A → M B) st e st' :
  m st = (Raise e, st') → (m ≫= k) st = (Raise e, st').
Proof. intros E. by rewrite run_bind, E. Qed.

Lemma run_lift (r : result A) st : lift r st = (r, st).
Proof. reflexivity. Qed.

Lemma run_get (k : state → M B) st : (get_state ≫= k) st = k st st.
Proof. reflexivity. Qed.

Lemma run_ret (a : A) (k : A → M B) st : (mret a ≫= k) st = k a st.
Proof. reflexivity. Qed.

Lemma run_lift_ok (a : A) (k : A → M B) st : (lift (Ok a) ≫= k) st = k a st.
Proof. reflexivity. Qed.

End monad_facts.

(** Taking a run [H : m st = (r, st')] apart, one statement at a time. *)
Ltac run_in H :=
  repeat first
    [ rewrite run_bind in H;
      match type of H with
      | context [match ?m ?s with _ => _ end] =>
          let E := fresh "E" in
          destruct (m s) as [[?|?] ?] eqn:E; try discriminate;
          unfold lift, call, modify, raise in E; simplify_eq
      end
    | match type of H with
      | (if ?b then _ else _) _ = _ => destruct b eqn:?; try discriminate
      end ].

(** A computation keeps a relation [R] when every run leaves a state
    related to the one it started from, whether it ends normally or not. *)
Definition keeps {A} (R : relation state) (m : M A) : Prop :=
  ∀ st, R st (m st).2.

Section keeps_facts.
Context (R : relation state) `{!PreOrder R}.

Lemma keeps_ret {A} (a : A) : keeps R (mret a).
Proof. intros st. simpl. reflexivity. Qed.

Lemma keeps_raise {A} e : keeps R (@raise A e).
Proof. intros st. simpl. reflexivity. Qed.

Lemma keeps_lift {A} (r : result A) : keeps R (lift r).
Proof. intros st. simpl. reflexivity. Qed.

Lemma keeps_get : keeps R get_state.
Proof. intros st. simpl. reflexivity. Qed.

Lemma keeps_bind {A B} (m : M A) (k : A → M B) :
  keeps R m → (∀ a, keeps R (k a)) → keeps R (m ≫= k).
Proof.
  intros Hm Hk st. rewrite run_bind.
  specialize (Hm st). destruct (m st) as [[a|e] st']; simpl in *; [|done].
  etrans; [exact Hm|apply Hk].
Qed.

Lemma keeps_for_each {A} (l : list A) (body : A → M unit) :
  (∀ x, keeps R (body x)) → keeps R (for_each l body).
Proof.
  intros Hb. induction l as [|x l IH]; simpl.
  - apply keeps_ret.
  - apply keeps_bind; auto.
Qed.

Lemma keeps_for_fold {A S} (l : list A) (body : S → A → M S) :
  (∀ s x, keeps R (body s x)) → ∀ s, keeps R (for_fold l s body).
Proof.
  intros Hb. induction l as [|x l IH]; intros s; simpl.
  - apply keeps_ret.
  - apply keeps_bind; auto.
Qed.

End keeps_facts.

(** Goals [keeps R m] are taken apart along the structure of [m]; the
    database [keeps] holds the facts about the primitive computations. *)
Create HintDb keeps discriminated.

Ltac keeps_go :=
  repeat first
    [ progress intros
    | apply keeps_ret | apply keeps_raise | apply keeps_lift | apply keeps_get
    | solve [eauto with keeps]
    | match goal with |- PreOrder _ => apply _ end
    | apply keeps_bind | apply keeps_for_each | apply keeps_for_fold
    | match goal with |- keeps _ (match ?x with _ => _ end) => destruct x end ].

(** ** [submit_jobs]: the launches *)

Section submit_jobs_facts.
Context `{Env}.

Lemma add_requests_nil st : add_requests [] st = st.
Proof. destruct st. unfold add_requests. simpl. by rewrite app_nil_r. Qed.

Lemma add_requests_app a b st :
  add_requests b (add_requests a st) = add_requests (a ++ b) st.
Proof. unfold add_requests. simpl. by rewrite app_assoc. Qed.

Lemma commands_app a b : commands (a ++ b) = commands a ++ commands b.
Proof. unfold commands. apply bind_app. Qed.

#[local] Instance same_launches_preorder : PreOrder same_launches.
Proof.
  split.
  - by intros st.
  - intros a b c Hab Hbc. unfold same_launches in *. congruence.
Qed.

(** The loop sends one request per index and collects the answers. *)
Lemma launch_loop (base : list string) (config definition : pyval) (ks : list Z) :
  launches_answered →
  ∀ tasks st, task_definition st = Some definition →
    ∃ new, length new = length ks
      ∧ for_fold ks tasks (launch base config) st
        = (Ok (tasks ++ new),
           add_requests ((λ k, RunTask definition cluster_name config "FARGATE" APP_NAME
                                       (base ++ ["--pid=" +:+ pretty k])) <$> ks) st).
Proof.
  intros Hans. induction ks as [|k ks IH]; intros tasks st Hdef.
  - exists []. simpl. by rewrite app_nil_r, add_requests_nil.
  - simpl. rewrite run_bind. unfold launch at 1.
    rewrite run_bind. unfold attribute at 1. rewrite Hdef.
    rewrite run_bind. unfold call at 1.
    destruct (Hans (requests st) definition cluster_name config "FARGATE" APP_NAME
                   (base ++ ["--pid=" +:+ pretty k])) as [task ->].
    simpl.
    destruct (IH (tasks ++ [task])
                 (log_request (RunTask definition cluster_name config "FARGATE" APP_NAME
                                       (base ++ ["--pid=" +:+ pretty k])) st) Hdef)
      as (new & Hlen & ->).
    exists (task :: new). split; [simpl; by rewrite Hlen|].
    rewrite <- app_assoc. simpl. f_equal.
    change (log_request ?rq st) with (add_requests [rq] st).
    by rewrite add_requests_app.
Qed.

Lemma commands_launches (f : Z → list string) definition cluster config lt name (ks : list Z) :
  commands ((λ k, RunTask definition cluster config lt name (f k)) <$> ks) = f <$> ks.
Proof. induction ks as [|k ks IH]; [done|]. rewrite !fmap_cons, <- IH. done. Qed.

(** Only [launch] sends a launch request. *)
Lemma call_same_launches rq :
  commands [rq] = [] → keeps same_launches (call rq).
Proof.
  intros Hrq st. unfold same_launches, call. simpl.
  by rewrite commands_app, Hrq, app_nil_r.
Qed.

Lemma unlogged_same_launches {A} (m : M A) :
  (∀ st, requests (m st).2 = requests st) → keeps same_launches m.
Proof. intros Hm st. unfold same_launches. by rewrite Hm. Qed.

Lemma remote_read_same_launches path : keeps same_launches (remote_read path).
Proof. apply unlogged_same_launches. intros st. unfold remote_read. by case_match. Qed.

Lemma remote_write_same_launches path bytes :
  keeps same_launches (remote_write path bytes).
Proof.
  apply unlogged_same_launches. intros st. unfold remote_write. by case_match.
Qed.

Hint Resolve call_same_launches remote_read_same_launches
  remote_write_same_launches : keeps.

Lemma combine_same_launches flavor dataset folder :
  keeps same_launches (combine_parallel_results flavor dataset folder).
Proof.
  unfold combine_parallel_results, aws_exists, combine_pair, load_file.
  keeps_go.
Qed.

Hint Resolve combine_same_launches : keeps.

Lemma ensure_cluster_same_launches : keeps same_launches ensure_cluster.
Proof.
  unfold ensure_cluster, _init_cluster. keeps_go;
    by apply unlogged_same_launches.
Qed.

Lemma await_same_launches j tasks : keeps same_launches (await j tasks).
Proof.
  unfold await, check_provisioned. keeps_go.
  by apply unlogged_same_launches.
Qed.

Lemma range_length n : length (PyExtra.range n) = Z.to_nat n.
Proof. unfold PyExtra.range. by rewrite length_fmap, length_seq. Qed.

Lemma range_lookup n k : 0 ≤ k < n → PyExtra.range n !! Z.to_nat k = Some k.
Proof.
  intros Hk. unfold PyExtra.range.
  rewrite list_lookup_fmap, lookup_seq_lt by lia. simpl. f_equal. lia.
Qed.

(** Once the lazy initialisation has gone through, [self.subnets] is set. *)
Lemma ensure_cluster_ready st st1 :
  ensure_cluster st = (Ok tt, st1) →
  is_Some (subnets st1) ∧ (subnets st = None → is_Some (task_definition st1)).
Proof.
  unfold ensure_cluster. rewrite run_bind. simpl.
  case_bool_decide as Hs.
  - unfold _init_cluster. intros Hrun. run_in Hrun.
    unfold modify in Hrun. simplify_eq. simpl. eauto.
  - intros [= <-]. split; [|done]. by destruct (subnets st).
Qed.

(** The run of [submit_jobs] up to the end of the launch loop. *)
Lemma launch_all_run j st definition subnet_ids :
  launches_answered →
  task_definition st = Some definition → subnets st = Some subnet_ids →
  ∃ tasks, length tasks = Z.to_nat (ntasks j)
    ∧ launch_all j st
      = (Ok tasks, add_requests (launch_request definition subnet_ids j
                                   <$> PyExtra.range (ntasks j)) st).
Proof.
  intros Hans Hdef Hsub. unfold launch_all.
  rewrite run_bind. unfold attribute at 1. rewrite Hsub.
  destruct (launch_loop (base_command j) (network_config subnet_ids) definition
              (PyExtra.range (ntasks j)) Hans [] st Hdef) as (new & Hlen & Hrun).
  exists new. split; [by rewrite Hlen, range_length|]. exact Hrun.
Qed.

(** C7: for every partition count N ≥ 1, when the cluster profile is
    resolved and the cluster answers the launches, [submit_jobs] sends exactly
    N launch requests; the k-th (k = 0 .. N-1) carries the shared base command
    followed by the flag [--pid=k], so the N commands differ in that flag
    only. *)
Theorem submit_jobs_launches (j : job) (st st1 : state) :
  1 ≤ ntasks j →
  ensure_cluster st = (Ok tt, st1) →
  is_Some (task_definition st1) →
  launches_answered →
  ∃ launched : list (list string),
    commands (requests (submit_jobs j st).2) = commands (requests st) ++ launched
    ∧ Z.of_nat (length launched) = ntasks j
    ∧ ∀ k, 0 ≤ k < ntasks j →
        launched !! Z.to_nat k = Some (base_command j ++ ["--pid=" +:+ pretty k]).
Proof.
  intros HN Hinit [definition Hdef] Hans.
  destruct (ensure_cluster_ready _ _ Hinit) as [[subnet_ids Hsub] _].
  destruct (launch_all_run j st1 definition subnet_ids Hans Hdef Hsub)
    as (tasks & Hlen & Hrun).
  exists ((λ k, base_command j ++ ["--pid=" +:+ pretty k]) <$> PyExtra.range (ntasks j)).
  split; [|split].
  - unfold submit_jobs. rewrite (run_bind_ok _ _ _ _ _ Hinit).
    rewrite (run_bind_ok _ _ _ _ _ Hrun).
    pose proof (ensure_cluster_same_launches st) as H1.
    rewrite Hinit in H1. unfold same_launches in H1. simpl in H1. rewrite H1.
    set (st2 := add_requests _ st1).
    assert (commands (requests st2) = commands (requests st1)
              ++ ((λ k, base_command j ++ ["--pid=" +:+ pretty k])
                    <$> PyExtra.range (ntasks j))) as H2.
    { unfold st2, add_requests, launch_request. simpl.
      by rewrite commands_app, commands_launches. }
    destruct (wait j); simpl.
    + pose proof (await_same_launches j tasks st2) as H3.
      unfold same_launches in H3. by rewrite <- H3.
    + done.
  - rewrite length_fmap, range_length. lia.
  - intros k Hk. by rewrite list_lookup_fmap, range_lookup.
Qed.

(** C2, as the code has it: with [wait=false], once the cluster profile is
    resolved and the launches are answered, [submit_jobs] returns [None],
    not the launch results, right after the last launch: the requests it has
    sent are the launch requests in partition order and nothing else (no
    stop, wait or describe request), and no file is touched. *)
Theorem submit_jobs_no_wait (j : job) (st st1 : state) :
  wait j = false →
  ensure_cluster st = (Ok tt, st1) →
  is_Some (task_definition st1) →
  launches_answered →
  ∃ definition subnet_ids,
    task_definition st1 = Some definition ∧ subnets st1 = Some subnet_ids
    ∧ submit_jobs j st
      = (Ok PNone,
         add_requests (launch_request definition subnet_ids j
                         <$> PyExtra.range (ntasks j)) st1).
Proof.
  intros Hwait Hinit [definition Hdef] Hans.
  destruct (ensure_cluster_ready _ _ Hinit) as [[subnet_ids Hsub] _].
  destruct (launch_all_run j st1 definition subnet_ids Hans Hdef Hsub)
    as (tasks & Hlen & Hrun).
  exists definition, subnet_ids. split; [done|]. split; [done|].
  unfold submit_jobs. rewrite (run_bind_ok _ _ _ _ _ Hinit).
  rewrite (run_bind_ok _ _ _ _ _ Hrun). by rewrite Hwait.
Qed.

(** A launch result without task handles stops the provisioning check with
    a [TypeError]: the failures are looked up in the empty list of handles. *)
Lemma check_provisioned_no_handles failed task st :
  Py.getitem task (KStr "tasks") = Ok (PList []) →
  check_provisioned failed task st
  = (Raise (TypeError "list indices must be integers or slices, not str"), st).
Proof. intros Hh. unfold check_provisioned, lift. simpl. by rewrite Hh. Qed.

(** On launch results of the shape [boto3] gives them the check never sets
    [failed], so the branch that stops the tasks is not reached. *)
Lemma check_provisioned_never_fails tasks st :
  Forall well_formed_launch tasks →
  (for_fold tasks false check_provisioned st).1 ≠ Ok true.
Proof.
  induction 1 as [|task tasks [handles Hh] _ IH]; simpl; [done|].
  rewrite run_bind. unfold check_provisioned at 1, lift. simpl. rewrite Hh. simpl.
  destruct handles; simpl; [done|].
  replace (negb (Z.pos (Pos.of_succ_nat (length handles)) =? 0)) with true
    by (symmetry; apply negb_true_iff, Z.eqb_neq; lia).
  exact IH.
Qed.

(** With [wait=true], as soon as one launch result has no task handle the
    operation ends in that [TypeError], in the state the launches left: no
    task is stopped and the summary error is not raised. *)
Lemma await_no_handles j tasks st :
  Forall well_formed_launch tasks →
  Exists (λ task, Py.getitem task (KStr "tasks") = Ok (PList [])) tasks →
  await j tasks st
  = (Raise (TypeError "list indices must be integers or slices, not str"), st).
Proof.
  intros Hwf Hex. unfold await.
  apply run_bind_raise.
  enough (∀ failed, for_fold tasks failed check_provisioned st
    = (Raise (TypeError "list indices must be integers or slices, not str"), st))
    as Hloop by apply Hloop.
  induction Hex as [task tasks Hh|task tasks _ IH]; intros failed; simpl.
  - apply run_bind_raise. by apply check_provisioned_no_handles.
  - apply Forall_cons in Hwf as [[handles Hh] Hwf].
    destruct handles as [|h handles].
    + apply run_bind_raise. by apply check_provisioned_no_handles.
    + erewrite run_bind_ok; [by apply IH|].
      unfold check_provisioned, lift. simpl. rewrite Hh. simpl.
      replace (negb (Z.pos (Pos.of_succ_nat (length handles)) =? 0)) with true
        by (symmetry; apply negb_true_iff, Z.eqb_neq; lia).
      done.
Qed.

End submit_jobs_facts.

Lemma submit_jobs_launches_witness :
  ∃ launched : list (list string),
    commands (requests (submit_jobs (Demo.scrape 2 false) (Demo.start ∅ ∅)).2)
    = commands (requests (Demo.start ∅ ∅)) ++ launched
    ∧ Z.of_nat (length launched) = 2
    ∧ ∀ k, 0 ≤ k < 2 →
        launched !! Z.to_nat k
        = Some (base_command (Demo.scrape 2 false) ++ ["--pid=" +:+ pretty k]).
Proof.
  apply (submit_jobs_launches (Demo.scrape 2 false) (Demo.start ∅ ∅)
           (ensure_cluster (Demo.start ∅ ∅)).2).
  - simpl. lia.
  - reflexivity.
  - vm_compute. eauto.
  - intros history definition cluster config launch_type container command.
    simpl. unfold Demo.reply. case_match; eauto.
Defined.

Lemma submit_jobs_no_wait_witness :
  ∃ definition subnet_ids,
    task_definition (ensure_cluster (Demo.start ∅ ∅)).2 = Some definition
    ∧ subnets (ensure_cluster (Demo.start ∅ ∅)).2 = Some subnet_ids
    ∧ submit_jobs (Demo.scrape 2 false) (Demo.start ∅ ∅)
      = (Ok PNone,
         add_requests (launch_request definition subnet_ids (Demo.scrape 2 false)
                         <$> PyExtra.range 2) (ensure_cluster (Demo.start ∅ ∅)).2).
Proof.
  apply (submit_jobs_no_wait (Demo.scrape 2 false) (Demo.start ∅ ∅)
           (ensure_cluster (Demo.start ∅ ∅)).2).
  - reflexivity.
  - reflexivity.
  - vm_compute. eauto.
  - intros history definition cluster config launch_type container command.
    simpl. unfold Demo.reply. case_match; eauto.
Defined.

(** C2, as stated, fails: two partitions are launched with [wait=false];
    the cluster returns a launch result for each, but the value of the call
    is [None], not a list. *)
Lemma submit_jobs_no_wait_counterexample :
  let j := Demo.scrape 2 false in
  let st := Demo.start ∅ ∅ in
  wait j = false
  ∧ (launch_all j (ensure_cluster st).2).1
    = Ok [Demo.provisioned "arn:aws:ecs:us-east-1:1:task/--pid=0";
          Demo.rejected "RESOURCE:MEMORY"]
  ∧ (submit_jobs j st).1 = Ok PNone
  ∧ ¬ ∃ launches, (submit_jobs j st).1 = Ok (PList launches).
Proof.
  repeat split; try reflexivity.
  intros [launches Hl]. vm_compute in Hl. discriminate.
Qed.

(** C1 at a failing input: of two partitions launched with [wait=true]
    the first is provisioned and the second comes back with no task handle
    and one failure entry.  The call ends in a [TypeError] raised by the
    provisioning check, not in the summary error, and no stop request has
    been sent: the provisioned task keeps running. *)
Theorem submit_jobs_failed_launch_example :
  let j := Demo.scrape 2 true in
  let st := Demo.start ∅ ∅ in
  (launch_all j (ensure_cluster st).2).1
  = Ok [Demo.provisioned "arn:aws:ecs:us-east-1:1:task/--pid=0";
        Demo.rejected "RESOURCE:MEMORY"]
  ∧ (submit_jobs j st).1
    = Raise (TypeError "list indices must be integers or slices, not str")
  ∧ (submit_jobs j st).1 ≠ Raise provisioning_error
  ∧ Forall (λ rq, ∀ cluster task, rq ≠ StopTask cluster task)
           (requests (submit_jobs j st).2).
Proof.
  repeat split; try reflexivity.
  - vm_compute. discriminate.
  - vm_compute. repeat (constructor; [intros; discriminate|]). constructor.
Qed.

(** ** Strings: how a name ends *)

Section endings.

Lemma length_append (a b : string) :
  String.length (a +:+ b) = (String.length a + String.length b)%nat.
Proof. induction a as [|c a IH]; simpl; [done|]. by rewrite IH. Qed.

Lemma last_char_None s : last_char s = None → s = "".
Proof.
  induction s as [|c s IH]; [done|]. simpl.
  destruct s; [done|]. intros Hs. by specialize (IH Hs).
Qed.

Lemma last_char_cons c s : s ≠ "" → last_char (String c s) = last_char s.
Proof. by destruct s. Qed.

Lemma last_char_append a b : b ≠ "" → last_char (a +:+ b) = last_char b.
Proof.
  intros Hb. induction a as [|c a IH]; simpl; [done|].
  rewrite <- IH. apply last_char_cons. by destruct a, b.
Qed.

Lemma last_char_drop n s :
  (n < String.length s)%nat → last_char (PyStr.drop n s) = last_char s.
Proof.
  revert s. induction n as [|n IH]; intros [|c s] Hn; simpl in *; try done; try lia.
  rewrite IH by lia. symmetry. apply last_char_cons. destruct s; simpl in *; [lia|done].
Qed.

(** Nothing is stripped from a name that does not end in the character. *)
Lemma last_char_lstrip c d s :
  last_char s = Some d → d ≠ c → last_char (PyExtra.lstrip c s) = Some d.
Proof.
  intros Hs Hd. induction s as [|a s IH]; [done|].
  change (PyExtra.lstrip c (String a s))
    with (if Ascii.eqb a c then PyExtra.lstrip c s else String a s).
  destruct (Ascii.eqb_spec a c) as [->|]; [|done].
  destruct s as [|b s]; [by simplify_eq/=|].
  rewrite last_char_cons in Hs by done. by apply IH.
Qed.

Lemma rstrip_id c d s :
  last_char s = Some d → d ≠ c → PyExtra.rstrip c s = s.
Proof.
  intros Hs Hd. induction s as [|a s IH]; [done|].
  destruct s as [|b s].
  - simpl in *. simplify_eq. by rewrite (proj2 (Ascii.eqb_neq _ _) Hd).
  - rewrite last_char_cons in Hs by done. specialize (IH Hs).
    change (PyExtra.rstrip c (String a (String b s)))
      with (match PyExtra.rstrip c (String b s) with
            | EmptyString => if Ascii.eqb a c then EmptyString else String a EmptyString
            | r => String a r
            end).
    by rewrite IH.
Qed.

(** The last field of a split ends as the string does. *)
Lemma split_last sep s d :
  last_char s = Some d → d ≠ sep →
  ∃ init c, PyStr.split sep s = init ++ [c] ∧ last_char c = Some d.
Proof.
  intros Hs Hd. induction s as [|a s IH]; [done|].
  destruct s as [|b s].
  - simpl in Hs. simplify_eq. exists [], (String d ""). simpl.
    by rewrite (proj2 (Ascii.eqb_neq _ _) Hd).
  - rewrite last_char_cons in Hs by done.
    destruct (IH Hs) as (init & c & Hsplit & Hc).
    change (PyStr.split sep (String a (String b s)))
      with (if Ascii.eqb a sep then EmptyString :: PyStr.split sep (String b s)
            else match PyStr.split sep (String b s) with
                 | [] => [String a EmptyString]
                 | w :: ws => String a w :: ws
                 end).
    rewrite Hsplit. destruct (Ascii.eqb a sep).
    + by exists ("" :: init), c.
    + destruct init as [|w init]; simpl.
      * exists [], (String a c). split; [done|].
        rewrite last_char_cons; [done|]. by destruct c.
      * by exists (String a w :: init), c.
Qed.

Lemma last_char_join sep init c :
  c ≠ "" → last_char (PyStr.join sep (init ++ [c])) = last_char c.
Proof.
  intros Hc. induction init as [|x init IH]; [done|].
  change (PyStr.join sep ((x :: init) ++ [c]))
    with (match init ++ [c] with
          | [] => x
          | _ => x +:+ sep +:+ PyStr.join sep (init ++ [c])
          end).
  destruct (init ++ [c]) as [|y l] eqn:E; [by destruct init|].
  assert (PyStr.join sep (y :: l) ≠ "") as Hne.
  { intros Hj. rewrite Hj in IH. simpl in IH. symmetry in IH.
    by apply last_char_None in IH. }
  rewrite !last_char_append; [done|done|].
  intros Hj. apply (f_equal String.length) in Hj.
  rewrite length_append in Hj.
  destruct (PyStr.join sep (y :: l)); [done|]. simpl in Hj. lia.
Qed.

(** [normpath] keeps the end of a path that ends in neither a slash nor a
    dot. *)
Lemma last_char_normpath p d :
  last_char p = Some d → d ≠ "/"%char → d ≠ "."%char →
  last_char (Paths.normpath p) = Some d.
Proof.
  intros Hp Hslash Hdot. unfold Paths.normpath.
  destruct (String.eqb_spec p "") as [->|_]; [done|].
  destruct (split_last "/" p d Hp Hslash) as (init & c & -> & Hc).
  set (slashes := if PyStr.startswith "/" p then _ else _).
  rewrite fold_left_app. simpl.
  set (acc := fold_left _ init []).
  assert (c ≠ "") as Hc0 by (intros ->; done).
  assert (Paths.normpath_step slashes acc c = acc ++ [c]) as ->.
  { unfold Paths.normpath_step.
    rewrite bool_decide_eq_false_2.
    - destruct (String.eqb_spec c "..") as [->|_]; [|done].
      simpl in Hc. by simplify_eq.
    - intros [->| ->]; [done|]. simpl in Hc. by simplify_eq. }
  assert (last_char (PyStr.join "/" (acc ++ [c])) = Some d) as Hj
    by (by rewrite last_char_join).
  assert (PyStr.join "/" (acc ++ [c]) ≠ "") as Hne by (intros E; by rewrite E in Hj).
  assert (∀ pre, last_char (pre +:+ PyStr.join "/" (acc ++ [c])) = Some d) as Hpre
    by (intros pre; by rewrite last_char_append).
  assert (∀ r, last_char r = Some d →
               last_char (if String.eqb r "" then "." else r) = Some d) as Hr.
  { intros r Hrd. destruct (String.eqb_spec r "") as [->|_]; done. }
  apply Hr. destruct slashes as [|[|n]]; [done|apply Hpre|apply Hpre].
Qed.

End endings.

(** ** [combine_parallel_results] *)

Section reducer_facts.
Context `{Env}.

Lemma for_fold_app {A S} (a b : list A) (s : S) (body : S → A → M S) st :
  for_fold (a ++ b) s body st
  = match for_fold a s body st with
    | (Ok s', st') => for_fold b s' body st'
    | (Raise e, st') => (Raise e, st')
    end.
Proof.
  revert s st. induction a as [|x a IH]; intros s st; simpl; [done|].
  rewrite !run_bind. destruct (body s x st) as [[s'|e] st']; [apply IH|done].
Qed.

Lemma for_fold_cons {A S} (x : A) (l : list A) (s : S) (body : S → A → M S) st :
  for_fold (x :: l) s body st
  = match body s x st with
    | (Ok s', st') => for_fold l s' body st'
    | (Raise e, st') => (Raise e, st')
    end.
Proof. reflexivity. Qed.

(** [AWS.exists] only looks. *)
Lemma aws_exists_state path st : (aws_exists path st).2 = st.
Proof.
  unfold aws_exists. destruct (PyStr.startswith "s3://" path); [done|].
  rewrite run_bind. simpl. rewrite run_bind, run_lift.
  by destruct (Paths.resolve_relative_to HOME_DIR (cwd st) path).
Qed.

Lemma aws_exists_found path st :
  (aws_exists path st).1 = Ok true → aws_exists path st = (Ok true, st).
Proof.
  intros Hr. pose proof (aws_exists_state path st) as Hst.
  destruct (aws_exists path st). simpl in *. by subst.
Qed.

(** The key of a combined artifact ends as its extension does. *)
Lemma artifact_key_ending output_folder tag extension d :
  last_char extension = Some d → d ≠ "/"%char → d ≠ "."%char →
  (2 ≤ String.length extension)%nat →
  last_char (artifact_key output_folder tag extension) = Some d.
Proof.
  intros Hd Hslash Hdot Hlen.
  unfold artifact_key, combined_filename.
  set (filename := output_folder +:+ "/../" +:+ tag +:+ extension).
  assert (extension ≠ "") as Hext by (intros ->; done).
  assert (last_char filename = Some d) as Hfn.
  { unfold filename. rewrite !last_char_append; [done|done| |].
    - intros E. apply (f_equal String.length) in E.
      rewrite length_append in E. simpl in E. lia.
    - intros E. apply (f_equal String.length) in E.
      rewrite !length_append in E. simpl in E. lia. }
  assert (5 < String.length filename)%nat as Hlong.
  { unfold filename. rewrite !length_append. simpl. lia. }
  set (stripped := if PyStr.startswith "s3://" filename then _ else _).
  assert (last_char stripped = Some d) as Hstripped.
  { unfold stripped. case_match; [|done]. by rewrite last_char_drop. }
  pose proof (last_char_normpath stripped d Hstripped Hslash Hdot) as Hnorm.
  unfold Paths.s3_name, Paths.s3_key.
  set (normal := Paths.normpath stripped) in *.
  replace (PyStr.startswith "s3://" ("s3://" +:+ normal)) with true
    by (by destruct normal).
  change (PyStr.drop 5 ("s3://" +:+ normal)) with normal.
  rewrite (rstrip_id "/" d) by done. by apply last_char_lstrip.
Qed.

(** The two artifacts of a reduction have different names. *)
Lemma artifact_keys_differ output_folder tag tag' :
  artifact_key output_folder tag ".json" ≠ artifact_key output_folder tag' ".csv".
Proof.
  intros E. apply (f_equal last_char) in E.
  rewrite (artifact_key_ending _ _ ".json" "n"),
          (artifact_key_ending _ _ ".csv" "v") in E; try done; simpl; lia.
Qed.

(** Reading the JSON files of a pair in turn appends their values. *)
Lemma load_json_files st files docs :
  Forall2 (holds_doc st) files docs →
  ∀ l, for_fold files (Records l) (load_file ".json") st
       = (Ok (Records (l ++ concat (doc_values <$> docs))), st).
Proof.
  induction 1 as [|f d files docs (stored & Hf & Hd) _ IH]; intros l; simpl.
  - by rewrite app_nil_r.
  - rewrite run_bind. unfold load_file at 1. rewrite run_bind.
    unfold remote_read at 1. rewrite Hf. simpl.
    rewrite run_bind, run_lift, Hd. simpl.
    rewrite IH. by rewrite app_assoc.
Qed.

Lemma load_json_files_first st files docs :
  files ≠ [] →
  Forall2 (holds_doc st) files docs →
  for_fold files NoResult (load_file ".json") st
  = (Ok (Records (concat (doc_values <$> docs))), st).
Proof.
  intros Hne Hall. destruct Hall as [|f d files docs (stored & Hf & Hd) Hrest]; [done|].
  simpl. rewrite run_bind. unfold load_file at 1. rewrite run_bind.
  unfold remote_read at 1. rewrite Hf. simpl.
  rewrite run_bind, run_lift, Hd. simpl.
  by apply load_json_files.
Qed.

(** Storing under a name that has a key. *)
Lemma remote_write_run path bytes st :
  Paths.has_key path = true →
  remote_write path bytes st = (Ok tt, write_remote (Paths.s3_name path) bytes st).
Proof. intros Hkey. unfold remote_write. by rewrite Hkey. Qed.

(** The JSON pair, when every discovered file decodes and the artifact has
    a key. *)
Lemma combine_pair_json flavor dataset output_folder tag data_file st docs :
  let files := PyExtra.sorted (s3_glob (remote st) (pattern_of output_folder tag ".json")) in
  Paths.has_key (combined_filename output_folder tag ".json") = true →
  files ≠ [] →
  Forall2 (holds_doc st) files docs →
  combine_pair flavor dataset output_folder data_file (0%nat, (tag, ".json")) st
  = (Ok (PStr (combined_filename output_folder tag ".json")),
     write_remote (artifact_key output_folder tag ".json")
                  (json_dumps (concat (doc_values <$> docs))) st).
Proof.
  intros files Hkey Hne Hall. unfold combine_pair.
  rewrite run_bind. simpl. fold (pattern_of output_folder tag ".json"). fold files.
  rewrite bool_decide_eq_false_2 by (by destruct files).
  rewrite run_bind, (load_json_files_first _ _ _ Hne Hall).
  cbv iota beta. rewrite run_ret, run_bind, (remote_write_run _ _ _ Hkey).
  reflexivity.
Qed.

#[local] Instance same_at_preorder key : PreOrder (same_at key).
Proof.
  split.
  - by intros st.
  - intros a b c Hab Hbc. unfold same_at in *. congruence.
Qed.

Lemma combine_pair_same_at flavor dataset output_folder data_file i tag extension key :
  artifact_key output_folder tag extension ≠ key →
  keeps (same_at key)
        (combine_pair flavor dataset output_folder data_file (i, (tag, extension))).
Proof.
  intros Hkey.
  assert (∀ path, keeps (same_at key) (remote_read path)) as Hread.
  { intros path st. unfold remote_read. by case_match. }
  assert (∀ bytes, keeps (same_at key)
            (remote_write (combined_filename output_folder tag extension) bytes)) as Hwrite.
  { intros bytes st. unfold same_at, remote_write. case_match; [|done].
    simpl. by apply lookup_insert_ne. }
  unfold combine_pair, load_file. keeps_go.
Qed.

#[local] Instance str_le_total : Total PyExtra.str_le.
Proof. intros a b. apply String.leb_total. Qed.

(** C3, as the code has it: when the JSON partition files found for the
    results tag, taken in sorted order of their names, decode to the
    documents [docs], and the combined artifact is named with a key (the
    folder lies below the bucket, so that its parent is not the root of S3),
    the reduction stores under the name of the combined artifact the
    concatenation, in that order, of the documents' values: the items of an
    array, and for an object its values without the falsy ones.  Its length
    is the sum of the lengths; for arrays only it is the concatenation of the
    arrays. *)
Theorem combine_json_concatenates (flavor dataset output_folder : string)
    (st : state) (docs : list json_doc) :
  let tag := flavor +:+ "_results" in
  let found := s3_glob (remote st) (pattern_of output_folder tag ".json") in
  let files := PyExtra.sorted found in
  let merged := concat (doc_values <$> docs) in
  (aws_exists output_folder st).1 = Ok true →
  Paths.has_key (combined_filename output_folder tag ".json") = true →
  files ≠ [] →
  Forall2 (holds_doc st) files docs →
  (Sorted PyExtra.str_le files ∧ files ≡ₚ found)
  ∧ remote (combine_parallel_results flavor dataset output_folder st).2
      !! artifact_key output_folder tag ".json"
    = Some (File (json_dumps merged) (clock st))
  ∧ length merged = list_sum (length <$> (doc_values <$> docs))
  ∧ (∀ lists, docs = JArray <$> lists → merged = concat lists)
  ∧ (∀ entries, doc_values (JObject entries)
                = filter (λ v, Py.truthy v = true) (snd <$> entries)).
Proof.
  intros tag found files merged Hexists Hkey Hne Hall.
  split; [|split; [|split; [|split]]].
  - split; [apply Sorted_merge_sort, _|apply merge_sort_Permutation].
  - subst merged files found tag. unfold combine_parallel_results.
    rewrite (run_bind_ok _ _ _ _ _ (aws_exists_found _ _ Hexists)).
    change (negb true) with false. cbv iota.
    unfold pairs. rewrite for_fold_cons.
    rewrite (combine_pair_json flavor dataset output_folder _ PNone st docs Hkey Hne Hall).
    rewrite for_fold_cons.
    set (tag := flavor +:+ "_results").
    set (merged := concat (doc_values <$> docs)).
    pose proof (combine_pair_same_at flavor dataset output_folder
                  (PStr (combined_filename output_folder tag ".json")) 1
                  (flavor +:+ "_input") ".csv" (artifact_key output_folder tag ".json")
                  (λ E, artifact_keys_differ _ _ _ (eq_sym E))
                  (write_remote (artifact_key output_folder tag ".json")
                                (json_dumps merged) st)) as Hcsv.
    unfold same_at in Hcsv.
    destruct (combine_pair _ _ _ _ (1%nat, _) _) as [[df|e] st2]; simpl in *;
      rewrite Hcsv; apply lookup_insert_eq.
  - unfold merged. by rewrite length_concat.
  - intros lists ->. unfold merged. f_equal.
    rewrite <- list_fmap_compose. apply list_fmap_id.
  - done.
Qed.

(** C6: when the glob of a pair comes back empty, the pairs before it
    having been reduced, the reduction fails with the no-files error and
    leaves the state in which the glob was made: nothing is written for that
    pair, and the pairs after it are not looked at. *)
Theorem combine_no_files (flavor dataset output_folder : string) (st s : state)
    (before after : list (nat * (string * string)))
    (i : nat) (tag extension : string) (data_file : pyval) :
  (aws_exists output_folder st).1 = Ok true →
  pairs flavor = before ++ (i, (tag, extension)) :: after →
  for_fold before PNone (combine_pair flavor dataset output_folder) st
  = (Ok data_file, s) →
  s3_glob (remote s) (pattern_of output_folder tag extension) = [] →
  combine_parallel_results flavor dataset output_folder st
  = (Raise (no_files_error flavor dataset output_folder), s).
Proof.
  intros Hexists Hpairs Hbefore Hglob.
  unfold combine_parallel_results.
  rewrite (run_bind_ok _ _ _ _ _ (aws_exists_found _ _ Hexists)).
  change (negb true) with false. cbv iota.
  rewrite Hpairs, for_fold_app, Hbefore, for_fold_cons.
  unfold combine_pair at 1. rewrite run_bind. simpl.
  fold (pattern_of output_folder tag extension). by rewrite Hglob.
Qed.

End reducer_facts.

Lemma combine_json_concatenates_witness :
  let st := Demo.start
    {[ "bucket/run/chunks/court_results_1.json" := File "[3]" 7;
       "bucket/run/chunks/court_results_0.json" := File "[1, 2]" 5 ]} ∅ in
  let docs := [JArray [PInt 1; PInt 2]; JArray [PInt 3]] in
  let found := s3_glob (remote st) (pattern_of "s3://bucket/run/chunks" ("court" +:+ "_results") ".json") in
  let merged := concat (doc_values <$> docs) in
  (Sorted PyExtra.str_le (PyExtra.sorted found) ∧ PyExtra.sorted found ≡ₚ found)
  ∧ remote (combine_parallel_results "court" "2020" "s3://bucket/run/chunks" st).2
      !! artifact_key "s3://bucket/run/chunks" ("court" +:+ "_results") ".json"
    = Some (File (json_dumps merged) (clock st))
  ∧ length merged = list_sum (length <$> (doc_values <$> docs))
  ∧ (∀ lists, docs = JArray <$> lists → merged = concat lists)
  ∧ (∀ entries, doc_values (JObject entries)
                = filter (λ v, Py.truthy v = true) (snd <$> entries)).
Proof.
  intros st docs found merged.
  apply (combine_json_concatenates "court" "2020" "s3://bucket/run/chunks" st docs).
  - reflexivity.
  - reflexivity.
  - vm_compute. discriminate.
  - vm_compute. repeat constructor; eexists; (split; [reflexivity|reflexivity]).
Defined.

Lemma combine_no_files_witness :
  let st := Demo.start {[ "bucket/run/chunks/court_results_0.json" := File "[1, 2]" 5 ]} ∅ in
  combine_parallel_results "court" "2020" "s3://bucket/run/chunks" st
  = (Raise (no_files_error "court" "2020" "s3://bucket/run/chunks"),
     write_remote "bucket/run/court_results.json" "[1, 2]" st).
Proof.
  intros st.
  apply (combine_no_files "court" "2020" "s3://bucket/run/chunks" st
           (write_remote "bucket/run/court_results.json" "[1, 2]" st)
           [(0%nat, ("court_results", ".json"))] [] 1 "court_input" ".csv"
           (PStr "s3://bucket/run/court_results.json")).
  - reflexivity.
  - reflexivity.
  - vm_compute. reflexivity.
  - vm_compute. reflexivity.
Defined.

(** ** [sync] *)

Section sync_facts.
Context `{Env}.

(** C8, as the code has it: the destination of a source file is [dest]
    followed by the file's path without its first component, whatever the
    depth of the source root.  For a remote source that component is the
    bucket, so the destination tree mirrors the tree below the source root
    only when the root is the bucket itself. *)
Theorem dest_file_strips_first_component (dest head rest : string) :
  PyStr.contains "/" head = false →
  source_file_key (head +:+ "/" +:+ rest) = rest
  ∧ dest_file_of dest (head +:+ "/" +:+ rest) = dest +:+ "/" +:+ rest
  ∧ dest_file_of dest head = dest +:+ "/".
Proof.
  intros Hhead.
  assert (source_file_key (head +:+ "/" +:+ rest) = rest) as Hkey.
  { unfold source_file_key.
    change (head +:+ "/" +:+ rest) with (head +:+ String "/" rest).
    rewrite split_app by done. simpl. apply (join_split "/"). }
  split; [done|]. split; [unfold dest_file_of; by rewrite Hkey|].
  unfold dest_file_of, source_file_key.
  replace (PyStr.split "/" head) with [head]; [done|].
  clear Hkey. induction head as [|c head IH]; [done|].
  simpl in *. apply orb_false_iff in Hhead as [Hc Hh].
  by rewrite Hc, <- (IH Hh).
Qed.

(** A computation that leaves the state alone keeps every reflexive
    relation. *)
Lemma keeps_unchanged {A} (R : relation state) `{!Reflexive R} (m : M A) :
  (∀ st, (m st).2 = st) → keeps R m.
Proof. intros Hm st. by rewrite Hm. Qed.

Lemma remote_modified_unchanged path st : (remote_modified path st).2 = st.
Proof. unfold remote_modified. by case_match. Qed.
Lemma local_modified_unchanged path st : (local_modified path st).2 = st.
Proof. unfold local_modified. by case_match. Qed.

Lemma out_of_date_unchanged SOURCE source_file dest_file st :
  (out_of_date SOURCE source_file dest_file st).2 = st.
Proof.
  unfold out_of_date. rewrite run_bind. simpl.
  destruct (os_exists st dest_file); simpl; [|done].
  rewrite run_bind.
  pose proof (remote_modified_unchanged source_file st).
  pose proof (local_modified_unchanged source_file st).
  destruct SOURCE; simpl.
  - destruct (remote_modified source_file st) as [[s|e] st1]; simpl in *; subst; [|done].
    rewrite run_bind. pose proof (local_modified_unchanged dest_file st).
    by destruct (local_modified dest_file st) as [[d|e] st1]; simpl in *; subst.
  - destruct (local_modified source_file st) as [[s|e] st1]; simpl in *; subst; [|done].
    rewrite run_bind. pose proof (remote_modified_unchanged dest_file st).
    by destruct (remote_modified dest_file st) as [[d|e] st1]; simpl in *; subst.
Qed.

(** When the destination is not found the times are not compared. *)
Lemma out_of_date_not_found SOURCE source_file dest_file st :
  os_exists st dest_file = false →
  out_of_date SOURCE source_file dest_file st = (Ok true, st).
Proof. intros Hno. unfold out_of_date. rewrite run_bind. simpl. by rewrite Hno. Qed.

(** When it is found, a copy is due exactly when the source is newer. *)
Lemma out_of_date_found_aws source_file dest_file st src dst :
  os_exists st dest_file = true →
  remote st !! Paths.s3_key source_file = Some src →
  local st !! Paths.os_path (cwd st) dest_file = Some dst →
  out_of_date Aws source_file dest_file st = (Ok (mtime dst <? mtime src), st).
Proof.
  intros Hyes Hsrc Hdst. unfold out_of_date. rewrite run_bind. simpl. rewrite Hyes.
  simpl. rewrite run_bind. unfold remote_modified at 1. rewrite Hsrc.
  rewrite run_bind. unfold local_modified at 1. by rewrite Hdst.
Qed.

(** *** One file *)

Lemma found_exists path st dst :
  local st !! Paths.os_path (cwd st) path = Some dst → os_exists st path = true.
Proof.
  intros Hf. unfold os_exists. rewrite Hf.
  rewrite bool_decide_eq_true_2; eauto.
Qed.

(** From S3 to the disk: a file whose destination is not found is fetched. *)
Lemma sync_file_from_remote_missing dest source_file st src :
  remote st !! Paths.s3_key source_file = Some src →
  os_exists st (dest_file_of dest source_file) = false →
  let target := Paths.os_path (cwd st)
                  (Paths.joinpath HOME_DIR (dest_file_of dest source_file)) in
  sync_file Aws dest false source_file st
  = (Ok tt, log_transfer (Paths.s3_key source_file) target
              (write_local target (data src) st)).
Proof.
  intros Hsrc Hno target. unfold sync_file.
  rewrite run_get, run_ret, run_bind.
  rewrite (out_of_date_not_found Aws _ _ _ Hno).
  unfold remote_get. rewrite run_bind. unfold remote_read at 1. by rewrite Hsrc.
Qed.

(** From S3 to the disk: a file whose destination is there is fetched
    exactly when the source is newer. *)
Lemma sync_file_from_remote_present dest source_file st src dst :
  remote st !! Paths.s3_key source_file = Some src →
  os_exists st (dest_file_of dest source_file) = true →
  local st !! Paths.os_path (cwd st) (dest_file_of dest source_file) = Some dst →
  let target := Paths.os_path (cwd st)
                  (Paths.joinpath HOME_DIR (dest_file_of dest source_file)) in
  sync_file Aws dest false source_file st
  = if mtime dst <? mtime src
    then (Ok tt, log_transfer (Paths.s3_key source_file) target
                   (write_local target (data src) st))
    else (Ok tt, st).
Proof.
  intros Hsrc Hyes Hdst target. unfold sync_file.
  rewrite run_get, run_ret, run_bind.
  rewrite (out_of_date_found_aws _ _ _ _ _ Hyes Hsrc Hdst).
  destruct (mtime dst <? mtime src); [|done].
  unfold remote_get. rewrite run_bind. unfold remote_read at 1. by rewrite Hsrc.
Qed.

(** From the disk to S3: the test looks for the destination on the disk,
    where a name that starts with [s3://] is normally not found; the file is
    then sent whatever S3 holds under that name. *)
Lemma sync_file_to_remote_not_found dest source_file st relative src :
  Paths.resolve_relative_to HOME_DIR (cwd st) source_file = Ok relative →
  os_exists st (dest_file_of dest relative) = false →
  local st !! Paths.os_path (cwd st) (Paths.joinpath HOME_DIR relative) = Some src →
  let source := Paths.os_path (cwd st) (Paths.joinpath HOME_DIR relative) in
  let key := put_name st source (dest_file_of dest relative) in
  PyStr.contains "/" key = true →
  sync_file Local dest false source_file st
  = (Ok tt, log_transfer source key (write_remote key (data src) st)).
Proof.
  intros Hrel Hno Hsrc source key Hkey. unfold sync_file.
  rewrite run_get, Hrel, run_lift_ok.
  rewrite run_bind, (out_of_date_not_found Local _ _ _ Hno).
  unfold remote_put. rewrite run_bind. unfold local_read at 1. rewrite Hsrc.
  rewrite run_get. fold source. fold key. by rewrite Hkey.
Qed.

(** *** Paths below the home directory *)

Lemma split_append (sep : ascii) (a b : string) :
  PyStr.split sep (a +:+ String sep b) = PyStr.split sep a ++ PyStr.split sep b.
Proof.
  induction a as [|c a IH]; simpl.
  - by rewrite Ascii.eqb_refl.
  - rewrite IH. destruct (Ascii.eqb c sep); [done|].
    pose proof (split_nonempty sep a). by destruct (PyStr.split sep a).
Qed.

Lemma is_abs_append (a b : string) :
  Paths.is_abs a = true → Paths.is_abs (a +:+ b) = true.
Proof.
  unfold Paths.is_abs, PyStr.startswith.
  destruct a as [|c a]; [intros [=]|].
  change (String.prefix "/" (String c a))
    with (if Ascii.ascii_dec "/" c then String.prefix "" a else false).
  change (String.prefix "/" (String c a +:+ b))
    with (if Ascii.ascii_dec "/" c then String.prefix "" (a +:+ b) else false).
  destruct (Ascii.ascii_dec "/" c); [|done]. intros _. by destruct (a +:+ b).
Qed.

(** When the process works in the home directory, [HOME_DIR / p] is the
    file that [p] itself names. *)
Lemma os_path_home (p : string) (st : state) :
  Paths.is_abs HOME_DIR = true → cwd st = HOME_DIR →
  Paths.os_path (cwd st) (Paths.joinpath HOME_DIR p) = Paths.os_path (cwd st) p.
Proof.
  intros Habs Hcwd. unfold Paths.joinpath.
  destruct (Paths.is_abs p) eqn:Hp; [done|].
  unfold Paths.os_path, Paths.resolve. rewrite Hp, Hcwd.
  rewrite (is_abs_append _ _ Habs).
  do 2 f_equal. unfold Paths.parts.
  change (HOME_DIR +:+ "/" +:+ p) with (HOME_DIR +:+ String "/" p).
  by rewrite split_append, filter_app, fold_left_app.
Qed.

(** C4, as the code has it, for a sync from S3 to the disk in a process
    that works in [HOME_DIR]: a source file is copied exactly when [dry_run]
    is off and its destination, the file the copy is written to, is missing
    or strictly older than it; otherwise nothing changes.  In particular a
    file whose destination is not older is never copied, and a dry run copies
    nothing. *)
Theorem sync_file_copy_decision (dest source_file : string) (dry_run : bool)
    (st : state) (src : file) :
  let dest_file := dest_file_of dest source_file in
  let target := Paths.os_path (cwd st) (Paths.joinpath HOME_DIR dest_file) in
  let found := local st !! target in
  let due := match found with
             | None => true
             | Some dst => mtime dst <? mtime src
             end in
  Paths.is_abs HOME_DIR = true → cwd st = HOME_DIR →
  remote st !! Paths.s3_key source_file = Some src →
  (found = None → os_exists st dest_file = false) →
  sync_file Aws dest dry_run source_file st
  = (Ok tt,
     if due && negb dry_run
     then log_transfer (Paths.s3_key source_file) target
            (write_local target (data src) st)
     else st).
Proof.
  intros dest_file target found due Habs Hcwd Hsrc Hdir.
  assert (target = Paths.os_path (cwd st) dest_file) as Htarget
    by (by apply os_path_home).
  subst due found. clearbody target. subst target.
  set (found := local st !! Paths.os_path (cwd st) dest_file) in *.
  destruct dry_run.
  - rewrite andb_false_r. unfold sync_file.
    rewrite run_get, run_ret, run_bind.
    pose proof (out_of_date_unchanged Aws source_file dest_file st) as Hst.
    fold dest_file.
    destruct (out_of_date Aws source_file dest_file st) as [[update|e] st1] eqn:E;
      simpl in Hst; subst st1.
    + by destruct update.
    + exfalso. unfold out_of_date in E. rewrite run_bind in E. simpl in E.
      destruct (os_exists st dest_file) eqn:Hex; simpl in E; [|done].
      rewrite run_bind in E. unfold remote_modified at 1 in E. rewrite Hsrc in E.
      rewrite run_bind in E. unfold local_modified at 1 in E.
      fold found in E. destruct found as [dst|] eqn:Hf; [done|].
      specialize (Hdir eq_refl). congruence.
  - rewrite andb_true_r. destruct found as [dst|] eqn:Hf.
    + rewrite (sync_file_from_remote_present _ _ _ _ _ Hsrc (found_exists _ _ _ Hf) Hf).
      fold dest_file. rewrite (os_path_home dest_file st Habs Hcwd).
      by destruct (mtime dst <? mtime src).
    + rewrite (sync_file_from_remote_missing _ _ _ _ Hsrc (Hdir eq_refl)).
      fold dest_file. by rewrite (os_path_home dest_file st Habs Hcwd).
Qed.

(** After its preamble a sync from S3 is the loop over the files found. *)
Lemma sync_from_remote_run source dest dry_run st relative :
  PyStr.startswith "s3://" source = true →
  Paths.resolve_relative_to HOME_DIR (cwd st) dest = Ok relative →
  sync source dest dry_run st
  = for_each (s3_find (remote st) source) (sync_file Aws relative dry_run) st.
Proof.
  intros Hs3 Hrel. unfold sync. rewrite Hs3, run_ret, run_get.
  rewrite run_bind, run_bind, run_lift, Hrel. simpl.
  unfold find. by rewrite run_bind.
Qed.

(** *** The whole run *)

#[local] Instance only_adds_preorder : PreOrder only_adds.
Proof.
  split.
  - by intros st.
  - intros a b c [Hab1 Hab2] [Hbc1 Hbc2]. split; eauto.
Qed.

#[local] Instance framed_preorder : PreOrder framed.
Proof.
  split.
  - intros st. exists []. split; [by rewrite app_nil_r|done].
  - intros a b c (m1 & Ht1 & Hf1) (m2 & Ht2 & Hf2).
    exists (m1 ++ m2). split; [by rewrite Ht2, Ht1, app_assoc|].
    intros key Hkey. rewrite fmap_app, elem_of_app in Hkey.
    destruct (Hf1 key) as [? ?]; [tauto|].
    destruct (Hf2 key) as [? ?]; [tauto|]. split; congruence.
Qed.

#[local] Instance unchanged_preorder : PreOrder (λ st st' : state, st' = st).
Proof. split; [by intros st|]. intros a b c. congruence. Qed.

Lemma remote_get_run rpath lpath st :
  remote_get rpath lpath st
  = match remote st !! Paths.s3_key rpath with
    | Some src =>
        (Ok tt, log_transfer (Paths.s3_key rpath) (Paths.os_path (cwd st) lpath)
                  (write_local (Paths.os_path (cwd st) lpath) (data src) st))
    | None => (Raise (FileNotFoundError rpath), st)
    end.
Proof.
  unfold remote_get. rewrite run_bind. unfold remote_read.
  by destruct (remote st !! Paths.s3_key rpath).
Qed.

Lemma remote_put_run lpath rpath st :
  remote_put lpath rpath st
  = match local st !! Paths.os_path (cwd st) lpath with
    | Some src =>
        let source := Paths.os_path (cwd st) lpath in
        let name := put_name st source rpath in
        if PyStr.contains "/" name
        then (Ok tt, log_transfer source name (write_remote name (data src) st))
        else (Raise (LibraryError "ParamValidationError"), st)
    | None => (Raise (FileNotFoundError lpath), st)
    end.
Proof.
  unfold remote_put. rewrite run_bind. unfold local_read.
  destruct (local st !! Paths.os_path (cwd st) lpath); [|done].
  rewrite run_get. cbv zeta. by case_match.
Qed.

Lemma insert_is_Some (m : gmap string file) key key' f :
  is_Some (m !! key) → is_Some (<[key' := f]> m !! key).
Proof.
  intros Hk. destruct (decide (key' = key)) as [->|Hne].
  - rewrite lookup_insert_eq. eauto.
  - by rewrite lookup_insert_ne.
Qed.

Lemma remote_get_only_adds rpath lpath : keeps only_adds (remote_get rpath lpath).
Proof.
  intros st. rewrite remote_get_run. case_match; [|done].
  split; simpl; [done|]. intros key. apply insert_is_Some.
Qed.

Lemma remote_put_only_adds lpath rpath : keeps only_adds (remote_put lpath rpath).
Proof.
  intros st. rewrite remote_put_run. case_match; [|done].
  cbv zeta. case_match; [|done].
  split; simpl; [|done]. intros key. apply insert_is_Some.
Qed.

Lemma remote_get_framed rpath lpath : keeps framed (remote_get rpath lpath).
Proof.
  intros st. rewrite remote_get_run. case_match; [|done].
  eexists [_]. split; [done|]. simpl. intros key Hkey.
  split; [done|]. apply lookup_insert_ne. set_solver.
Qed.

Lemma remote_put_framed lpath rpath : keeps framed (remote_put lpath rpath).
Proof.
  intros st. rewrite remote_put_run. case_match; [|done].
  cbv zeta. case_match; [|by exists []; rewrite app_nil_r].
  eexists [_]. split; [done|]. simpl. intros key Hkey.
  split; [|done]. apply lookup_insert_ne. set_solver.
Qed.

Lemma out_of_date_keeps (R : relation state) `{!Reflexive R} SOURCE source_file dest_file :
  keeps R (out_of_date SOURCE source_file dest_file).
Proof. apply keeps_unchanged; [done|]. apply out_of_date_unchanged. Qed.

Hint Resolve remote_get_only_adds remote_put_only_adds remote_get_framed
  remote_put_framed : keeps.
Hint Extern 1 (keeps _ (out_of_date _ _ _)) => apply out_of_date_keeps; apply _ : keeps.

(** [sync] removes no file, on either side. *)
Lemma sync_only_adds source dest dry_run : keeps only_adds (sync source dest dry_run).
Proof. unfold sync, find, sync_file. keeps_go. Qed.

(** [sync] changes files only where it records a transfer: a stored file
    that is not the destination of a copy is as it was. *)
Lemma sync_framed source dest dry_run : keeps framed (sync source dest dry_run).
Proof. unfold sync, find, sync_file. keeps_go. Qed.

(** A dry run changes nothing. *)
Lemma sync_dry_run source dest st : (sync source dest true st).2 = st.
Proof.
  enough (keeps (λ st st' : state, st' = st) (sync source dest true)) as Hk
    by apply Hk.
  unfold sync, find, sync_file. keeps_go.
Qed.

(** *** A second run from S3 *)

(** A file that cannot be fetched, or whose destination is a directory,
    ends the run with an exception. *)
Lemma sync_file_from_remote_fails dest source_file st :
  remote st !! Paths.s3_key source_file = None
  ∨ (local st !! Paths.os_path (cwd st) (dest_file_of dest source_file) = None
     ∧ os_exists st (dest_file_of dest source_file) = true) →
  (sync_file Aws dest false source_file st).1 ≠ Ok tt.
Proof.
  intros Hcase. unfold sync_file. rewrite run_get, run_ret, run_bind.
  unfold out_of_date. rewrite run_bind. simpl.
  destruct (os_exists st (dest_file_of dest source_file)) eqn:Hex; simpl.
  - rewrite run_bind. unfold remote_modified at 1.
    destruct (remote st !! Paths.s3_key source_file) as [src|]; [|done].
    rewrite run_bind. unfold local_modified at 1.
    destruct Hcase as [|[-> _]]; done.
  - destruct Hcase as [Hsrc|[_ ?]]; [|done].
    rewrite remote_get_run, Hsrc. done.
Qed.

Lemma settled_skip dest source_file st :
  settled dest st source_file →
  sync_file Aws dest false source_file st = (Ok tt, st).
Proof.
  intros (src & dst & Hsrc & Hdst & Hle).
  rewrite (sync_file_from_remote_present _ _ _ _ _ Hsrc (found_exists _ _ _ Hdst) Hdst).
  by replace (mtime dst <? mtime src) with false by lia.
Qed.

(** What fetching a file leaves behind. *)
Lemma fetched_settled dest source_file st src :
  Paths.is_abs HOME_DIR = true → cwd st = HOME_DIR → not_from_the_future st →
  remote st !! Paths.s3_key source_file = Some src →
  let target := Paths.os_path (cwd st)
                  (Paths.joinpath HOME_DIR (dest_file_of dest source_file)) in
  let st' := log_transfer (Paths.s3_key source_file) target
               (write_local target (data src) st) in
  settled dest st' source_file ∧ ∀ g, settled dest st g → settled dest st' g.
Proof.
  intros Habs Hcwd Hpast Hsrc target st'.
  assert (target = Paths.os_path (cwd st) (dest_file_of dest source_file)) as Htarget
    by (by apply os_path_home).
  unfold settled.
  change (local st') with (<[target := File (data src) (clock st)]> (local st)).
  change (cwd st') with (cwd st). change (remote st') with (remote st).
  split.
  - exists src, (File (data src) (clock st)).
    split; [done|]. split; [by rewrite <- Htarget, lookup_insert_eq|].
    by apply (Hpast (Paths.s3_key source_file)).
  - intros g (srcg & dstg & Hg & Hdg & Hle).
    destruct (decide (target = Paths.os_path (cwd st) (dest_file_of dest g))) as [E|E].
    + exists srcg, (File (data src) (clock st)).
      split; [done|]. split; [by rewrite <- E, lookup_insert_eq|].
      by apply (Hpast (Paths.s3_key g)).
    + exists srcg, dstg. split; [done|]. split; [by rewrite lookup_insert_ne|done].
Qed.

Lemma sync_file_from_remote_step dest source_file st st' :
  Paths.is_abs HOME_DIR = true → cwd st = HOME_DIR → not_from_the_future st →
  sync_file Aws dest false source_file st = (Ok tt, st') →
  remote st' = remote st ∧ cwd st' = cwd st ∧ clock st ≤ clock st'
  ∧ settled dest st' source_file
  ∧ ∀ g, settled dest st g → settled dest st' g.
Proof.
  intros Habs Hcwd Hpast Hrun.
  destruct (remote st !! Paths.s3_key source_file) as [src|] eqn:Hsrc; last first.
  { destruct (sync_file_from_remote_fails dest source_file st); [by left|].
    by rewrite Hrun. }
  destruct (fetched_settled dest source_file st src Habs Hcwd Hpast Hsrc) as [Hnew Hold].
  destruct (local st !! Paths.os_path (cwd st) (dest_file_of dest source_file))
    as [dst|] eqn:Hdst.
  - rewrite (sync_file_from_remote_present _ _ _ _ _ Hsrc (found_exists _ _ _ Hdst) Hdst)
      in Hrun.
    destruct (mtime dst <? mtime src) eqn:Hlt; simplify_eq.
    + split; [done|]. split; [done|]. split; [simpl; lia|]. done.
    + split; [done|]. split; [done|]. split; [lia|]. split; [|done].
      exists src, dst. split; [done|]. split; [done|]. lia.
  - destruct (os_exists st (dest_file_of dest source_file)) eqn:Hex.
    { destruct (sync_file_from_remote_fails dest source_file st); [by right|].
      by rewrite Hrun. }
    rewrite (sync_file_from_remote_missing _ _ _ _ Hsrc Hex) in Hrun. simplify_eq.
    split; [done|]. split; [done|]. split; [simpl; lia|]. done.
Qed.

Lemma sync_loop_from_remote dest files :
  Paths.is_abs HOME_DIR = true →
  ∀ st st', cwd st = HOME_DIR → not_from_the_future st →
    for_each files (sync_file Aws dest false) st = (Ok tt, st') →
    remote st' = remote st ∧ cwd st' = cwd st ∧ clock st ≤ clock st'
    ∧ (∀ f, f ∈ files → settled dest st' f)
    ∧ ∀ g, settled dest st g → settled dest st' g.
Proof.
  intros Habs. induction files as [|f files IH]; intros st st' Hcwd Hpast Hrun.
  - change (for_each [] _ st) with (Ok tt, st) in Hrun. simplify_eq.
    split; [done|]. split; [done|]. split; [lia|]. split; [|done].
    intros f Hf. by apply elem_of_nil in Hf.
  - change (for_each (f :: files) ?b) with (b f ;; for_each files b) in Hrun.
    rewrite run_bind in Hrun.
    destruct (sync_file Aws dest false f st) as [[[]|e] s1] eqn:Hf; [|done].
    destruct (sync_file_from_remote_step _ _ _ _ Habs Hcwd Hpast Hf)
      as (Hr1 & Hc1 & Ht1 & Hnew & Hold).
    assert (not_from_the_future s1) as Hpast1.
    { intros key src Hk. rewrite Hr1 in Hk. specialize (Hpast key src Hk). lia. }
    destruct (IH s1 st' (eq_trans Hc1 Hcwd) Hpast1 Hrun)
      as (Hr2 & Hc2 & Ht2 & Hall & Hkeep).
    split; [congruence|]. split; [congruence|]. split; [lia|]. split.
    + intros g Hg. apply elem_of_cons in Hg as [->|Hg]; auto.
    + auto.
Qed.

(** From S3 to the disk [sync] is idempotent: in a process that works in
    the home directory, a run that went through is followed by a run that
    copies nothing. *)
Lemma sync_from_remote_idempotent source dest st st' :
  Paths.is_abs HOME_DIR = true → cwd st = HOME_DIR → not_from_the_future st →
  PyStr.startswith "s3://" source = true →
  sync source dest false st = (Ok tt, st') →
  sync source dest false st' = (Ok tt, st').
Proof.
  intros Habs Hcwd Hpast Hs3 Hrun.
  destruct (Paths.resolve_relative_to HOME_DIR (cwd st) dest) as [relative|e] eqn:Hrel;
    last first.
  { unfold sync in Hrun. rewrite Hs3, run_ret, run_get in Hrun.
    rewrite run_bind, run_bind, run_lift, Hrel in Hrun. done. }
  rewrite (sync_from_remote_run _ _ _ _ _ Hs3 Hrel) in Hrun.
  destruct (sync_loop_from_remote relative _ Habs st st' Hcwd Hpast Hrun)
    as (Hr & Hc & _ & Hall & _).
  rewrite <- Hc in Hrel.
  rewrite (sync_from_remote_run _ _ _ _ _ Hs3 Hrel), Hr.
  clear Hrun. induction (s3_find (remote st) source) as [|f files IH]; [done|].
  change (for_each (f :: files) ?b) with (b f ;; for_each files b).
  rewrite run_bind, settled_skip by (apply Hall; left).
  apply IH. intros g Hg. apply Hall. by right.
Qed.

End sync_facts.

Lemma dest_file_strips_first_component_witness :
  source_file_key ("bucket" +:+ "/" +:+ "a/x.json") = "a/x.json"
  ∧ dest_file_of "out" ("bucket" +:+ "/" +:+ "a/x.json") = "out" +:+ "/" +:+ "a/x.json"
  ∧ dest_file_of "out" "bucket" = "out" +:+ "/".
Proof. apply (dest_file_strips_first_component "out" "bucket" "a/x.json"). reflexivity. Defined.

(** C8, as stated, fails for a source root below the bucket: the file
    [x.json] found under the root [s3://bucket/a] is written to
    [out/a/x.json], and nothing is written to [out/x.json], the path the file
    has relative to the root. *)
Lemma sync_deep_root_counterexample :
  let st := Demo.start {[ "bucket/a/x.json" := File "X" 5 ]} ∅ in
  let st' := (sync "s3://bucket/a" "/home/u/out" false st).2 in
  s3_find (remote st) "s3://bucket/a" = ["bucket/a/x.json"]
  ∧ (sync "s3://bucket/a" "/home/u/out" false st).1 = Ok tt
  ∧ dest_file_of "out" "bucket/a/x.json" = "out/a/x.json"
  ∧ dest_file_of "out" "bucket/a/x.json" ≠ "out" +:+ "/" +:+ "x.json"
  ∧ local st' !! "/home/u/out/a/x.json" = Some (File "X" 100)
  ∧ local st' !! "/home/u/out/x.json" = None.
Proof. vm_compute. repeat split; discriminate. Qed.

(** *** Runs from the disk to S3 *)

(** The local file [data/x.txt] (time 5) is synced to [s3://bucket/backup],
    where [x.txt] exists with a later time (9).  The destination is looked
    for on the local disk, is not found there, and the file is sent: it
    replaces the newer object. *)
Example sync_to_remote_overwrites_newer :
  let st := Demo.start {[ "bucket/backup/x.txt" := File "new" 9 ]}
                       {[ "/home/u/data/x.txt" := File "old" 5 ]} in
  let run := sync "data" "s3://bucket/backup" false st in
  dest_file_of "s3://bucket/backup" "data/x.txt" = "s3://bucket/backup/x.txt"
  ∧ mtime <$> local st !! "/home/u/data/x.txt" = Some 5
  ∧ mtime <$> remote st !! "bucket/backup/x.txt" = Some 9
  ∧ os_exists st "s3://bucket/backup/x.txt" = false
  ∧ run.1 = Ok tt
  ∧ transfers run.2 = [("/home/u/data/x.txt", "bucket/backup/x.txt")]
  ∧ remote run.2 !! "bucket/backup/x.txt" = Some (File "old" 100).
Proof. vm_compute. repeat split. Qed.

(** C5 at a failing input: the same folder is synced to S3 twice in a row,
    the local files being left alone in between.  The second run sends the
    file again. *)
Theorem sync_to_remote_twice_example :
  let st := Demo.start ∅ {[ "/home/u/data/x.txt" := File "text" 5 ]} in
  let first := sync "data" "s3://bucket/backup" false st in
  let second := sync "data" "s3://bucket/backup" false first.2 in
  first.1 = Ok tt ∧ second.1 = Ok tt
  ∧ local first.2 = local st
  ∧ transfers first.2 = [("/home/u/data/x.txt", "bucket/backup/x.txt")]
  ∧ mtime <$> remote first.2 !! "bucket/backup/x.txt" = Some 100
  ∧ transfers second.2
    = transfers first.2 ++ [("/home/u/data/x.txt", "bucket/backup/x.txt")].
Proof. vm_compute. repeat split. Qed.

(** C9 at a failing input: S3 holds [keep.txt], which has no counterpart on
    the disk, and [x.txt], written after the local [x.txt].  The run leaves
    [keep.txt] as it is but overwrites [x.txt], a destination file that is
    neither missing nor older than its source. *)
Theorem sync_to_remote_clobbers_example :
  let st := Demo.start {[ "bucket/backup/keep.txt" := File "kept" 3;
                          "bucket/backup/x.txt" := File "edited on S3" 8 ]}
                       {[ "/home/u/data/x.txt" := File "stale" 5 ]} in
  let run := sync "data" "s3://bucket/backup" false st in
  run.1 = Ok tt
  ∧ remote run.2 !! "bucket/backup/keep.txt" = remote st !! "bucket/backup/keep.txt"
  ∧ remote st !! "bucket/backup/x.txt" = Some (File "edited on S3" 8)
  ∧ local st !! "/home/u/data/x.txt" = Some (File "stale" 5)
  ∧ remote run.2 !! "bucket/backup/x.txt" = Some (File "stale" 100).
Proof. vm_compute. repeat split. Qed.

(** *** Runs from S3 to the disk, for comparison *)

(** In this direction the destination is where the test looks for it: a
    second run finds the files of the first and fetches nothing, and a local
    file that is not older than the object is left alone. *)
Example sync_from_remote_twice :
  let st := Demo.start {[ "bucket/a/x.json" := File "X" 5;
                          "bucket/a/sub/y.json" := File "Y" 6 ]} ∅ in
  let first := sync "s3://bucket" "/home/u/out" false st in
  let second := sync "s3://bucket" "/home/u/out" false first.2 in
  transfers first.2 = [("bucket/a/sub/y.json", "/home/u/out/a/sub/y.json");
                       ("bucket/a/x.json", "/home/u/out/a/x.json")]
  ∧ second = (Ok tt, first.2).
Proof. vm_compute. repeat split. Qed.

Example sync_from_remote_keeps_newer :
  let st := Demo.start {[ "bucket/a/x.json" := File "X" 5 ]}
                       {[ "/home/u/out/a/x.json" := File "mine" 5 ]} in
  sync "s3://bucket" "/home/u/out" false st = (Ok tt, st).
Proof. vm_compute. repeat split. Qed.

Example sync_from_remote_refreshes_older :
  let st := Demo.start {[ "bucket/a/x.json" := File "X" 5 ]}
                       {[ "/home/u/out/a/x.json" := File "mine" 4 ]} in
  local (sync "s3://bucket" "/home/u/out" false st).2 !! "/home/u/out/a/x.json"
  = Some (File "X" 100).
Proof. vm_compute. repeat split. Qed.

(** The values kept from a mapping: the falsy ones are dropped. *)
Example doc_values_mapping :
  doc_values (JObject [("a", PDict [("x", PInt 1)]); ("b", PNone); ("c", PList []);
                       ("d", PStr ""); ("e", PInt 0); ("f", PFloat (S754_zero true));
                       ("g", PBool false); ("h", PDict []); ("i", PStr "0")])
  = [PDict [("x", PInt 1)]; PStr "0"].
Proof. reflexivity. Qed.

Lemma sync_file_copy_decision_witness :
  let st := Demo.start {[ "bucket/a/x.json" := File "X" 5 ]}
                       {[ "/home/u/out/a/x.json" := File "mine" 4 ]} in
  let dest_file := dest_file_of "out" "bucket/a/x.json" in
  let target := Paths.os_path (cwd st) (Paths.joinpath HOME_DIR dest_file) in
  let found := local st !! target in
  let due := match found with
             | None => true
             | Some dst => mtime dst <? mtime (File "X" 5)
             end in
  sync_file Aws "out" false "bucket/a/x.json" st
  = (Ok tt,
     if due && negb false
     then log_transfer (Paths.s3_key "bucket/a/x.json") target
            (write_local target (data (File "X" 5)) st)
     else st).
Proof.
  intros st.
  apply (sync_file_copy_decision "out" "bucket/a/x.json" false st (File "X" 5)).
  - reflexivity.
  - reflexivity.
  - reflexivity.
  - vm_compute. discriminate.
Defined.

(** C4, as stated, fails on a dry run: the file found under [s3://bucket]
    has no destination yet, and it is not copied. *)
Lemma sync_dry_run_counterexample :
  let st := Demo.start {[ "bucket/a/x.json" := File "X" 5 ]} ∅ in
  let run := sync "s3://bucket" "/home/u/out" true st in
  s3_find (remote st) "s3://bucket" = ["bucket/a/x.json"]
  ∧ os_exists st (dest_file_of "out" "bucket/a/x.json") = false
  ∧ run = (Ok tt, st)
  ∧ local run.2 !! "/home/u/out/a/x.json" = None
  ∧ transfers run.2 = [].
Proof. vm_compute. repeat split. Qed.

(** *** The reducer on the small file system *)

(** Two partitions are merged in the order of their names, not of their
    times; without partition files of the second kind the run still ends in
    the no-files error, after the first artifact has been written. *)
Example combine_two_partitions :
  let st := Demo.start
    {[ "bucket/run/chunks/court_results_1.json" := File "[3]" 4;
       "bucket/run/chunks/court_results_0.json" := File "[1, 2]" 5;
       "bucket/run/chunks/court_input_0.csv" := File "a,b" 5 ]} ∅ in
  let run := combine_parallel_results "court" "2020" "s3://bucket/run/chunks" st in
  run.1 = Ok (PStr "s3://bucket/run/court_results.json")
  ∧ remote run.2 !! "bucket/run/court_results.json" = Some (File "[1, 2, 3]" 100)
  ∧ remote run.2 !! "bucket/run/court_input.csv" = Some (File "a,b" 101).
Proof. vm_compute. repeat split. Qed.

(** Without any partition file of the first kind nothing is written. *)
Example combine_nothing_found :
  let st := Demo.start {[ "bucket/run/chunks/notes.txt" := File "n" 1 ]} ∅ in
  combine_parallel_results "court" "2020" "s3://bucket/run/chunks" st
  = (Raise (no_files_error "court" "2020" "s3://bucket/run/chunks"), st).
Proof. vm_compute. repeat split. Qed.

(** ** More about [parse_aws_path] *)

Section parse_facts.

Lemma split_length (sep : ascii) (s : string) :
  length (PyStr.split sep s) = S (count_char sep s).
Proof.
  induction s as [|c s IH]; [done|].
  change (PyStr.split sep (String c s))
    with (if Ascii.eqb c sep then EmptyString :: PyStr.split sep s
          else match PyStr.split sep s with
               | [] => [String c EmptyString]
               | w :: ws => String c w :: ws
               end).
  change (count_char sep (String c s))
    with ((if Ascii.eqb c sep then 1 else 0) + count_char sep s)%nat.
  destruct (Ascii.eqb c sep); simpl; [by rewrite IH|].
  rewrite <- IH. pose proof (split_nonempty sep s).
  by destruct (PyStr.split sep s).
Qed.

(** No field of a split holds the separator. *)
Lemma split_fields (sep : ascii) (s : string) :
  Forall (λ w, PyStr.contains sep w = false) (PyStr.split sep s).
Proof.
  induction s as [|c s IH]; [by repeat constructor|].
  change (PyStr.split sep (String c s))
    with (if Ascii.eqb c sep then EmptyString :: PyStr.split sep s
          else match PyStr.split sep s with
               | [] => [String c EmptyString]
               | w :: ws => String c w :: ws
               end).
  destruct (Ascii.eqb c sep) eqn:Hc; [by constructor|].
  destruct IH as [|w ws Hw Hws]; constructor; try done; simpl; by rewrite Hc.
Qed.

(** X1: [parse_aws_path] needs two slashes.  A path with fewer ends in
    the [IndexError] of [split("/")[2]]; any other path is split, whatever
    its scheme, and the bucket it returns holds no slash. *)
Theorem parse_aws_path_needs_two_slashes (path : string) :
  ((count_char "/" path < 2)%nat →
   parse_aws_path path = Raise (IndexError "list index out of range"))
  ∧ ((2 ≤ count_char "/" path)%nat →
     ∃ bucket key, parse_aws_path path = Ok (bucket, key)
                   ∧ PyStr.contains "/" bucket = false
                   ∧ PyStr.split "/" path !! 2%nat = Some bucket).
Proof.
  pose proof (split_length "/" path) as Hlen.
  pose proof (split_fields "/" path) as Hfields.
  unfold parse_aws_path, Py.index. simpl.
  change (Z.to_nat 2) with 2%nat.
  split; intros Hn.
  - rewrite lookup_ge_None_2 by lia. done.
  - destruct (lookup_lt_is_Some_2 (PyStr.split "/" path) 2) as [bucket Hb]; [lia|].
    rewrite Hb. eexists bucket, _.
    split; [reflexivity|]. split; [|done].
    by apply (Forall_lookup_1 _ _ _ _ Hfields Hb).
Qed.

(** X2: the first two fields of the path are not looked at: with any
    two slash-free fields in front, the third field is the bucket and the rest
    the key, and a path that ends with the bucket has the empty key. *)
Theorem parse_aws_path_any_scheme (first second bucket key : string) :
  PyStr.contains "/" first = false →
  PyStr.contains "/" second = false →
  PyStr.contains "/" bucket = false →
  parse_aws_path (first +:+ "/" +:+ second +:+ "/" +:+ bucket +:+ "/" +:+ key)
  = Ok (bucket, key)
  ∧ parse_aws_path (first +:+ "/" +:+ second +:+ "/" +:+ bucket) = Ok (bucket, "").
Proof.
  intros H1 H2 Hb. unfold parse_aws_path. split.
  - change (first +:+ "/" +:+ second +:+ "/" +:+ bucket +:+ "/" +:+ key)
      with (first +:+ String "/" (second +:+ String "/" (bucket +:+ String "/" key))).
    rewrite !split_app by done.
    change (drop 3 (_ :: _ :: ?b :: ?l)) with l.
    rewrite (join_split "/" key). reflexivity.
  - change (first +:+ "/" +:+ second +:+ "/" +:+ bucket)
      with (first +:+ String "/" (second +:+ String "/" bucket)).
    rewrite !split_app by done.
    pose proof (split_length "/" bucket) as Hlen.
    assert (count_char "/" bucket = 0%nat) as H0.
    { clear -Hb. induction bucket as [|c b IH]; [done|]. simpl in *.
      apply orb_false_iff in Hb as [-> Hb]. by rewrite IH. }
    rewrite H0 in Hlen.
    pose proof (join_split "/" bucket) as Hj.
    destruct (PyStr.split "/" bucket) as [|w [|? ?]]; simpl in *; try done.
    by subst.
Qed.

End parse_facts.

Lemma parse_aws_path_any_scheme_witness :
  parse_aws_path ("" +:+ "/" +:+ "home" +:+ "/" +:+ "u" +:+ "/" +:+ "data/x.json")
  = Ok ("u", "data/x.json")
  ∧ parse_aws_path ("" +:+ "/" +:+ "home" +:+ "/" +:+ "u") = Ok ("u", "").
Proof.
  apply (parse_aws_path_any_scheme "" "home" "u" "data/x.json"); reflexivity.
Defined.

(** ** The cluster profile *)

Section cluster_facts.
Context `{Env}.

Lemma run_lift_bind {A B} (r : result A) (k : A → M B) st :
  (lift r ≫= k) st = match r with
                     | Ok a => k a st
                     | Raise e => (Raise e, st)
                     end.
Proof. by destruct r. Qed.

Lemma run_modify {B} (f : state → state) (k : unit → M B) st :
  (modify f ≫= k) st = k tt (f st).
Proof. reflexivity. Qed.

Lemma run_call {B} (rq : request) (k : pyval → M B) st :
  (call rq ≫= k) st = match aws_reply (requests st) rq with
                      | Ok v => k v (log_request rq st)
                      | Raise e => (Raise e, log_request rq st)
                      end.
Proof. rewrite run_bind. unfold call. by destruct (aws_reply (requests st) rq). Qed.

Lemma index_last {A} (l : list A) (x : A) :
  last l = Some x → Py.index l (-1) = Ok x.
Proof.
  intros Hl. unfold Py.index. change (-1 <? 0) with true. cbv iota.
  rewrite last_lookup in Hl.
  assert (0 < length l)%nat as Hpos.
  { destruct l; simpl in *; [done|lia]. }
  replace (-1 + Z.of_nat (length l) <? 0) with false
    by (symmetry; apply Z.ltb_ge; lia).
  replace (Z.to_nat (-1 + Z.of_nat (length l))) with (pred (length l)) by lia.
  by rewrite Hl.
Qed.

Lemma index_last_none {A} (l : list A) :
  last l = None → Py.index l (-1) = Raise (IndexError "list index out of range").
Proof. intros Hl. apply last_None in Hl. by subst. Qed.

(** The names [_init_cluster] compares with [cluster_name]. *)
Lemma cluster_names (arns : list string) :
  PyExtra.mapR (λ c, fields ← PyExtra.split_method c; Py.index (fields : list string) (-1))
               (PStr <$> arns)
  = Ok (arn_name <$> arns).
Proof.
  induction arns as [|arn arns IH]; [done|].
  rewrite !fmap_cons. simpl. rewrite IH.
  pose proof (split_nonempty "/" arn) as Hne.
  destruct (last (PyStr.split "/" arn)) as [name|] eqn:Hl.
  - unfold arn_name. rewrite Hl. by rewrite (index_last _ _ Hl).
  - by apply last_None in Hl.
Qed.

Lemma mapR_Forall2 {A B} (f : A → result B) (l : list A) (l' : list B) :
  Forall2 (λ x y, f x = Ok y) l l' → PyExtra.mapR f l = Ok l'.
Proof. induction 1 as [|x y l l' Hxy _ IH]; simpl; [done|]. by rewrite Hxy, IH. Qed.

(** X3: when no cluster listed for the account is called
    [cluster_name] (a cluster being named by what follows the last slash of
    its ARN), [_init_cluster] raises the missing-cluster [ValueError] after
    this one request, and sets neither attribute. *)
Theorem init_cluster_missing (st : state) (clusters : pyval) (arns : list string) :
  aws_reply (requests st) ListClusters = Ok clusters →
  Py.getitem clusters (KStr "clusterArns") = Ok (PList (PStr <$> arns)) →
  cluster_name ∉ arn_name <$> arns →
  _init_cluster st
  = (Raise (ValueError ("Missing ECS cluster: " +:+ cluster_name)),
     log_request ListClusters st).
Proof.
  intros Hreply Harns Hno. unfold _init_cluster.
  rewrite run_call, Hreply. cbv iota beta. rewrite run_lift_bind, Harns.
  change (Ok (PList (PStr <$> arns)) ≫= ?k) with (k (PList (PStr <$> arns))).
  cbv iota beta. change (PyExtra.iter (PList (PStr <$> arns))) with (Ok (PStr <$> arns)).
  cbv iota beta. rewrite run_lift_bind, cluster_names.
  by rewrite bool_decide_eq_false_2.
Qed.

(** X4: when the cluster is listed, [_init_cluster] sends the three
    requests in the order list-clusters, describe-subnets,
    list-task-definitions, and sets [subnets] to the subnet ids in the order
    given.  [task_definition] becomes the last definition listed; when none
    is listed the call ends in an [IndexError], with [subnets] already set and
    [task_definition] as it was. *)
Theorem init_cluster_resolves (st : state) (clusters described listed : pyval)
    (arns : list string) (found ids definitions : list pyval) :
  let asked := requests st ++ [ListClusters; DescribeSubnets;
                               ListTaskDefinitions APP_NAME "ASC"] in
  aws_reply (requests st) ListClusters = Ok clusters →
  Py.getitem clusters (KStr "clusterArns") = Ok (PList (PStr <$> arns)) →
  cluster_name ∈ arn_name <$> arns →
  aws_reply (requests st ++ [ListClusters]) DescribeSubnets = Ok described →
  Py.getitem described (KStr "Subnets") = Ok (PList found) →
  Forall2 (λ subnet id, Py.getitem subnet (KStr "SubnetId") = Ok id) found ids →
  aws_reply (requests st ++ [ListClusters; DescribeSubnets])
            (ListTaskDefinitions APP_NAME "ASC") = Ok listed →
  Py.getitem listed (KStr "taskDefinitionArns") = Ok (PList definitions) →
  _init_cluster st
  = match last definitions with
    | Some latest =>
        (Ok tt, State (Some (PList ids)) (Some latest) asked (remote st) (local st)
                      (cwd st) (clock st) (transfers st))
    | None =>
        (Raise (IndexError "list index out of range"),
         State (Some (PList ids)) (task_definition st) asked (remote st) (local st)
               (cwd st) (clock st) (transfers st))
    end.
Proof.
  intros asked Hreply Harns Hyes Hsub Hfound Hids Hdefs Hlisted.
  unfold _init_cluster.
  rewrite run_call, Hreply. cbv iota beta. rewrite run_lift_bind, Harns.
  change (Ok (PList (PStr <$> arns)) ≫= ?k) with (k (PList (PStr <$> arns))).
  cbv iota beta. change (PyExtra.iter (PList (PStr <$> arns))) with (Ok (PStr <$> arns)).
  cbv iota beta. rewrite run_lift_bind, cluster_names. cbv iota beta.
  rewrite bool_decide_eq_true_2 by done. change (negb true) with false. cbv iota beta.
  rewrite run_call. change (requests (log_request ListClusters st))
    with (requests st ++ [ListClusters]).
  rewrite Hsub. cbv iota beta. rewrite run_lift_bind, Hfound.
  change (Ok (PList found) ≫= ?k) with (k (PList found)). cbv beta.
  change (PyExtra.iter (PList found)) with (Ok found).
  change (Ok found ≫= ?k) with (k found). cbv beta.
  rewrite (mapR_Forall2 _ _ _ Hids). cbv iota beta. rewrite run_modify, run_call.
  replace (requests (set_subnets (PList ids)
             (log_request DescribeSubnets (log_request ListClusters st))))
    with (requests st ++ [ListClusters; DescribeSubnets])
    by (simpl; by rewrite <- app_assoc).
  rewrite Hdefs. cbv iota beta. rewrite run_lift_bind, Hlisted.
  change (Ok (PList definitions) ≫= ?k) with (k (PList definitions)). cbv beta.
  change (Py.getitem (PList definitions) (KInt (-1))) with (Py.index definitions (-1)).
  unfold asked.
  destruct (last definitions) as [latest|] eqn:Hlast.
  - rewrite (index_last _ _ Hlast). unfold modify, set_task_definition, log_request,
      set_subnets. simpl. by rewrite <- !app_assoc.
  - rewrite (index_last_none _ Hlast). unfold set_task_definition, log_request,
      set_subnets. simpl. by rewrite <- !app_assoc.
Qed.

End cluster_facts.

Lemma init_cluster_missing_witness :
  @_init_cluster (Scenes.env_of Scenes.elsewhere) (Demo.start ∅ ∅)
  = (Raise (ValueError ("Missing ECS cluster: "
                        +:+ @cluster_name (Scenes.env_of Scenes.elsewhere))),
     log_request ListClusters (Demo.start ∅ ∅)).
Proof.
  apply (@init_cluster_missing (Scenes.env_of Scenes.elsewhere) (Demo.start ∅ ∅)
           (PDict [("clusterArns",
                    PList [PStr "arn:aws:ecs:us-east-1:1:cluster/another-cluster"])])
           ["arn:aws:ecs:us-east-1:1:cluster/another-cluster"]).
  - reflexivity.
  - reflexivity.
  - intros Hin. apply list_elem_of_singleton in Hin. vm_compute in Hin. discriminate.
Defined.

Lemma init_cluster_resolves_witness :
  let st := Demo.start ∅ ∅ in
  let asked := requests st ++ [ListClusters; DescribeSubnets;
                               ListTaskDefinitions APP_NAME "ASC"] in
  _init_cluster st
  = match last [PStr "arn:aws:ecs:us-east-1:1:task-definition/phl-courts-scraper:7"] with
    | Some latest =>
        (Ok tt, State (Some (PList [PStr "subnet-1"])) (Some latest) asked (remote st)
                      (local st) (cwd st) (clock st) (transfers st))
    | None =>
        (Raise (IndexError "list index out of range"),
         State (Some (PList [PStr "subnet-1"])) (task_definition st) asked (remote st)
               (local st) (cwd st) (clock st) (transfers st))
    end.
Proof.
  intros st.
  apply (init_cluster_resolves st
           (PDict [("clusterArns",
                    PList [PStr "arn:aws:ecs:us-east-1:1:cluster/phl-courts-scraper-cluster"])])
           (PDict [("Subnets", PList [PDict [("SubnetId", PStr "subnet-1")]])])
           (PDict [("taskDefinitionArns",
                    PList [PStr "arn:aws:ecs:us-east-1:1:task-definition/phl-courts-scraper:7"])])
           ["arn:aws:ecs:us-east-1:1:cluster/phl-courts-scraper-cluster"]
           [PDict [("SubnetId", PStr "subnet-1")]]
           [PStr "subnet-1"]
           [PStr "arn:aws:ecs:us-east-1:1:task-definition/phl-courts-scraper:7"]).
  - reflexivity.
  - reflexivity.
  - apply list_elem_of_singleton. reflexivity.
  - reflexivity.
  - reflexivity.
  - repeat constructor.
  - reflexivity.
  - reflexivity.
Defined.

(** ** More about [submit_jobs] *)

Section submit_more_facts.
Context `{Env}.

Lemma ensure_cluster_set st :
  is_Some (subnets st) → ensure_cluster st = (Ok tt, st).
Proof.
  intros [sn Hsn]. unfold ensure_cluster. rewrite run_get.
  by rewrite bool_decide_eq_false_2 by (by rewrite Hsn).
Qed.

Lemma range_first n : 1 ≤ n → ∃ rest, PyExtra.range n = 0 :: rest.
Proof.
  intros Hn. unfold PyExtra.range.
  destruct (Z.to_nat n) as [|m] eqn:Hm; [lia|]. simpl. eauto.
Qed.

Lemma range_none n : n ≤ 0 → PyExtra.range n = [].
Proof. intros Hn. unfold PyExtra.range. by replace (Z.to_nat n) with 0%nat by lia. Qed.

(** X5: on an object that has its subnets but no task definition, as
    [_init_cluster] leaves it when no definition is registered, [submit_jobs]
    does not look the cluster up again: asked for at least one partition it
    ends in an [AttributeError] and has sent nothing. *)
Theorem submit_jobs_half_initialised (j : job) (st : state) :
  is_Some (subnets st) → task_definition st = None → 1 ≤ ntasks j →
  submit_jobs j st
  = (Raise (AttributeError "'AWS' object has no attribute 'task_definition'"), st).
Proof.
  intros Hsub Hdef Hn. unfold submit_jobs.
  rewrite (run_bind_ok _ _ _ _ _ (ensure_cluster_set _ Hsub)).
  apply run_bind_raise. unfold launch_all.
  destruct Hsub as [sn Hsn]. rewrite run_bind. unfold attribute at 1. rewrite Hsn.
  destruct (range_first _ Hn) as [rest ->]. rewrite for_fold_cons.
  unfold launch at 1. rewrite run_bind. unfold attribute at 1. by rewrite Hdef.
Qed.

#[local] Instance subnets_stay_preorder : PreOrder subnets_stay.
Proof.
  split; [by intros st Hs|].
  intros a b c Hab Hbc Ha. unfold subnets_stay in *. auto.
Qed.

Lemma keeps_subnets {A} (m : M A) :
  (∀ st, subnets (m st).2 = subnets st) → keeps subnets_stay m.
Proof. intros Hm st. unfold subnets_stay. by rewrite Hm. Qed.

Lemma call_keeps_subnets rq : keeps subnets_stay (call rq).
Proof. by apply keeps_subnets. Qed.
Lemma remote_read_keeps_subnets path : keeps subnets_stay (remote_read path).
Proof. apply keeps_subnets. intros st. unfold remote_read. by case_match. Qed.
Lemma remote_write_keeps_subnets path bytes :
  keeps subnets_stay (remote_write path bytes).
Proof. apply keeps_subnets. intros st. unfold remote_write. by case_match. Qed.
Lemma attribute_keeps_subnets name get : keeps subnets_stay (attribute name get).
Proof. apply keeps_subnets. intros st. unfold attribute. by case_match. Qed.

Hint Resolve call_keeps_subnets remote_read_keeps_subnets remote_write_keeps_subnets
  attribute_keeps_subnets : keeps.

Lemma launched_keeps_subnets j :
  keeps subnets_stay (tasks ← launch_all j;
                      if negb (wait j) then mret PNone else await j tasks).
Proof.
  unfold launch_all, launch, await, check_provisioned, combine_parallel_results,
    aws_exists, combine_pair, load_file.
  keeps_go. by apply keeps_subnets.
Qed.

(** X6: the cluster is looked up once: after a call of [submit_jobs]
    that returned, the object has its subnets, so the next call sends no
    list-clusters, describe-subnets or list-task-definitions request. *)
Theorem submit_jobs_looks_up_once (j : job) (st st' : state) (value : pyval) :
  submit_jobs j st = (Ok value, st') →
  is_Some (subnets st') ∧ ensure_cluster st' = (Ok tt, st').
Proof.
  intros Hrun. unfold submit_jobs in Hrun. rewrite run_bind in Hrun.
  destruct (ensure_cluster st) as [[[]|e] st1] eqn:Hinit; [|done].
  destruct (ensure_cluster_ready _ _ Hinit) as [Hsub _].
  pose proof (launched_keeps_subnets j st1 Hsub) as Hstay.
  rewrite Hrun in Hstay. simpl in Hstay.
  split; [done|]. by apply ensure_cluster_set.
Qed.

#[local] Instance requests_grow_preorder : PreOrder requests_grow.
Proof.
  split.
  - intros st. exists []. by rewrite app_nil_r.
  - intros a b c [m1 H1] [m2 H2]. exists (m1 ++ m2). by rewrite H2, H1, app_assoc.
Qed.

Lemma keeps_requests {A} (m : M A) :
  (∀ st, requests (m st).2 = requests st) → keeps requests_grow m.
Proof. intros Hm st. exists []. by rewrite Hm, app_nil_r. Qed.

Lemma call_grows rq : keeps requests_grow (call rq).
Proof. intros st. by exists [rq]. Qed.
Lemma remote_read_grows path : keeps requests_grow (remote_read path).
Proof. apply keeps_requests. intros st. unfold remote_read. by case_match. Qed.
Lemma remote_write_grows path bytes : keeps requests_grow (remote_write path bytes).
Proof. apply keeps_requests. intros st. unfold remote_write. by case_match. Qed.

Hint Resolve call_grows remote_read_grows remote_write_grows : keeps.

(** X7: asked for no partition ([ntasks] zero or less), [submit_jobs]
    launches nothing.  Without [wait] it returns [None] right after the
    cluster lookup; with [wait] it goes on to wait, and the first request
    after the lookup is the waiter's, for an empty list of tasks. *)
Theorem submit_jobs_no_partition (j : job) (st st1 : state) :
  ntasks j ≤ 0 →
  ensure_cluster st = (Ok tt, st1) →
  if wait j then
    ∃ more, requests (submit_jobs j st).2
            = requests st1 ++ WaitTasksStopped cluster_name [] 60 500 :: more
  else submit_jobs j st = (Ok PNone, st1).
Proof.
  intros Hn Hinit. unfold submit_jobs.
  rewrite (run_bind_ok _ _ _ _ _ Hinit).
  destruct (ensure_cluster_ready _ _ Hinit) as [[sn Hsn] _].
  assert (launch_all j st1 = (Ok [], st1)) as Hlaunch.
  { unfold launch_all. rewrite run_bind. unfold attribute at 1. rewrite Hsn.
    by rewrite (range_none _ Hn). }
  rewrite (run_bind_ok _ _ _ _ _ Hlaunch).
  destruct (wait j); [|done].
  change (negb true) with false. cbv iota. unfold await.
  change (for_fold [] false check_provisioned) with (mret false : M bool).
  rewrite run_ret, run_lift_bind. simpl PyExtra.filterR. cbv iota beta.
  rewrite run_lift_bind. simpl PyExtra.mapR. cbv iota beta.
  rewrite run_bind. unfold call at 1.
  destruct (aws_reply (requests st1) (WaitTasksStopped cluster_name [] 60 500))
    as [answer|e]; [|by exists []].
  match goal with
  | |- ∃ more, requests (?m ?s).2 = _ =>
      assert (keeps requests_grow m) as Hrest
  end.
  { unfold combine_parallel_results, aws_exists, combine_pair, load_file.
    keeps_go. by apply keeps_requests. }
  match goal with
  | |- ∃ more, requests (?m ?s).2 = _ => destruct (Hrest s) as [more Hmore]
  end.
  exists more. rewrite Hmore. simpl. by rewrite <- app_assoc.
Qed.

End submit_more_facts.

(** ** [submit_jobs]: waiting for the tasks *)

Section await_facts.
Context `{Env}.

#[local] Instance same_stops_preorder : PreOrder same_stops.
Proof.
  split; [by intros st|].
  intros a b c Hab Hbc. unfold same_stops in *. congruence.
Qed.

Lemma stops_app a b : stops (a ++ b) = stops a ++ stops b.
Proof. unfold stops. apply bind_app. Qed.

Lemma unlogged_same_stops {A} (m : M A) :
  (∀ st, requests (m st).2 = requests st) → keeps same_stops m.
Proof. intros Hm st. unfold same_stops. by rewrite Hm. Qed.

Lemma call_same_stops rq : stops [rq] = [] → keeps same_stops (call rq).
Proof.
  intros Hrq st. unfold same_stops, call. simpl.
  by rewrite stops_app, Hrq, app_nil_r.
Qed.

Lemma remote_read_same_stops path : keeps same_stops (remote_read path).
Proof. apply unlogged_same_stops. intros st. unfold remote_read. by case_match. Qed.

Lemma remote_write_same_stops path bytes : keeps same_stops (remote_write path bytes).
Proof. apply unlogged_same_stops. intros st. unfold remote_write. by case_match. Qed.

Lemma attribute_same_stops name get : keeps same_stops (attribute name get).
Proof. apply unlogged_same_stops. intros st. unfold attribute. by case_match. Qed.

Hint Resolve remote_read_same_stops remote_write_same_stops attribute_same_stops : keeps.

Ltac stops_go :=
  keeps_go; first [by apply call_same_stops | by apply unlogged_same_stops].

Lemma ensure_cluster_same_stops : keeps same_stops ensure_cluster.
Proof. unfold ensure_cluster, _init_cluster. stops_go. Qed.

Lemma launch_all_same_stops j : keeps same_stops (launch_all j).
Proof. unfold launch_all, launch. stops_go. Qed.

Lemma combine_same_stops flavor dataset folder :
  keeps same_stops (combine_parallel_results flavor dataset folder).
Proof.
  unfold combine_parallel_results, aws_exists, combine_pair, load_file.
  keeps_go.
Qed.

(** The launch loop collects what the cluster answered. *)
Lemma launch_loop_well_formed base config ks :
  launches_well_formed →
  ∀ tasks st tasks' st',
    Forall well_formed_launch tasks →
    for_fold ks tasks (launch base config) st = (Ok tasks', st') →
    Forall well_formed_launch tasks'.
Proof.
  intros Hwf. induction ks as [|k ks IH]; intros tasks st tasks' st' Htasks Hrun.
  - simpl in Hrun. by injection Hrun as <- <-.
  - rewrite for_fold_cons in Hrun.
    destruct (launch base config tasks k st) as [[tasks1|e] st1] eqn:Hk; [|done].
    eapply IH; [|exact Hrun].
    unfold launch in Hk. rewrite run_bind in Hk.
    destruct (attribute "task_definition" task_definition st) as [[definition|e] st0];
      [|done].
    rewrite run_call in Hk.
    match type of Hk with
    | context [aws_reply ?h ?rq] => destruct (aws_reply h rq) as [task|e] eqn:Hreply
    end; [|done].
    injection Hk as <- <-.
    apply Forall_app. split; [done|].
    apply Forall_singleton. by eapply Hwf.
Qed.

Lemma await_same_stops j tasks st :
  Forall well_formed_launch tasks →
  same_stops st (await j tasks st).2.
Proof.
  intros Hwf. unfold await. rewrite run_bind.
  pose proof (check_provisioned_never_fails tasks st Hwf) as Hnever.
  assert (keeps same_stops (for_fold tasks false check_provisioned)) as Hcheck.
  { unfold check_provisioned. keeps_go. }
  specialize (Hcheck st).
  destruct (for_fold tasks false check_provisioned st) as [[[]|e] st'];
    simpl in Hnever, Hcheck; [done| |done].
  etrans; [exact Hcheck|].
  rewrite run_lift_bind.
  match goal with
  | |- context [match ?r with Ok _ => _ | Raise _ => _ end] => destruct r as [kept|e]
  end; [|done].
  match goal with
  | |- same_stops _ (?m _).2 => assert (keeps same_stops m) as Hrest
  end; [|apply Hrest].
  pose proof combine_same_stops. stops_go.
Qed.

(** X8: on launch results shaped as [boto3] shapes them (a list under
    ["tasks"]), [submit_jobs] never asks the cluster to stop a task, whatever
    was launched, provisioned or rejected, and however the call ends. *)
Theorem submit_jobs_never_stops (j : job) (st : state) :
  launches_well_formed →
  stops (requests (submit_jobs j st).2) = stops (requests st).
Proof.
  intros Hwf. change (same_stops st (submit_jobs j st).2).
  unfold submit_jobs. rewrite run_bind.
  pose proof (ensure_cluster_same_stops st) as Hinit.
  destruct (ensure_cluster st) as [[[]|e] st1]; simpl in Hinit; [|done].
  etrans; [exact Hinit|]. rewrite run_bind.
  pose proof (launch_all_same_stops j st1) as Hlaunch.
  destruct (launch_all j st1) as [[tasks|e] st2] eqn:Hrun; simpl in Hlaunch; [|done].
  etrans; [exact Hlaunch|].
  destruct (wait j); [|done]. change (negb true) with false. cbv iota.
  apply await_same_stops.
  unfold launch_all in Hrun. rewrite run_bind in Hrun.
  destruct (attribute "subnets" subnets st1) as [[subnet_ids|e] st0]; [|done].
  by eapply launch_loop_well_formed.
Qed.

(** Launch results that all hold a task handle pass the provisioning check
    and are all kept. *)
Lemma check_provisioned_all tasks arns st :
  Forall2 provisioned_as tasks arns →
  for_fold tasks false check_provisioned st = (Ok false, st).
Proof.
  induction 1 as [|task arn tasks arns (handle & others & Hh & _) _ IH]; [done|].
  rewrite for_fold_cons. unfold check_provisioned at 1, lift. simpl. rewrite Hh. simpl.
  replace (negb (Z.pos (Pos.of_succ_nat (length others)) =? 0)) with true
    by (symmetry; apply negb_true_iff, Z.eqb_neq; lia).
  exact IH.
Qed.

Lemma provisioned_kept tasks arns :
  Forall2 provisioned_as tasks arns →
  PyExtra.filterR (λ task, handles ← Py.getitem task (KStr "tasks");
                           n ← Py.len handles; mret (negb (n =? 0))) tasks
  = Ok tasks.
Proof.
  induction 1 as [|task arn tasks arns (handle & others & Hh & _) _ IH]; [done|].
  simpl. rewrite Hh. simpl. simpl in IH. rewrite IH. simpl.
  by replace (negb (Z.pos (Pos.of_succ_nat (length others)) =? 0)) with true
    by (symmetry; apply negb_true_iff, Z.eqb_neq; lia).
Qed.

Lemma provisioned_arns tasks arns :
  Forall2 provisioned_as tasks arns → PyExtra.mapR task_arn tasks = Ok arns.
Proof.
  intros Hall. apply mapR_Forall2. eapply Forall2_impl; [exact Hall|].
  intros task arn (handle & others & Hh & Ha). unfold task_arn.
  rewrite Hh. simpl. exact Ha.
Qed.

(** The run of [await] on provisioned tasks up to the waiter. *)
Lemma await_provisioned j tasks arns st :
  Forall2 provisioned_as tasks arns →
  await j tasks st
  = (call (WaitTasksStopped cluster_name arns 60 500) ;;
     modify (λ st, set_remote (task_output (requests st) (remote st)) st) ;;
     task_results ← call (DescribeTasks cluster_name arns);
     exit_codes ← lift (described ← Py.getitem task_results (KStr "tasks");
       described ← PyExtra.iter described;
       PyExtra.mapR (λ task,
            containers ← Py.getitem task (KStr "containers");
            first ← Py.getitem containers (KInt 0);
            Py.getitem first (KStr "exitCode")) described);
     combine_parallel_results (flavor j) (dataset j)
       ("s3://" +:+ APP_NAME +:+ "/"
        +:+ get_output_paths (flavor j) (dataset j) (output_folder j) +:+ "/chunks")) st.
Proof.
  intros Hall. unfold await.
  rewrite (run_bind_ok _ _ _ _ _ (check_provisioned_all _ _ st Hall)).
  rewrite run_lift_bind, (provisioned_kept _ _ Hall). cbv iota beta.
  rewrite run_lift_bind, (provisioned_arns _ _ Hall). by cbv iota beta.
Qed.

(** X9: with [wait], when every partition was provisioned and the waiter
    gives up (or fails in any way), [submit_jobs] ends in the waiter's error
    right after that request: the tasks are not described, nothing is
    combined or written, and no task is stopped. *)
Theorem submit_jobs_waiter_fails (j : job) (st st1 st2 : state)
    (tasks arns : list pyval) (e : exn) :
  wait j = true →
  ensure_cluster st = (Ok tt, st1) →
  launch_all j st1 = (Ok tasks, st2) →
  Forall2 provisioned_as tasks arns →
  aws_reply (requests st2) (WaitTasksStopped cluster_name arns 60 500) = Raise e →
  submit_jobs j st
  = (Raise e, log_request (WaitTasksStopped cluster_name arns 60 500) st2).
Proof.
  intros Hwait Hinit Hlaunch Hall Hreply. unfold submit_jobs.
  rewrite (run_bind_ok _ _ _ _ _ Hinit), (run_bind_ok _ _ _ _ _ Hlaunch), Hwait.
  change (negb true) with false. cbv iota.
  rewrite (await_provisioned _ _ _ _ Hall), run_call. by rewrite Hreply.
Qed.

(** X10: with [wait], once every partition was provisioned and the tasks
    have stopped, the exit codes are read but decide nothing: whatever codes
    the containers ended with, [submit_jobs] goes on to combine the chunks
    below [s3://APP_NAME/<output folder>/chunks] and ends as that does. *)
Theorem submit_jobs_ignores_exit_codes (j : job) (st st1 st2 : state)
    (tasks arns described codes : list pyval) (waited results : pyval) :
  let waiting := WaitTasksStopped cluster_name arns 60 500 in
  let st3 := log_request waiting st2 in
  let st4 := set_remote (task_output (requests st3) (remote st3)) st3 in
  wait j = true →
  ensure_cluster st = (Ok tt, st1) →
  launch_all j st1 = (Ok tasks, st2) →
  Forall2 provisioned_as tasks arns →
  aws_reply (requests st2) waiting = Ok waited →
  aws_reply (requests st4) (DescribeTasks cluster_name arns) = Ok results →
  Py.getitem results (KStr "tasks") = Ok (PList described) →
  Forall2 exited_with described codes →
  submit_jobs j st
  = combine_parallel_results (flavor j) (dataset j)
      ("s3://" +:+ APP_NAME +:+ "/"
       +:+ get_output_paths (flavor j) (dataset j) (output_folder j) +:+ "/chunks")
      (log_request (DescribeTasks cluster_name arns) st4).
Proof.
  intros waiting st3 st4 Hwait Hinit Hlaunch Hall Hwaited Hresults Hdescribed Hcodes.
  unfold submit_jobs.
  rewrite (run_bind_ok _ _ _ _ _ Hinit), (run_bind_ok _ _ _ _ _ Hlaunch), Hwait.
  change (negb true) with false. cbv iota.
  rewrite (await_provisioned _ _ _ _ Hall), run_call.
  fold waiting. rewrite Hwaited. cbv iota beta.
  rewrite run_modify. fold st3. fold st4.
  rewrite run_call, Hresults. cbv iota beta.
  rewrite run_lift_bind, Hdescribed.
  assert (PyExtra.mapR (λ task,
            containers ← Py.getitem task (KStr "containers");
            first ← Py.getitem containers (KInt 0);
            Py.getitem first (KStr "exitCode")) described = Ok codes) as Hmap.
  { apply mapR_Forall2. eapply Forall2_impl; [exact Hcodes|].
    intros entry code (container & others & Hc & Hx). rewrite Hc. simpl. exact Hx. }
  simpl. simpl in Hmap. by rewrite Hmap.
Qed.

End await_facts.

Lemma submit_jobs_half_initialised_witness :
  let st := (@_init_cluster (Scenes.env_of Scenes.unregistered) (Demo.start ∅ ∅)).2 in
  @submit_jobs (Scenes.env_of Scenes.unregistered) (Demo.scrape 2 false) st
  = (Raise (AttributeError "'AWS' object has no attribute 'task_definition'"), st).
Proof.
  intros st.
  apply (@submit_jobs_half_initialised (Scenes.env_of Scenes.unregistered)
           (Demo.scrape 2 false) st).
  - vm_compute. eauto.
  - reflexivity.
  - simpl. lia.
Defined.

Lemma submit_jobs_looks_up_once_witness :
  let st' := (submit_jobs (Demo.scrape 2 false) (Demo.start ∅ ∅)).2 in
  is_Some (subnets st') ∧ ensure_cluster st' = (Ok tt, st').
Proof.
  intros st'.
  apply (submit_jobs_looks_up_once (Demo.scrape 2 false) (Demo.start ∅ ∅) st' PNone).
  reflexivity.
Defined.

Lemma submit_jobs_no_partition_witness :
  submit_jobs (Demo.scrape 0 false) (Demo.start ∅ ∅)
  = (Ok PNone, (ensure_cluster (Demo.start ∅ ∅)).2).
Proof.
  apply (submit_jobs_no_partition (Demo.scrape 0 false) (Demo.start ∅ ∅)
           (ensure_cluster (Demo.start ∅ ∅)).2).
  - simpl. lia.
  - reflexivity.
Defined.

Lemma submit_jobs_never_stops_witness :
  stops (requests (submit_jobs (Demo.scrape 2 true) (Demo.start ∅ ∅)).2)
  = stops (requests (Demo.start ∅ ∅)).
Proof.
  apply (submit_jobs_never_stops (Demo.scrape 2 true) (Demo.start ∅ ∅)).
  intros history definition cluster config launch_type container command task Hreply.
  simpl in Hreply. unfold Demo.reply in Hreply.
  case_match; injection Hreply as <-; eexists; reflexivity.
Defined.

Lemma submit_jobs_waiter_fails_witness :
  let env' := Scenes.env_of Scenes.slow in
  let j := Demo.scrape 2 true in
  let st1 := (@ensure_cluster env' (Demo.start ∅ ∅)).2 in
  let st2 := (@launch_all env' j st1).2 in
  let arns := [PStr "arn:aws:ecs:us-east-1:1:task/--pid=0";
               PStr "arn:aws:ecs:us-east-1:1:task/--pid=1"] in
  @submit_jobs env' j (Demo.start ∅ ∅)
  = (Raise (LibraryError "WaiterError"),
     log_request (WaitTasksStopped (@cluster_name env') arns 60 500) st2).
Proof.
  intros env' j st1 st2 arns.
  apply (@submit_jobs_waiter_fails env' j (Demo.start ∅ ∅) st1 st2
           [Demo.provisioned "arn:aws:ecs:us-east-1:1:task/--pid=0";
            Demo.provisioned "arn:aws:ecs:us-east-1:1:task/--pid=1"] arns).
  - reflexivity.
  - reflexivity.
  - reflexivity.
  - repeat constructor; eexists _, _; split; reflexivity.
  - reflexivity.
Defined.

Lemma submit_jobs_ignores_exit_codes_witness :
  let env' := Scenes.env_of Scenes.failing in
  let j := Demo.scrape 2 true in
  let st1 := (@ensure_cluster env' (Demo.start ∅ ∅)).2 in
  let st2 := (@launch_all env' j st1).2 in
  let arns := [PStr "arn:aws:ecs:us-east-1:1:task/--pid=0";
               PStr "arn:aws:ecs:us-east-1:1:task/--pid=1"] in
  let waiting := WaitTasksStopped (@cluster_name env') arns 60 500 in
  let st3 := log_request waiting st2 in
  let st4 := set_remote (@task_output env' (requests st3) (remote st3)) st3 in
  @submit_jobs env' j (Demo.start ∅ ∅)
  = @combine_parallel_results env' (flavor j) (dataset j)
      ("s3://" +:+ @APP_NAME env' +:+ "/"
       +:+ @get_output_paths env' (flavor j) (dataset j) (output_folder j) +:+ "/chunks")
      (log_request (DescribeTasks (@cluster_name env') arns) st4).
Proof.
  intros env' j st1 st2 arns.
  apply (@submit_jobs_ignores_exit_codes env' j (Demo.start ∅ ∅) st1 st2
           [Demo.provisioned "arn:aws:ecs:us-east-1:1:task/--pid=0";
            Demo.provisioned "arn:aws:ecs:us-east-1:1:task/--pid=1"] arns
           [PDict [("containers", PList [PDict [("exitCode", PInt 1)]])];
            PDict [("containers", PList [PDict [("exitCode", PInt 1)]])]]
           [PInt 1; PInt 1] PNone
           (PDict [("tasks",
                    PList [PDict [("containers", PList [PDict [("exitCode", PInt 1)]])];
                           PDict [("containers", PList [PDict [("exitCode", PInt 1)]])]])])).
  - reflexivity.
  - reflexivity.
  - reflexivity.
  - repeat constructor; eexists _, _; split; reflexivity.
  - reflexivity.
  - reflexivity.
  - reflexivity.
  - repeat constructor; eexists _, _; split; reflexivity.
Defined.

(** ** The constructor *)

Section construction_facts.
Context `{Env}.

Lemma init_cluster_sets st st' :
  _init_cluster st = (Ok tt, st') →
  is_Some (subnets st') ∧ is_Some (task_definition st').
Proof.
  unfold _init_cluster. intros Hrun. run_in Hrun.
  unfold modify in Hrun. simplify_eq. simpl. eauto.
Qed.

(** X11: on Fargate ([AWS_EXECUTION_ENV] is exactly [AWS_ECS_FARGATE])
    and with the bucket in place, the constructor sends no request and sets
    neither [subnets] nor [task_definition]; the first [submit_jobs] on the
    object therefore starts with the cluster lookup. *)
Theorem init_on_fargate (create_bucket : string → M unit)
    (environ : gmap string string) (st : state) :
  environ !! "AWS_EXECUTION_ENV" = Some "AWS_ECS_FARGATE" →
  s3_exists (remote st) APP_NAME = true →
  __init__ create_bucket environ st = (Ok true, new_object st)
  ∧ ensure_cluster (new_object st) = _init_cluster (new_object st).
Proof.
  intros Henv Hbucket. split.
  - unfold __init__, is_ec2_instance. rewrite run_modify, run_get.
    change (remote (new_object st)) with (remote st). rewrite Hbucket.
    by rewrite bool_decide_eq_true_2.
  - unfold ensure_cluster. rewrite run_get. by rewrite bool_decide_eq_true_2.
Qed.

(** X12: anywhere else (the variable unset, or set to anything but
    [AWS_ECS_FARGATE]) a constructor that returns has looked the cluster up:
    [on_aws] is false, both attributes are set, and [submit_jobs] on the
    object does not look the cluster up again.  This holds whether or not the
    bucket had to be created. *)
Theorem init_off_fargate (create_bucket : string → M unit)
    (environ : gmap string string) (st st' : state) (on_aws : bool) :
  environ !! "AWS_EXECUTION_ENV" ≠ Some "AWS_ECS_FARGATE" →
  __init__ create_bucket environ st = (Ok on_aws, st') →
  on_aws = false
  ∧ is_Some (subnets st') ∧ is_Some (task_definition st')
  ∧ ensure_cluster st' = (Ok tt, st').
Proof.
  intros Henv. unfold __init__, is_ec2_instance.
  rewrite run_modify, run_get, bool_decide_eq_false_2 by done.
  change (negb false) with true. cbv iota.
  rewrite run_bind.
  match goal with
  | |- context [match ?m ?s with _ => _ end] => destruct (m s) as [[[]|e] st0]
  end; [|done].
  rewrite run_bind.
  destruct (_init_cluster st0) as [[[]|e] st1] eqn:Hinit; [|done].
  intros [= <- <-].
  destruct (init_cluster_sets _ _ Hinit) as [Hsub Hdef].
  split; [done|]. split; [done|]. split; [done|].
  by apply ensure_cluster_set.
Qed.

End construction_facts.

Lemma init_on_fargate_witness :
  let environ : gmap string string := {[ "AWS_EXECUTION_ENV" := "AWS_ECS_FARGATE" ]} in
  let st := Demo.start {[ "phl-courts-scraper/data/x.json" := File "[]" 1 ]} ∅ in
  __init__ Scenes.create_bucket environ st = (Ok true, new_object st)
  ∧ ensure_cluster (new_object st) = _init_cluster (new_object st).
Proof.
  intros environ st.
  apply (init_on_fargate Scenes.create_bucket environ st).
  - reflexivity.
  - reflexivity.
Defined.

Lemma init_off_fargate_witness :
  let environ : gmap string string := {[ "AWS_EXECUTION_ENV" := "AWS_ECS_EC2" ]} in
  let st' := (__init__ Scenes.create_bucket environ (Demo.start ∅ ∅)).2 in
  false = false
  ∧ is_Some (subnets st') ∧ is_Some (task_definition st')
  ∧ ensure_cluster st' = (Ok tt, st').
Proof.
  intros environ st'.
  apply (init_off_fargate Scenes.create_bucket environ (Demo.start ∅ ∅) st' false).
  - vm_compute. discriminate.
  - reflexivity.
Defined.

(** ** More about [combine_parallel_results] *)

Section reducer_more_facts.
Context `{Env}.

(** Reading the CSV files of a pair in turn stacks their frames. *)
Lemma load_csv_files st files frames :
  Forall2 (holds_frame st) files frames →
  ∀ t, for_fold files (Table t) (load_file ".csv") st
       = (Ok (Table (foldl pd_concat t frames)), st).
Proof.
  induction 1 as [|f d files frames (stored & Hf & Hd) _ IH]; intros t; [done|].
  rewrite for_fold_cons. unfold load_file at 1. rewrite run_bind.
  unfold remote_read at 1. rewrite Hf. cbv iota beta.
  change (String.eqb ".csv" ".json") with false. cbv iota.
  rewrite run_lift_bind, Hd. cbv iota beta. apply IH.
Qed.

Lemma load_csv_files_first st files first frames :
  Forall2 (holds_frame st) files (first :: frames) →
  for_fold files NoResult (load_file ".csv") st
  = (Ok (Table (foldl pd_concat first frames)), st).
Proof.
  intros Hall. apply Forall2_cons_inv_r in Hall
    as (f & files' & (stored & Hf & Hd) & Hrest & ->).
  rewrite for_fold_cons. unfold load_file at 1. rewrite run_bind.
  unfold remote_read at 1. rewrite Hf. cbv iota beta.
  change (String.eqb ".csv" ".json") with false. cbv iota.
  rewrite run_lift_bind, Hd. cbv iota beta. by apply load_csv_files.
Qed.

(** X13: a whole reduction, for a folder below the bucket, so that the
    two artifacts are named with a key.  When the JSON partitions decode to
    [docs] and, once the JSON artifact is stored, the CSV partitions parse to
    the frames [first :: frames] (each list of files taken in sorted order of
    the names), [combine_parallel_results] returns the name of the JSON
    artifact and leaves exactly two new objects: the JSON artifact with the
    values of the documents, and the CSV artifact with the frames stacked from
    the left, [pd.concat] by [pd.concat]. *)
Theorem combine_whole_run (flavor dataset output_folder : string) (st : state)
    (docs : list json_doc) (first : frame) (frames : list frame) :
  let results := flavor +:+ "_results" in
  let input := flavor +:+ "_input" in
  let json_files :=
    PyExtra.sorted (s3_glob (remote st) (pattern_of output_folder results ".json")) in
  let st1 := write_remote (artifact_key output_folder results ".json")
                          (json_dumps (concat (doc_values <$> docs))) st in
  let csv_files :=
    PyExtra.sorted (s3_glob (remote st1) (pattern_of output_folder input ".csv")) in
  (aws_exists output_folder st).1 = Ok true →
  Paths.has_key (combined_filename output_folder results ".json") = true →
  Paths.has_key (combined_filename output_folder input ".csv") = true →
  json_files ≠ [] →
  Forall2 (holds_doc st) json_files docs →
  Forall2 (holds_frame st1) csv_files (first :: frames) →
  combine_parallel_results flavor dataset output_folder st
  = (Ok (PStr (combined_filename output_folder results ".json")),
     write_remote (artifact_key output_folder input ".csv")
                  (to_csv (foldl pd_concat first frames)) st1).
Proof.
  intros results input json_files st1 csv_files Hexists Hjson Hcsv Hne Hdocs Hframes.
  unfold combine_parallel_results.
  rewrite (run_bind_ok _ _ _ _ _ (aws_exists_found _ _ Hexists)).
  change (negb true) with false. cbv iota.
  unfold pairs. rewrite for_fold_cons.
  rewrite (combine_pair_json flavor dataset output_folder (flavor +:+ "_results")
             PNone st docs Hjson Hne Hdocs).
  fold results. fold st1. rewrite for_fold_cons.
  unfold combine_pair at 1. rewrite run_get.
  fold input. fold (pattern_of output_folder input ".csv"). fold csv_files.
  rewrite bool_decide_eq_false_2; last first.
  { intros Hlen. apply Forall2_length in Hframes. rewrite Hlen in Hframes. done. }
  rewrite run_bind, (load_csv_files_first _ _ _ _ Hframes).
  cbv iota beta.
  rewrite (bool_decide_eq_false_2 (1%nat = 0%nat)) by done.
  change (String.eqb ".csv" ".json") with false. cbv iota.
  rewrite run_ret, run_bind, (remote_write_run _ _ _ Hcsv).
  reflexivity.
Qed.

(** Reading decodable JSON files leaves [results] empty or a list. *)
Lemma load_json_prefix st files docs :
  Forall2 (holds_doc st) files docs →
  ∀ results, (∀ t, results ≠ Table t) →
    ∃ results', (∀ t, results' ≠ Table t)
      ∧ for_fold files results (load_file ".json") st = (Ok results', st).
Proof.
  induction 1 as [|f d files docs (stored & Hf & Hd) _ IH]; intros results Hr.
  - by exists results.
  - rewrite for_fold_cons. unfold load_file at 1. rewrite run_bind.
    unfold remote_read at 1. rewrite Hf. cbv iota beta.
    change (String.eqb ".json" ".json") with true. cbv iota.
    rewrite run_lift_bind, Hd. cbv iota beta.
    destruct results as [|l|t]; [apply IH; done|apply IH; done|by destruct (Hr t)].
Qed.

(** X14: one JSON partition that cannot be read (the object is gone
    between the listing and the read, or its bytes do not decode) fails the
    whole reduction with that error, and nothing is stored: the partitions
    read before it are not written out. *)
Theorem combine_unreadable_partition (flavor dataset output_folder : string)
    (st : state) (before after : list string) (f : string)
    (docs : list json_doc) (e : exn) :
  (aws_exists output_folder st).1 = Ok true →
  PyExtra.sorted (s3_glob (remote st)
                    (pattern_of output_folder (flavor +:+ "_results") ".json"))
  = before ++ f :: after →
  Forall2 (holds_doc st) before docs →
  unreadable st f e →
  combine_parallel_results flavor dataset output_folder st = (Raise e, st).
Proof.
  intros Hexists Hfiles Hdocs Hbad.
  unfold combine_parallel_results.
  rewrite (run_bind_ok _ _ _ _ _ (aws_exists_found _ _ Hexists)).
  change (negb true) with false. cbv iota.
  unfold pairs. rewrite for_fold_cons.
  unfold combine_pair at 1. rewrite run_get.
  fold (pattern_of output_folder (flavor +:+ "_results") ".json").
  rewrite Hfiles.
  rewrite bool_decide_eq_false_2
    by (rewrite length_app; simpl; lia).
  rewrite run_bind, for_fold_app.
  destruct (load_json_prefix st before docs Hdocs NoResult) as (r & _ & ->); [done|].
  rewrite for_fold_cons. unfold load_file at 1. rewrite run_bind.
  unfold remote_read at 1.
  destruct Hbad as [[-> ->]|(stored & -> & Hd)]; [done|].
  cbv iota beta. change (String.eqb ".json" ".json") with true. cbv iota.
  by rewrite run_lift_bind, Hd.
Qed.

(** X15: with an [s3://] folder that S3 does not know,
    [combine_parallel_results] fails with [FileNotFoundError] before it
    lists or reads anything, and changes nothing. *)
Theorem combine_missing_folder (flavor dataset output_folder : string) (st : state) :
  PyStr.startswith "s3://" output_folder = true →
  s3_exists (remote st) output_folder = false →
  combine_parallel_results flavor dataset output_folder st
  = (Raise (FileNotFoundError ("Output folder does not exist for parallel results: '"
                               +:+ output_folder +:+ "'")), st).
Proof.
  intros Hs3 Hmissing. unfold combine_parallel_results, aws_exists.
  rewrite Hs3, run_bind, run_get. simpl. by rewrite Hmissing.
Qed.

End reducer_more_facts.

Lemma combine_whole_run_witness :
  let st := Demo.start
    {[ "bucket/run/chunks/court_results_1.json" := File "[3]" 7;
       "bucket/run/chunks/court_results_0.json" := File "[1, 2]" 5;
       "bucket/run/chunks/court_input_1.csv" := File "b,2" 7;
       "bucket/run/chunks/court_input_0.csv" := File "a,1" 5 ]} ∅ in
  let docs := [JArray [PInt 1; PInt 2]; JArray [PInt 3]] in
  let first : list string := ["a,1"] in
  let frames : list (list string) := [["b,2"]] in
  let st1 := write_remote
               (artifact_key "s3://bucket/run/chunks" ("court" +:+ "_results") ".json")
               (json_dumps (concat (doc_values <$> docs))) st in
  combine_parallel_results "court" "2020" "s3://bucket/run/chunks" st
  = (Ok (PStr (combined_filename "s3://bucket/run/chunks" ("court" +:+ "_results") ".json")),
     write_remote (artifact_key "s3://bucket/run/chunks" ("court" +:+ "_input") ".csv")
                  (@to_csv Demo.env (foldl (@pd_concat Demo.env) first frames)) st1).
Proof.
  intros st docs first frames st1.
  apply (@combine_whole_run Demo.env "court" "2020" "s3://bucket/run/chunks" st docs
           first frames).
  - reflexivity.
  - reflexivity.
  - reflexivity.
  - vm_compute. discriminate.
  - vm_compute. repeat constructor; eexists; (split; [reflexivity|reflexivity]).
  - vm_compute. repeat constructor; eexists; (split; [reflexivity|reflexivity]).
Defined.

Lemma combine_unreadable_partition_witness :
  let st := Demo.start
    {[ "bucket/run/chunks/court_results_0.json" := File "[1, 2]" 5;
       "bucket/run/chunks/court_results_1.json" := File "{" 7 ]} ∅ in
  combine_parallel_results "court" "2020" "s3://bucket/run/chunks" st
  = (Raise (LibraryError "JSONDecodeError"), st).
Proof.
  intros st.
  apply (combine_unreadable_partition "court" "2020" "s3://bucket/run/chunks" st
           ["bucket/run/chunks/court_results_0.json"] []
           "bucket/run/chunks/court_results_1.json" [JArray [PInt 1; PInt 2]]).
  - reflexivity.
  - vm_compute. reflexivity.
  - vm_compute. repeat constructor; eexists; (split; [reflexivity|reflexivity]).
  - right. vm_compute. eexists; (split; [reflexivity|reflexivity]).
Defined.

Lemma combine_missing_folder_witness :
  combine_parallel_results "court" "2020" "s3://bucket/run/chunks" (Demo.start ∅ ∅)
  = (Raise (FileNotFoundError ("Output folder does not exist for parallel results: '"
                               +:+ "s3://bucket/run/chunks" +:+ "'")),
     Demo.start ∅ ∅).
Proof.
  apply (combine_missing_folder "court" "2020" "s3://bucket/run/chunks" (Demo.start ∅ ∅)).
  - reflexivity.
  - reflexivity.
Defined.

(** ** Paths made of plain components *)

Section plain_paths.

Lemma append_assoc (a b c : string) : (a +:+ b) +:+ c = a +:+ (b +:+ c).
Proof.
  induction a as [|x a IH]; [done|].
  change (String x ((a +:+ b) +:+ c) = String x (a +:+ (b +:+ c))). by f_equal.
Qed.

Lemma split_no_sep (sep : ascii) (x : string) :
  PyStr.contains sep x = false → PyStr.split sep x = [x].
Proof.
  induction x as [|c x IH]; simpl; [done|]. intros Hx.
  apply orb_false_iff in Hx as [Hc Hx]. by rewrite Hc, (IH Hx).
Qed.

(** Splitting what was joined gives the fields back, when no field holds
    the separator. *)
Lemma split_join (sep : ascii) (l : list string) :
  l ≠ [] → Forall (λ c, PyStr.contains sep c = false) l →
  PyStr.split sep (PyStr.join (String sep EmptyString) l) = l.
Proof.
  intros Hne Hall. induction Hall as [|x l Hx Hall IH]; [done|].
  destruct l as [|y l].
  - simpl. by apply split_no_sep.
  - change (PyStr.join (String sep EmptyString) (x :: y :: l))
      with (x +:+ String sep (PyStr.join (String sep EmptyString) (y :: l))).
    rewrite (split_app _ _ _ Hx). f_equal. by apply IH.
Qed.

Lemma join_app (sep : string) (a b : list string) :
  a ≠ [] → b ≠ [] →
  PyStr.join sep (a ++ b) = PyStr.join sep a +:+ sep +:+ PyStr.join sep b.
Proof.
  intros Ha Hb. induction a as [|x a IH]; [done|].
  destruct a as [|y a].
  - destruct b; done.
  - change (PyStr.join sep ((x :: y :: a) ++ b))
      with (x +:+ sep +:+ PyStr.join sep ((y :: a) ++ b)).
    rewrite IH by done.
    change (PyStr.join sep (x :: y :: a)) with (x +:+ sep +:+ PyStr.join sep (y :: a)).
    by rewrite !append_assoc.
Qed.

Lemma plain_no_slash c : plain c → PyStr.contains "/" c = false.
Proof. by intros (_ & _ & _ & ?). Qed.

Lemma plain_first c : plain c → ∃ a rest, c = String a rest ∧ a ≠ "/"%char.
Proof.
  intros (Hne & _ & _ & Hslash). destruct c as [|a rest]; [done|].
  exists a, rest. split; [done|]. simpl in Hslash.
  apply orb_false_iff in Hslash as [Ha _]. by apply Ascii.eqb_neq.
Qed.

(** A joined path starts as its first component does. *)
Lemma join_first sep a rest l :
  ∃ rest', PyStr.join sep (String a rest :: l) = String a rest'.
Proof. destruct l; simpl; eauto. Qed.

Lemma startswith_slash a rest : a ≠ "/"%char → PyStr.startswith "/" (String a rest) = false.
Proof.
  intros Ha. unfold PyStr.startswith.
  change (String.prefix "/" (String a rest))
    with (if Ascii.ascii_dec "/" a then String.prefix "" rest else false).
  by destruct (Ascii.ascii_dec "/" a) as [<-|].
Qed.

Lemma normpath_step_plain slashes acc c :
  plain c → Paths.normpath_step slashes acc c = acc ++ [c].
Proof.
  intros (Hne & Hdot & Hdots & _). unfold Paths.normpath_step.
  rewrite bool_decide_eq_false_2 by (by intros [|]).
  by rewrite (proj2 (String.eqb_neq _ _) Hdots).
Qed.

Lemma normpath_plain slashes l :
  Forall plain l → ∀ acc, fold_left (Paths.normpath_step slashes) l acc = acc ++ l.
Proof.
  induction 1 as [|c l Hc _ IH]; intros acc; simpl; [by rewrite app_nil_r|].
  by rewrite (normpath_step_plain _ _ _ Hc), IH, <- app_assoc.
Qed.

(** [normpath] of a path that is not empty and does not start with a
    slash. *)
Lemma normpath_relative (a : ascii) (whole : string) :
  a ≠ "/"%char →
  Paths.normpath (String a whole)
  = let body := PyStr.join "/" (fold_left (Paths.normpath_step 0)
                                  (PyStr.split "/" (String a whole)) []) in
    if String.eqb body "" then "." else body.
Proof.
  intros Ha. unfold Paths.normpath.
  change (String.eqb (String a whole) "") with false. cbv iota.
  by rewrite (startswith_slash _ _ Ha).
Qed.

(** [normpath] of [a/b/.../chunks/../name]: the last folder and the two
    dots cancel. *)
Lemma normpath_parent (first : string) (folders : list string) (chunks name : string) :
  plain first → Forall plain folders → plain chunks → plain name →
  Paths.normpath (PyStr.join "/" (first :: folders ++ [chunks]) +:+ "/../" +:+ name)
  = PyStr.join "/" (first :: folders ++ [name]).
Proof.
  intros Hfirst Hfolders Hchunks Hname.
  assert (PyStr.join "/" (first :: folders ++ [chunks]) +:+ "/../" +:+ name
          = PyStr.join "/" ((first :: folders ++ [chunks]) ++ [".."; name])) as ->.
  { by rewrite join_app. }
  destruct (plain_first _ Hfirst) as (a & rest & -> & Ha).
  destruct (join_first "/" a rest ((folders ++ [chunks]) ++ [".."; name]))
    as [whole Hwhole].
  change ((String a rest :: folders ++ [chunks]) ++ [".."; name])
    with (String a rest :: (folders ++ [chunks]) ++ [".."; name]).
  rewrite Hwhole, (normpath_relative _ _ Ha), <- Hwhole.
  rewrite split_join; [|done|]; last first.
  { apply Forall_cons. split; [by apply plain_no_slash|].
    apply Forall_app. split.
    - apply Forall_app. split; [|by apply Forall_singleton, plain_no_slash].
      eapply Forall_impl; [exact Hfolders|]. apply plain_no_slash.
    - apply Forall_cons. split; [done|]. by apply Forall_singleton, plain_no_slash. }
  change (String a rest :: (folders ++ [chunks]) ++ [".."; name])
    with ((String a rest :: folders ++ [chunks]) ++ [".."; name]).
  rewrite fold_left_app, (normpath_plain _ (String a rest :: folders ++ [chunks]));
    last first.
  { apply Forall_cons. split; [done|]. apply Forall_app. split; [done|].
    by apply Forall_singleton. }
  change ([] ++ String a rest :: folders ++ [chunks])
    with ((String a rest :: folders) ++ [chunks]).
  change (fold_left (Paths.normpath_step 0) [".."; name] ?acc)
    with (Paths.normpath_step 0 (Paths.normpath_step 0 acc "..") name).
  assert (Paths.normpath_step 0 ((String a rest :: folders) ++ [chunks]) ".."
          = String a rest :: folders) as ->.
  { unfold Paths.normpath_step.
    rewrite bool_decide_eq_false_2 by (by intros [|]).
    change (String.eqb ".." "..") with true.
    rewrite (bool_decide_eq_false_2 (_ = [])) by (by destruct folders).
    rewrite andb_false_r, last_snoc.
    destruct Hchunks as (_ & _ & Hdots & _).
    rewrite (proj2 (String.eqb_neq _ _) Hdots). simpl orb. cbv iota.
    apply removelast_last. }
  rewrite (normpath_step_plain _ _ _ Hname).
  destruct (join_first "/" a rest (folders ++ [name])) as [body Hbody].
  change ((String a rest :: folders) ++ [name])
    with (String a rest :: folders ++ [name]).
  cbv zeta. by rewrite Hbody.
Qed.

End plain_paths.

Lemma startswith_append (p s : string) : PyStr.startswith p (p +:+ s) = true.
Proof.
  unfold PyStr.startswith. induction p as [|c p IH].
  - change ("" +:+ s) with s. by destruct s.
  - change (String.prefix (String c p) (String c p +:+ s))
      with (if Ascii.ascii_dec c c then String.prefix p (p +:+ s) else false).
    by destruct (Ascii.ascii_dec c c).
Qed.

(** X16: for a chunks folder [s3://bucket/.../chunks] written with
    plain components (none empty, [.] or [..]), the combined artifact of a
    pair is stored beside the folder, in its parent:
    [s3://bucket/.../<tag><extension>]. *)
Theorem combined_filename_in_parent (bucket : string) (folders : list string)
    (chunks tag extension : string) :
  plain bucket → Forall plain folders → plain chunks → plain (tag +:+ extension) →
  combined_filename ("s3://" +:+ PyStr.join "/" (bucket :: folders ++ [chunks]))
                    tag extension
  = "s3://" +:+ PyStr.join "/" (bucket :: folders ++ [tag +:+ extension]).
Proof.
  intros Hbucket Hfolders Hchunks Hname. unfold combined_filename.
  rewrite append_assoc, startswith_append.
  change (PyStr.drop 5 ("s3://" +:+ ?s)) with s.
  by rewrite (normpath_parent _ _ _ _ Hbucket Hfolders Hchunks Hname).
Qed.

Ltac plain_literal :=
  split; [|split; [|split]]; [by vm_compute|by vm_compute|by vm_compute|reflexivity].

Lemma combined_filename_in_parent_witness :
  combined_filename ("s3://" +:+ PyStr.join "/" ("bucket" :: ["runs"; "2020"] ++ ["chunks"]))
                    "court_results" ".json"
  = "s3://" +:+ PyStr.join "/" ("bucket" :: ["runs"; "2020"]
                                ++ ["court_results" +:+ ".json"]).
Proof.
  apply (combined_filename_in_parent "bucket" ["runs"; "2020"] "chunks"
           "court_results" ".json").
  - plain_literal.
  - repeat apply Forall_cons_2; [plain_literal|plain_literal|apply Forall_nil_2].
  - plain_literal.
  - plain_literal.
Defined.

(** ** Paths below the home directory *)

Section home_paths.
Context `{Env}.

Lemma strip_prefix_Some pre l rel :
  Paths.strip_prefix pre l = Some rel → l = pre ++ rel.
Proof.
  revert l. induction pre as [|x pre IH]; intros l; simpl.
  - by intros [= ->].
  - destruct l as [|y l]; [done|].
    destruct (String.eqb_spec x y) as [->|]; [|done].
    intros Hrest. by rewrite (IH _ Hrest).
Qed.

Lemma strip_prefix_app pre rel : Paths.strip_prefix pre (pre ++ rel) = Some rel.
Proof.
  induction pre as [|x pre IH]; simpl; [done|]. by rewrite String.eqb_refl.
Qed.

Lemma filter_all {A} (P : A → Prop) `{!∀ x, Decision (P x)} (l : list A) :
  Forall P l → filter P l = l.
Proof.
  induction 1 as [|x l Hx _ IH]; [done|].
  by rewrite filter_cons_True, IH.
Qed.

Lemma parts_fields p :
  Forall (λ c, c ≠ "" ∧ c ≠ "." ∧ PyStr.contains "/" c = false) (Paths.parts p).
Proof.
  unfold Paths.parts. apply Forall_forall. intros c Hc.
  apply list_elem_of_filter in Hc as [[Hne Hdot] Hc].
  split; [done|]. split; [done|].
  by apply (proj1 (Forall_forall _ _) (split_fields "/" p)).
Qed.

Lemma parts_append a b :
  Paths.parts (a +:+ "/" +:+ b) = Paths.parts a ++ Paths.parts b.
Proof.
  unfold Paths.parts. change (a +:+ "/" +:+ b) with (a +:+ String "/" b).
  by rewrite split_append, filter_app.
Qed.

Lemma parts_join rel :
  rel ≠ [] → Forall plain rel → Paths.parts (PyStr.join "/" rel) = rel.
Proof.
  intros Hne Hall. unfold Paths.parts.
  rewrite split_join; [|done|by eapply Forall_impl; [exact Hall|apply plain_no_slash]].
  apply filter_all. eapply Forall_impl; [exact Hall|].
  by intros c (? & ? & _).
Qed.

Lemma removelast_Forall {A} (P : A → Prop) (l : list A) :
  Forall P l → Forall P (removelast l).
Proof.
  induction 1 as [|x l Hx Hl IH]; [done|]. simpl.
  destruct l; [constructor|]. by constructor.
Qed.

Lemma steps_plain l :
  Forall (λ c, c ≠ "" ∧ c ≠ "." ∧ PyStr.contains "/" c = false) l →
  ∀ acc, Forall plain acc → Forall plain (fold_left Paths.step l acc).
Proof.
  induction 1 as [|c l (Hne & Hdot & Hslash) _ IH]; intros acc Hacc; [done|].
  simpl. apply IH. unfold Paths.step.
  destruct (String.eqb_spec c "..") as [->|Hdots].
  - by apply removelast_Forall.
  - apply Forall_app. split; [done|]. by apply Forall_singleton.
Qed.

(** A resolved path has plain components only. *)
Lemma resolve_plain base p : Forall plain (Paths.resolve base p).
Proof.
  unfold Paths.resolve. apply steps_plain; [apply parts_fields|].
  destruct (Paths.is_abs p); [done|].
  apply steps_plain; [apply parts_fields|done].
Qed.

Lemma steps_append l :
  Forall plain l → ∀ acc, fold_left Paths.step l acc = acc ++ l.
Proof.
  induction 1 as [|c l (_ & _ & Hdots & _) _ IH]; intros acc; simpl;
    [by rewrite app_nil_r|].
  unfold Paths.step at 2. rewrite (proj2 (String.eqb_neq _ _) Hdots).
  by rewrite IH, <- app_assoc.
Qed.

Lemma relative_name_parts rel :
  Forall plain rel → Paths.parts (relative_name rel) = rel.
Proof.
  intros Hall. destruct rel as [|c rel]; [done|]. by apply parts_join.
Qed.

Lemma relative_name_first rel :
  Forall plain rel → ∃ a rest, relative_name rel = String a rest ∧ a ≠ "/"%char.
Proof.
  intros Hall. destruct rel as [|c rel].
  - by exists "."%char, "".
  - apply Forall_cons in Hall as [Hc _].
    destruct (plain_first _ Hc) as (a & rest & -> & Ha).
    destruct (join_first "/" a rest rel) as [rest' Hjoin].
    exists a, rest'. by split.
Qed.

Lemma resolve_relative_to_below base p rel :
  Paths.is_abs HOME_DIR = true →
  Paths.resolve base p = Paths.parts HOME_DIR ++ rel →
  Paths.resolve_relative_to HOME_DIR base p = Ok (relative_name rel).
Proof.
  intros Habs Hrel. unfold Paths.resolve_relative_to.
  rewrite Habs, Hrel, strip_prefix_app. by destruct rel.
Qed.

Lemma resolve_relative_to_outside base p :
  ¬ below_home base p →
  Paths.resolve_relative_to HOME_DIR base p
  = Raise (ValueError "path is not in the subpath of HOME_DIR").
Proof.
  intros Hout. unfold Paths.resolve_relative_to.
  destruct (Paths.is_abs HOME_DIR); [|done].
  destruct (Paths.strip_prefix _ _) as [rel|] eqn:Hstrip; [|done].
  destruct Hout. exists rel. by apply strip_prefix_Some.
Qed.

(** The relative name, read from [HOME_DIR], is the path it came from. *)
Lemma relative_name_resolve base p rel :
  home_normal →
  Paths.resolve base p = Paths.parts HOME_DIR ++ rel →
  Paths.resolve HOME_DIR (relative_name rel) = Paths.resolve base p.
Proof.
  intros [Habs Hnormal] Hrel.
  assert (Forall plain rel) as Hplain.
  { pose proof (resolve_plain base p) as Hall. rewrite Hrel in Hall.
    by apply Forall_app in Hall as [_ ?]. }
  destruct (relative_name_first rel Hplain) as (a & rest & Hname & Ha).
  unfold Paths.resolve at 1. unfold Paths.is_abs at 1.
  rewrite Hname, (startswith_slash _ _ Ha), <- Hname.
  by rewrite (relative_name_parts _ Hplain), Hnormal, (steps_append _ Hplain).
Qed.

End home_paths.

(** ** [AWS.exists] and the paths of [sync] *)

Section local_side_facts.
Context `{Env}.

Lemma is_abs_prefix (a b : string) :
  a ≠ "" → Paths.is_abs (a +:+ b) = Paths.is_abs a.
Proof.
  intros Ha. destruct a as [|c a]; [done|].
  unfold Paths.is_abs, PyStr.startswith.
  change (String.prefix "/" (String c a +:+ b))
    with (if Ascii.ascii_dec "/" c then String.prefix "" (a +:+ b) else false).
  change (String.prefix "/" (String c a))
    with (if Ascii.ascii_dec "/" c then String.prefix "" a else false).
  destruct (Ascii.ascii_dec "/" c); [|done].
  destruct (a +:+ b); by destruct a.
Qed.

Lemma resolve_relative_to_Ok base p r :
  Paths.resolve_relative_to HOME_DIR base p = Ok r →
  ∃ rel, Paths.resolve base p = Paths.parts HOME_DIR ++ rel ∧ r = relative_name rel.
Proof.
  unfold Paths.resolve_relative_to.
  destruct (Paths.is_abs HOME_DIR); [|done].
  destruct (Paths.strip_prefix _ _) as [rel|] eqn:Hstrip; [|done].
  intros Hr. exists rel. split; [by apply strip_prefix_Some|].
  destruct rel; by injection Hr as <-.
Qed.

(** X17: [exists] on a path that is not an [s3://] one, in a process
    that works in [HOME_DIR]: a path outside [HOME_DIR] is refused with the
    [ValueError] of [relative_to], and for a path in [HOME_DIR] or below it
    the answer is whether the operating system finds that path; either way
    nothing changes. *)
Theorem exists_local (path : string) (st : state) :
  home_normal → cwd st = HOME_DIR → PyStr.startswith "s3://" path = false →
  (below_home (cwd st) path → aws_exists path st = (Ok (os_exists st path), st))
  ∧ (¬ below_home (cwd st) path →
     aws_exists path st
     = (Raise (ValueError "path is not in the subpath of HOME_DIR"), st)).
Proof.
  intros Hhome Hcwd Hlocal. unfold aws_exists. rewrite Hlocal, run_get, run_lift_bind.
  split.
  - intros [rel Hrel].
    rewrite (resolve_relative_to_below _ _ _ (proj1 Hhome) Hrel). cbv iota beta.
    pose proof (relative_name_resolve _ _ _ Hhome Hrel) as Hback.
    rewrite <- Hcwd in Hback.
    unfold os_exists, Paths.os_path. by rewrite Hback.
  - intros Hout. by rewrite (resolve_relative_to_outside _ _ Hout).
Qed.

(** X18: what [sync] refuses, before it lists or copies anything and
    without changing anything: a call in which neither path starts with
    [s3://], and a call whose local side (the destination when the source is
    on S3, else the source) lies outside [HOME_DIR]. *)
Theorem sync_rejects (source dest : string) (dry_run : bool) (st : state) :
  (PyStr.startswith "s3://" source = false → PyStr.startswith "s3://" dest = false →
   sync source dest dry_run st
   = (Raise (ValueError "One of source or dest should start with s3://"), st))
  ∧ (PyStr.startswith "s3://" source = true → ¬ below_home (cwd st) dest →
     sync source dest dry_run st
     = (Raise (ValueError "path is not in the subpath of HOME_DIR"), st))
  ∧ (PyStr.startswith "s3://" source = false → PyStr.startswith "s3://" dest = true →
     ¬ below_home (cwd st) source →
     sync source dest dry_run st
     = (Raise (ValueError "path is not in the subpath of HOME_DIR"), st)).
Proof.
  split; [|split].
  - intros Hs Hd. unfold sync. by rewrite Hs, Hd.
  - intros Hs Hout. unfold sync. rewrite Hs, run_ret, run_get.
    rewrite run_bind, run_lift_bind.
    by rewrite (resolve_relative_to_outside _ _ Hout).
  - intros Hs Hd Hout. unfold sync. rewrite Hs, Hd, run_ret, run_get.
    rewrite run_bind, run_lift_bind.
    by rewrite (resolve_relative_to_outside _ _ Hout).
Qed.

(** Where a fetched file is written: below the folder the caller named. *)
Lemma fetch_target base dest rel key c :
  home_normal → dest ≠ "" →
  Paths.resolve base dest = Paths.parts HOME_DIR ++ rel →
  Paths.os_path c (Paths.joinpath HOME_DIR (relative_name rel +:+ "/" +:+ key))
  = Paths.os_path base (dest +:+ "/" +:+ key).
Proof.
  intros [Habs Hnormal] Hdest Hrel.
  assert (Forall plain rel) as Hplain.
  { pose proof (resolve_plain base dest) as Hall. rewrite Hrel in Hall.
    by apply Forall_app in Hall as [_ ?]. }
  destruct (relative_name_first rel Hplain) as (a & rest & Hname & Ha).
  unfold Paths.os_path. do 2 f_equal.
  unfold Paths.joinpath.
  assert (Paths.is_abs (relative_name rel +:+ "/" +:+ key) = false) as ->.
  { rewrite Hname. apply (startswith_slash a _ Ha). }
  unfold Paths.resolve.
  rewrite (is_abs_append _ _ Habs), (is_abs_prefix dest _ Hdest).
  rewrite !parts_append, !fold_left_app, Hnormal.
  rewrite (relative_name_parts _ Hplain), (steps_append _ Hplain).
  f_equal. fold (Paths.resolve base dest). by rewrite Hrel.
Qed.

Lemma sync_file_from_remote_cases relative source_file st :
  let target := Paths.os_path (cwd st)
                  (Paths.joinpath HOME_DIR (dest_file_of relative source_file)) in
  let st' := (sync_file Aws relative false source_file st).2 in
  st' = st
  ∨ ∃ src, st' = log_transfer (Paths.s3_key source_file) target
                   (write_local target (data src) st).
Proof.
  intros target st'. subst st'. unfold sync_file.
  rewrite run_get, run_ret, run_bind.
  pose proof (out_of_date_unchanged Aws source_file
                (dest_file_of relative source_file) st) as Hsame.
  destruct (out_of_date _ _ _ st) as [[[]|e] s1]; simpl in Hsame; subst s1;
    [|by left|by left].
  rewrite remote_get_run. case_match; [right; eauto|by left].
Qed.

Lemma sync_loop_targets relative files :
  ∀ st, ∃ fetched,
    transfers (for_each files (sync_file Aws relative false) st).2
    = transfers st ++ fetched
    ∧ ∀ s t, (s, t) ∈ fetched →
        ∃ f, f ∈ files ∧ s = Paths.s3_key f
             ∧ t = Paths.os_path (cwd st)
                     (Paths.joinpath HOME_DIR (dest_file_of relative f)).
Proof.
  induction files as [|f files IH]; intros st.
  - exists []. split; [by rewrite app_nil_r|]. intros s t Hin.
    by apply elem_of_nil in Hin.
  - change (for_each (f :: files) ?b) with (b f ;; for_each files b).
    rewrite run_bind.
    assert (∃ step, transfers (sync_file Aws relative false f st).2
                    = transfers st ++ step
                    ∧ cwd (sync_file Aws relative false f st).2 = cwd st
                    ∧ ∀ s t, (s, t) ∈ step →
                        s = Paths.s3_key f
                        ∧ t = Paths.os_path (cwd st)
                                (Paths.joinpath HOME_DIR (dest_file_of relative f)))
      as (step & Htr & Hcwd & Hstep).
    { destruct (sync_file_from_remote_cases relative f st) as [->|[src ->]].
      - exists []. split; [by rewrite app_nil_r|]. split; [done|].
        intros s t Hin. by apply elem_of_nil in Hin.
      - eexists [_]. split; [done|]. split; [done|].
        intros s t Hin. apply list_elem_of_singleton in Hin. by injection Hin as -> ->. }
    destruct (sync_file Aws relative false f st) as [[[]|e] s1]; simpl in Htr, Hcwd.
    + destruct (IH s1) as (fetched & Hrest & Hall).
      exists (step ++ fetched). split; [by rewrite Hrest, Htr, app_assoc|].
      intros s t Hin. apply elem_of_app in Hin as [Hin|Hin].
      * destruct (Hstep s t Hin) as [-> ->]. exists f. split; [left|done].
      * destruct (Hall s t Hin) as (g & Hg & -> & ->).
        exists g. split; [by right|]. by rewrite Hcwd.
    + exists step. split; [done|]. intros s t Hin.
      destruct (Hstep s t Hin) as [-> ->]. exists f. split; [left|done].
Qed.

(** X19: from S3 to the disk, whatever directory the process works in:
    every copy a run of [sync] records is the fetch of a listed source file,
    and it is written at the place the caller's [dest] names, below it under
    the file's name without its first component (the bucket). *)
Theorem sync_from_remote_targets (source dest : string) (st : state) :
  home_normal → PyStr.startswith "s3://" source = true → dest ≠ "" →
  ∃ fetched,
    transfers (sync source dest false st).2 = transfers st ++ fetched
    ∧ ∀ s t, (s, t) ∈ fetched →
        ∃ f, f ∈ s3_find (remote st) source ∧ s = Paths.s3_key f
             ∧ t = Paths.os_path (cwd st) (dest_file_of dest f).
Proof.
  intros Hhome Hs3 Hdest.
  destruct (Paths.resolve_relative_to HOME_DIR (cwd st) dest) as [relative|e] eqn:Hrel.
  - rewrite (sync_from_remote_run _ _ _ _ _ Hs3 Hrel).
    destruct (resolve_relative_to_Ok _ _ _ Hrel) as (rel & Hres & ->).
    destruct (sync_loop_targets (relative_name rel) (s3_find (remote st) source) st)
      as (fetched & Htr & Hall).
    exists fetched. split; [done|]. intros s t Hin.
    destruct (Hall s t Hin) as (f & Hf & -> & ->).
    exists f. split; [done|]. split; [done|].
    unfold dest_file_of. by apply fetch_target.
  - exists []. unfold sync. rewrite Hs3, run_ret, run_get.
    rewrite run_bind, run_lift_bind, Hrel.
    split; [by rewrite app_nil_r|]. intros s t Hin. by apply elem_of_nil in Hin.
Qed.

End local_side_facts.

Lemma exists_local_witness :
  let st := Demo.start ∅ {[ "/home/u/data/x.json" := File "X" 1 ]} in
  (below_home (cwd st) "data/x.json"
   → aws_exists "data/x.json" st = (Ok (os_exists st "data/x.json"), st))
  ∧ (¬ below_home (cwd st) "data/x.json"
     → aws_exists "data/x.json" st
       = (Raise (ValueError "path is not in the subpath of HOME_DIR"), st)).
Proof.
  intros st. apply (exists_local "data/x.json" st).
  - split; reflexivity.
  - reflexivity.
  - reflexivity.
Defined.

Lemma sync_from_remote_targets_witness :
  let st := Demo.start {[ "bucket/a/x.json" := File "X" 5 ]} ∅ in
  ∃ fetched,
    transfers (sync "s3://bucket" "/home/u/out" false st).2 = transfers st ++ fetched
    ∧ ∀ s t, (s, t) ∈ fetched →
        ∃ f, f ∈ s3_find (remote st) "s3://bucket" ∧ s = Paths.s3_key f
             ∧ t = Paths.os_path (cwd st) (dest_file_of "/home/u/out" f).
Proof.
  intros st. apply (sync_from_remote_targets "s3://bucket" "/home/u/out" st).
  - split; reflexivity.
  - reflexivity.
  - discriminate.
Defined.

(** Each refusal on the small file system. *)
Example sync_rejects_examples :
  let st := Demo.start {[ "bucket/a/x.json" := File "X" 5 ]} ∅ in
  sync "/home/u/in" "/home/u/out" false st
  = (Raise (ValueError "One of source or dest should start with s3://"), st)
  ∧ sync "s3://bucket" "/tmp/out" false st
    = (Raise (ValueError "path is not in the subpath of HOME_DIR"), st)
  ∧ sync "../v/in" "s3://bucket" false st
    = (Raise (ValueError "path is not in the subpath of HOME_DIR"), st).
Proof. vm_compute. by repeat split. Qed.

(** ** [sync]: what a run leaves alone *)

Section sync_more_facts.
Context `{Env}.

#[local] Instance same_remote_preorder : PreOrder same_remote.
Proof.
  split; [by intros st|]. intros a b c Hab Hbc. unfold same_remote in *. congruence.
Qed.

#[local] Instance same_local_preorder : PreOrder same_local.
Proof.
  split; [by intros st|]. intros a b c Hab Hbc. unfold same_local in *. congruence.
Qed.

Lemma remote_get_same_remote rpath lpath : keeps same_remote (remote_get rpath lpath).
Proof. intros st. rewrite remote_get_run. by case_match. Qed.

Lemma remote_put_same_local lpath rpath : keeps same_local (remote_put lpath rpath).
Proof. intros st. rewrite remote_put_run. case_match; [|done]. cbv zeta. by case_match. Qed.

Lemma sync_file_from_remote_same_remote dest dry_run source_file :
  keeps same_remote (sync_file Aws dest dry_run source_file).
Proof.
  unfold sync_file. cbv iota.
  pose proof remote_get_same_remote.
  pose proof (out_of_date_keeps same_remote).
  keeps_go.
Qed.

Lemma sync_file_to_remote_same_local dest dry_run source_file :
  keeps same_local (sync_file Local dest dry_run source_file).
Proof.
  unfold sync_file. cbv iota.
  pose proof remote_put_same_local.
  pose proof (out_of_date_keeps same_local).
  keeps_go.
Qed.

(** X20: [sync] never writes to the side it reads from: with a source
    on S3 the objects on S3 are after the run what they were before it, and
    with a local source the files on the disk are, however the run ends. *)
Theorem sync_source_untouched (source dest : string) (dry_run : bool) (st : state) :
  if PyStr.startswith "s3://" source
  then remote (sync source dest dry_run st).2 = remote st
  else local (sync source dest dry_run st).2 = local st.
Proof.
  unfold sync. destruct (PyStr.startswith "s3://" source).
  - rewrite run_ret, run_get, run_bind, run_lift_bind.
    destruct (Paths.resolve_relative_to _ _ dest) as [relative|e]; [|done].
    change ((mret (source, relative) : M _) st) with (Ok (source, relative), st).
    cbv iota beta. unfold find. rewrite run_bind, run_get. cbv iota.
    change ((mret (s3_find (remote st) source) : M _) st)
      with (Ok (s3_find (remote st) source), st).
    cbv iota beta.
    apply (keeps_for_each same_remote).
    intros f. apply sync_file_from_remote_same_remote.
  - destruct (PyStr.startswith "s3://" dest); [|done].
    rewrite run_ret, run_get, run_bind, run_lift_bind.
    destruct (Paths.resolve_relative_to _ _ source) as [relative|e]; [|done].
    change ((mret (relative, dest) : M _) st) with (Ok (relative, dest), st).
    cbv iota beta. unfold find. rewrite run_bind, run_get. cbv iota.
    set (files := local_find (local st) (Paths.os_path (cwd st) relative)).
    change ((mret files : M _) st) with (Ok files, st).
    cbv iota beta.
    apply (keeps_for_each same_local).
    intros f. apply sync_file_to_remote_same_local.
Qed.

(** X21: [sync] deletes nothing and touches only what it copies to:
    every object on S3 and every file on the disk is still there after a run,
    and apart from the destinations of the copies the run records, each holds
    what it held. *)
Theorem sync_never_deletes (source dest : string) (dry_run : bool) (st : state) :
  let st' := (sync source dest dry_run st).2 in
  (∀ key, is_Some (remote st !! key) → is_Some (remote st' !! key))
  ∧ (∀ key, is_Some (local st !! key) → is_Some (local st' !! key))
  ∧ ∃ copies, transfers st' = transfers st ++ copies
      ∧ ∀ key, key ∉ copies.*2 →
          remote st' !! key = remote st !! key ∧ local st' !! key = local st !! key.
Proof.
  intros st'. subst st'.
  destruct (sync_only_adds source dest dry_run st) as [Hremote Hlocal].
  split; [exact Hremote|]. split; [exact Hlocal|].
  exact (sync_framed source dest dry_run st).
Qed.

End sync_more_facts.

(** ** The edges of the file systems, on the small one *)

(** A file that lies directly in the synced folder has an empty key, so its
    destination ends in a slash: [put] takes it for a folder and stores the
    file inside it under its own name, and no object is named as the
    folder. *)
Example sync_to_remote_top_level_file :
  let st := Demo.start ∅ {[ "/home/u/x.txt" := File "text" 5 ]} in
  let run := sync "/home/u" "s3://bucket/backup" false st in
  dest_file_of "s3://bucket/backup" "x.txt" = "s3://bucket/backup/"
  ∧ run.1 = Ok tt
  ∧ transfers run.2 = [("/home/u/x.txt", "bucket/backup/x.txt")]
  ∧ remote run.2 !! "bucket/backup/x.txt" = Some (File "text" 100)
  ∧ remote run.2 !! "bucket/backup" = None.
Proof. vm_compute. repeat split. Qed.

(** A destination that S3 lists as a folder receives the file inside it. *)
Example sync_to_remote_into_folder :
  let st := Demo.start {[ "bucket/backup/x.txt/part" := File "p" 1 ]}
                       {[ "/home/u/data/x.txt" := File "text" 5 ]} in
  transfers (sync "data" "s3://bucket/backup" false st).2
  = [("/home/u/data/x.txt", "bucket/backup/x.txt/x.txt")].
Proof. vm_compute. repeat split. Qed.

(** C3, as stated, fails for partitions that lie directly in the bucket:
    the folder exists, one JSON partition is found and decodes to a list of
    two items, but the parent of the folder is the root of S3 and the artifact
    has no key.  The reduction fails to open it and stores nothing. *)
Lemma combine_bucket_root_counterexample :
  let st := Demo.start {[ "bucket/court_results_0.json" := File "[1, 2]" 5 ]} ∅ in
  let run := combine_parallel_results "court" "2020" "s3://bucket" st in
  (aws_exists "s3://bucket" st).1 = Ok true
  ∧ PyExtra.sorted (s3_glob (remote st) (pattern_of "s3://bucket" "court_results" ".json"))
    = ["bucket/court_results_0.json"]
  ∧ holds_doc st "bucket/court_results_0.json" (JArray [PInt 1; PInt 2])
  ∧ combined_filename "s3://bucket" "court_results" ".json" = "s3://court_results.json"
  ∧ Paths.has_key "s3://court_results.json" = false
  ∧ run = (Raise (ValueError "Attempt to open non key-like path: court_results.json"), st)
  ∧ remote run.2 = remote st.
Proof.
  split; [reflexivity|]. split; [by vm_compute|].
  split; [eexists; split; reflexivity|].
  by vm_compute.
Qed.

(** In a process that works elsewhere than in [HOME_DIR], the destination
    is looked for below the working directory and written below [HOME_DIR]:
    here it is not found where it is looked for, and the file in place, dated
    after the object, is replaced. *)
Example sync_from_remote_elsewhere :
  let st := State None None [] {[ "bucket/a/x.json" := File "X" 5 ]}
                  {[ "/home/u/out/a/x.json" := File "mine" 9 ]} "/home/u/sub" 100 [] in
  let run := sync "s3://bucket" "/home/u/out" false st in
  os_exists st (dest_file_of "out" "bucket/a/x.json") = false
  ∧ run.1 = Ok tt
  ∧ transfers run.2 = [("bucket/a/x.json", "/home/u/out/a/x.json")]
  ∧ local run.2 !! "/home/u/out/a/x.json" = Some (File "X" 100).
Proof. vm_compute. repeat split. Qed.
